(** * netlify/functions/quote-request.js

    A shallow embedding of the quote-request handler (the version with the
    per-IP rate limit and the confirmation email) and the properties of its
    rate limiter, validator, honeypot and email dispatch.

    JavaScript strings are sequences of UTF-16 code units; JSON values are an
    inductive type; an abrupt completion (a thrown exception) is explicit.
    The runtime's pieces the handler only calls ([Date.now], [JSON.parse],
    [fetch], [console]) appear as inputs and as recorded effects.

    Two other versions of the handler follow, each in a module of its own:
    the earlier one, without rate limit and confirmation email ([Earlier]),
    and the ES module on [node-fetch] that awaits both emails
    ([NodeFetch]). *)

From Stdlib Require Import ZArith NArith List Bool String Ascii Lia Floats.
From stdpp Require Import base option list gmap.

Set Warnings "-register-all".
Local Open Scope string_scope.
Local Open Scope list_scope.
Local Open Scope Z_scope.

(** ** Strings *)

(** A JavaScript string: its UTF-16 code units. *)
Abbreviation jsstring := (list N).

(** An ASCII literal of the source as code units. *)
Definition lit (s : string) : jsstring :=
  List.map N_of_ascii (list_ascii_of_string s).

(** WhiteSpace and LineTerminator code units: what [String.prototype.trim]
    strips and what the regular expression class [\s] matches. *)
Definition is_space (c : N) : bool :=
  ((9 <=? c) && (c <=? 13) || (c =? 32) || (c =? 160) || (c =? 5760)
   || (8192 <=? c) && (c <=? 8202) || (c =? 8232) || (c =? 8233)
   || (c =? 8239) || (c =? 8287) || (c =? 12288) || (c =? 65279))%N.

Fixpoint trim_start (s : jsstring) : jsstring :=
  match s with
  | c :: s' => if is_space c then trim_start s' else s
  | [] => []
  end.

Definition trim_end (s : jsstring) : jsstring :=
  rev (trim_start (rev s)).

(** [s.trim()] *)
Definition trim (s : jsstring) : jsstring := trim_end (trim_start s).

(** [s.split(",")[0]]: the part of [s] before its first comma. *)
Fixpoint before_comma (s : jsstring) : jsstring :=
  match s with
  | c :: s' => if (c =? 44)%N then [] else c :: before_comma s'
  | [] => []
  end.

(** [s.replace(/\n/g, t)] *)
Fixpoint replace_newlines (t s : jsstring) : jsstring :=
  match s with
  | c :: s' =>
      if (c =? 10)%N then t ++ replace_newlines t s'
      else c :: replace_newlines t s'
  | [] => []
  end.

(** Decimal digits of a natural number, as a template literal prints a small
    integer such as [i + 1]. *)
Definition digit (n : nat) : N := (48 + N.of_nat (n mod 10))%N.

Fixpoint decimal_fuel (fuel n : nat) (acc : jsstring) : jsstring :=
  match fuel with
  | O => acc
  | S fuel' =>
      let acc' := digit n :: acc in
      match (n / 10)%nat with
      | O => acc'
      | q => decimal_fuel fuel' q acc'
      end
  end.

Definition decimal (n : nat) : jsstring := decimal_fuel (S n) n [].

(** ** Regular expressions

    The fragment of the pattern language the handler uses, matched by
    derivatives. [test] on a pattern anchored with [^] and [$] is a match of
    the whole string. *)
Module Regex.

Inductive re : Type :=
| Empty                      (* matches nothing *)
| Eps                        (* matches the empty string *)
| Chr (c : N)                (* a literal code unit *)
| NonSpace                   (* \S *)
| Seq (r1 r2 : re)
| Alt (r1 r2 : re)
| Star (r : re).

(** [r+] *)
Definition Plus (r : re) : re := Seq r (Star r).

Fixpoint nullable (r : re) : bool :=
  match r with
  | Empty => false
  | Eps => true
  | Chr _ => false
  | NonSpace => false
  | Seq r1 r2 => nullable r1 && nullable r2
  | Alt r1 r2 => nullable r1 || nullable r2
  | Star _ => true
  end.

Fixpoint deriv (c : N) (r : re) : re :=
  match r with
  | Empty => Empty
  | Eps => Empty
  | Chr d => if (c =? d)%N then Eps else Empty
  | NonSpace => if is_space c then Empty else Eps
  | Seq r1 r2 =>
      if nullable r1
      then Alt (Seq (deriv c r1) r2) (deriv c r2)
      else Seq (deriv c r1) r2
  | Alt r1 r2 => Alt (deriv c r1) (deriv c r2)
  | Star r1 => Seq (deriv c r1) (Star r1)
  end.

Fixpoint full_match (r : re) (s : jsstring) : bool :=
  match s with
  | [] => nullable r
  | c :: s' => full_match (deriv c r) s'
  end.

(** The language of a pattern, declaratively. *)
Inductive matches : re -> jsstring -> Prop :=
| MEps : matches Eps []
| MChr c : matches (Chr c) [c]
| MNonSpace c : is_space c = false -> matches NonSpace [c]
| MSeq r1 r2 s1 s2 :
    matches r1 s1 -> matches r2 s2 -> matches (Seq r1 r2) (s1 ++ s2)
| MAltL r1 r2 s : matches r1 s -> matches (Alt r1 r2) s
| MAltR r1 r2 s : matches r2 s -> matches (Alt r1 r2) s
| MStar0 r : matches (Star r) []
| MStarS r s1 s2 :
    matches r s1 -> matches (Star r) s2 -> matches (Star r) (s1 ++ s2).

End Regex.

(** [/^\S+@\S+\.\S+$/] *)
Definition email_re : Regex.re :=
  Regex.Seq (Regex.Plus Regex.NonSpace)
    (Regex.Seq (Regex.Chr 64)
       (Regex.Seq (Regex.Plus Regex.NonSpace)
          (Regex.Seq (Regex.Chr 46) (Regex.Plus Regex.NonSpace)))).

(** ** Values *)

(** The values [JSON.parse] produces, and [undefined] for what is absent.
    An object lists its own properties, one binding per key. *)
Inductive value : Type :=
| VUndefined
| VNull
| VBool (b : bool)
| VNum (n : float)
| VStr (s : jsstring)
| VArr (elems : list value)
| VObj (props : list (jsstring * value)).

(** What the handler can see thrown. No value here is callable, so calling
    a property of one ([x.trim()], [x.split(",")]) is a [TypeError] unless [x]
    is a string; the provider call throws whatever the transport raises. *)
Inductive error : Type :=
| TypeError
| FetchFailure (message : jsstring).

(** A normal or an abrupt completion. *)
Inductive completion (A : Type) : Type :=
| Normal (a : A)
| Throw (e : error).
Arguments Normal {A} a.
Arguments Throw {A} e.

#[global] Instance error_eq_dec : EqDecision error.
Proof. solve_decision. Defined.

#[global] Instance completion_eq_dec {A} `{EqDecision A}
  : EqDecision (completion A).
Proof. solve_decision. Defined.

Definition bind {A B} (c : completion A) (k : A -> completion B)
  : completion B :=
  match c with
  | Normal a => k a
  | Throw e => Throw e
  end.

Declare Scope js_scope.
Delimit Scope js_scope with js.
Notation "x <- c ;; k" := (bind c (fun x => k))
  (at level 100, c at next level, right associativity) : js_scope.
Local Open Scope js_scope.

(** ToBoolean *)
Definition truthy (v : value) : bool :=
  match v with
  | VUndefined | VNull => false
  | VBool b => b
  | VNum n => negb (PrimFloat.is_zero n || PrimFloat.is_nan n)
  | VStr s => negb (bool_decide (s = []))
  | VArr _ | VObj _ => true
  end.

(** [a || b] *)
Definition or_else (a b : value) : value := if truthy a then a else b.

Fixpoint lookup_prop (k : jsstring) (props : list (jsstring * value))
  : option value :=
  match props with
  | (k', v) :: rest => if bool_decide (k = k') then Some v else lookup_prop k rest
  | [] => None
  end.

Definition has_own (k : jsstring) (v : value) : bool :=
  match v with
  | VObj props => bool_decide (is_Some (lookup_prop k props))
  | _ => false
  end.

(** [o.k] for the property names the handler reads; none of them is an index,
    [length] or a method of a prototype, so on a primitive or an array the
    result is [undefined], and on [undefined] and [null] the read throws. *)
Definition get (o : value) (k : string) : completion value :=
  match o with
  | VUndefined | VNull => Throw TypeError
  | VObj props => Normal (default VUndefined (lookup_prop (lit k) props))
  | _ => Normal VUndefined
  end.

(** [o?.k] *)
Definition get_opt (o : value) (k : string) : completion value :=
  match o with
  | VUndefined | VNull => Normal VUndefined
  | _ => get o k
  end.

Fixpoint join_with (sep : jsstring) (parts : list jsstring) : jsstring :=
  match parts with
  | [] => []
  | [p] => p
  | p :: rest => p ++ sep ++ join_with sep rest
  end.

Fixpoint sequence {A} (cs : list (completion A)) : completion (list A) :=
  match cs with
  | [] => Normal []
  | c :: rest => a <- c ;; r <- sequence rest ;; Normal (a :: r)
  end.

Section ToString.

(** Number::toString, the runtime's shortest round-trip printing. *)
Variable Number_toString : float -> jsstring.

(** ToString. An object with an own [toString] property shadows
    [Object.prototype.toString] with something that is not callable, and
    [valueOf] then returns the object itself: a [TypeError]. An array joins
    its elements with commas, [undefined] and [null] printing as empty. *)
Fixpoint ToString (v : value) : completion jsstring :=
  match v with
  | VUndefined => Normal (lit "undefined")
  | VNull => Normal (lit "null")
  | VBool true => Normal (lit "true")
  | VBool false => Normal (lit "false")
  | VNum n => Normal (Number_toString n)
  | VStr s => Normal s
  | VArr elems =>
      parts <- sequence
                 (List.map (fun e =>
                              match e with
                              | VUndefined | VNull => Normal []
                              | _ => ToString e
                              end) elems) ;;
      Normal (join_with (lit ",") parts)
  | VObj props =>
      if has_own (lit "toString") v then Throw TypeError
      else Normal (lit "[object Object]")
  end.

End ToString.

(** ** The world of one invocation *)

(** The body of an event, as [JSON.parse] reads it. *)
Inductive body_text : Type :=
| BodyAbsent                 (* [event.body] is falsy *)
| BodyMalformed              (* [JSON.parse(event.body)] throws *)
| BodyJSON (v : value).      (* [JSON.parse(event.body)] returns [v] *)

Record event : Type := {
  httpMethod : jsstring;
  headers : value;
  body : body_text
}.

(** A [fetch] response: its status, and the body as [resp.json()] reads it
    ([None] when that rejects). *)
Record fetch_response : Type := {
  status : Z;
  json_body : option value
}.

(** [resp.ok] *)
Definition ok (r : fetch_response) : bool :=
  (200 <=? status r) && (status r <=? 299).

Inductive fetch_outcome : Type :=
| Responds (r : fetch_response)
| Rejects (e : error).

(** The arguments of a [fetch] call, the body before [JSON.stringify]. *)
Record request : Type := {
  url : jsstring;
  method : jsstring;
  authorization : jsstring;
  content_type : jsstring;
  payload_sent : value
}.

(** Whether the caller awaits the call or lets it run on its own. *)
Inductive dispatch : Type := Awaited | Detached.

Inductive log_entry : Type :=
| Warn (label : jsstring) (e : error)
| ErrorStatus (label : jsstring) (code : Z) (data : value)
| ErrorThrown (e : error).

(** What an invocation reads from its surroundings. *)
Record runtime : Type := {
  now : Z;                                (* [Date.now()] *)
  MAILERSEND_TOKEN : option jsstring;     (* [process.env] *)
  MAILERSEND_FROM : option jsstring;
  MAILERSEND_TO : option jsstring;
  provider : fetch_outcome                (* how the awaited call settles *)
}.

(** What an invocation changes: [globalThis.__hits], the console and the
    calls made to the provider. *)
Record state : Type := {
  hits : option (gmap jsstring (list Z));
  console : list log_entry;
  outbound : list (request * dispatch)
}.

(** The response object: [json] stores [JSON.stringify(data)] in [body];
    here the body is kept as [data]. *)
Record response : Type := {
  statusCode : Z;
  response_headers : list (jsstring * jsstring);
  response_body : value
}.

(** The headers of [json]: the content type, and what lets the site call
    the function from the browser. *)
Definition cors_headers : list (jsstring * jsstring) :=
  [ (lit "Content-Type", lit "application/json");
    (lit "Access-Control-Allow-Origin", lit "*");
    (lit "Access-Control-Allow-Headers", lit "Content-Type");
    (lit "Access-Control-Allow-Methods", lit "POST, OPTIONS") ].

Definition json (code : Z) (data : value) : response :=
  {| statusCode := code;
     response_headers := cors_headers;
     response_body := data |}.

(** Computations that read and change the state and may throw; the state
    reached when an exception is thrown is kept. *)
Definition M (A : Type) : Type := state -> completion A * state.

Definition ret {A} (a : A) : M A := fun st => (Normal a, st).

Definition throw {A} (e : error) : M A := fun st => (Throw e, st).

Definition bindM {A B} (m : M A) (k : A -> M B) : M B :=
  fun st =>
    match m st with
    | (Normal a, st') => k a st'
    | (Throw e, st') => (Throw e, st')
    end.

Definition lift {A} (c : completion A) : M A := fun st => (c, st).

(** [try { m } catch (e) { h e }] *)
Definition try_catch {A} (m : M A) (h : error -> M A) : M A :=
  fun st =>
    match m st with
    | (Normal a, st') => (Normal a, st')
    | (Throw e, st') => h e st'
    end.

Definition get_hits : M (option (gmap jsstring (list Z))) :=
  fun st => (Normal (hits st), st).

Definition set_hits (h : gmap jsstring (list Z)) : M unit :=
  fun st =>
    (Normal tt,
     {| hits := Some h; console := console st; outbound := outbound st |}).

Definition log (e : log_entry) : M unit :=
  fun st =>
    (Normal tt,
     {| hits := hits st; console := console st ++ [e];
        outbound := outbound st |}).

Definition call (r : request) (d : dispatch) : M unit :=
  fun st =>
    (Normal tt,
     {| hits := hits st; console := console st;
        outbound := outbound st ++ [(r, d)] |}).

Declare Scope M_scope.
Delimit Scope M_scope with M.
Notation "x <- c ;; k" := (bindM c (fun x => k))
  (at level 100, c at next level, right associativity) : M_scope.
Notation "c ;;; k" := (bindM c (fun _ => k))
  (at level 100, right associativity) : M_scope.

(** ** The handler *)

(** An object literal, with its keys written as ASCII. *)
Definition obj (props : list (string * value)) : value :=
  VObj (List.map (fun kv => (lit (fst kv), snd kv)) props).

Definition str (s : string) : value := VStr (lit s).

Definition RATE : Z := 5.
Definition WINDOW_MS : Z := 10 * 60 * 1000.

(** [(event.headers["x-forwarded-for"] || event.headers["client-ip"] || "")
      .split(",")[0].trim() || "unknown"] *)
Definition client_ip (hdrs : value) : completion jsstring :=
  xff <- get hdrs "x-forwarded-for" ;;
  h <- (if truthy xff then Normal xff
        else cip <- get hdrs "client-ip" ;; Normal (or_else cip (VStr []))) ;;
  match h with
  | VStr s =>
      let ip := trim (before_comma s) in
      Normal (if bool_decide (ip = []) then lit "unknown" else ip)
  | _ => Throw TypeError
  end.

(** [bucket.filter((t) => now - t < WINDOW_MS)] *)
Definition prune (now : Z) (bucket : list Z) : list Z :=
  List.filter (fun t => now - t <? WINDOW_MS) bucket.

(** [globalThis.__hits ||= new Map()] *)
Definition hits_or_new : M (gmap jsstring (list Z)) :=
  (h <- get_hits ;;
   match h with
   | Some store => ret store
   | None => set_hits ∅ ;;; ret ∅
   end)%M.

Definition too_many_requests : response :=
  json 429 (obj [("error", str "Too many requests. Please try again later.")]).

(** The body of the [try] of step 0: [Some r] when it returns [r], [None]
    when it falls through to the rest of the handler. *)
Definition check_rate (rt : runtime) (ev : event) : M (option response) :=
  (ip <- lift (client_ip (headers ev)) ;;
   store <- hits_or_new ;;
   let bucket := prune (now rt) (default [] (store !! ip)) ++ [now rt] in
   set_hits (<[ip := bucket]> store) ;;;
   if RATE <? Z.of_nat (length bucket)
   then ret (Some too_many_requests)
   else ret None)%M.

(** Step 0 with its [catch]: a failure of the check is logged and the
    handler goes on. *)
Definition rate_limit (rt : runtime) (ev : event) : M (option response) :=
  try_catch (check_rate rt ev)
    (fun e =>
       (log (Warn (lit "Rate limit check failed:") e) ;;;
        ret None)%M).

(** [JSON.parse(event.body || "{}")], [None] when it throws. *)
Definition parse (b : body_text) : option value :=
  match b with
  | BodyAbsent => Some (obj [])
  | BodyMalformed => None
  | BodyJSON v => Some v
  end.

(** [!v] on an environment variable *)
Definition unset (v : option jsstring) : bool :=
  match v with
  | Some (_ :: _) => false
  | _ => true
  end.

(** The destructured payload. *)
Record fields : Type := {
  fullName : value;
  phone : value;
  email : value;
  address : value;
  service : value;
  date : value;
  message : value;
  attachments : value
}.

(** One destructured property with its default, which is evaluated only when
    the property is [undefined]. *)
Definition field (src : value) (k : string) (dflt : completion value)
  : completion value :=
  v <- get src k ;;
  match v with
  | VUndefined => dflt
  | _ => Normal v
  end.

(** [const { fullName = "", ..., attachments = [] } = payload || {}] *)
Definition destructure (payload : value) : completion fields :=
  let src := or_else payload (obj []) in
  fullName <- field src "fullName" (Normal (str "")) ;;
  phone <- field src "phone" (Normal (str "")) ;;
  email <- field src "email" (Normal (str "")) ;;
  address <- field src "address"
               (a <- get payload "address" ;;
                if truthy a then Normal a
                else p <- get payload "postcode" ;;
                     Normal (or_else p (str ""))) ;;
  service <- field src "service" (Normal (str "")) ;;
  date <- field src "date" (Normal (str "")) ;;
  message <- field src "message" (Normal (str "")) ;;
  attachments <- field src "attachments" (Normal (VArr [])) ;;
  Normal {| fullName := fullName; phone := phone; email := email;
            address := address; service := service; date := date;
            message := message; attachments := attachments |}.

(** [!x.trim()]: only a string has a [trim] to call. *)
Definition blank (x : value) : completion bool :=
  match x with
  | VStr s => Normal (bool_decide (trim s = []))
  | _ => Throw TypeError
  end.

Section Handler.

Variable Number_toString : float -> jsstring.

(** [re.test(x)] for the anchored pattern: [x] is converted to a string. *)
Definition test (r : Regex.re) (x : value) : completion bool :=
  s <- ToString Number_toString x ;;
  Normal (Regex.full_match r s).

Definition missing (f : fields) : completion (option jsstring) :=
  b <- blank (fullName f) ;;
  if b then Normal (Some (lit "name")) else
  m <- test email_re (email f) ;;
  if negb m then Normal (Some (lit "valid email")) else
  b <- blank (phone f) ;;
  if b then Normal (Some (lit "phone")) else
  b <- blank (address f) ;;
  if b then Normal (Some (lit "postcode")) else
  if negb (truthy (service f)) then Normal (Some (lit "service")) else
  b <- blank (message f) ;;
  if b then Normal (Some (lit "message")) else
  Normal None.

(** [String(s || "").toString()] *)
Definition safe (s : value) : completion jsstring :=
  ToString Number_toString (or_else s (str "")).

Definition nl : jsstring := [10%N].
Definition spaces (n : nat) : jsstring := repeat 32%N n.
Definition em_dash : jsstring := [8212%N].
Definition apostrophe : jsstring := [8217%N].

Definition subject (f : fields) : completion jsstring :=
  n <- safe (fullName f) ;;
  s <- safe (service f) ;;
  Normal (lit "New Quote Request " ++ em_dash ++ lit " " ++ n
          ++ lit " (" ++ s ++ lit ")").

Definition textBody (f : fields) : completion jsstring :=
  n <- safe (fullName f) ;;
  p <- safe (phone f) ;;
  e <- safe (email f) ;;
  a <- safe (address f) ;;
  s <- safe (service f) ;;
  d <- safe (date f) ;;
  m <- safe (message f) ;;
  Normal (trim (nl ++ lit "New quote request" ++ nl
                ++ nl
                ++ lit "Full name: " ++ n ++ nl
                ++ lit "Phone: " ++ p ++ nl
                ++ lit "Email: " ++ e ++ nl
                ++ lit "Postcode: " ++ a ++ nl
                ++ lit "Service: " ++ s ++ nl
                ++ lit "Preferred date: " ++ d ++ nl
                ++ nl
                ++ lit "Message:" ++ nl
                ++ m ++ nl)).

Definition htmlBody (f : fields) : completion jsstring :=
  n <- safe (fullName f) ;;
  p <- safe (phone f) ;;
  e <- safe (email f) ;;
  a <- safe (address f) ;;
  s <- safe (service f) ;;
  d <- safe (or_else (date f) (str "n/a")) ;;
  m <- safe (message f) ;;
  Normal (trim (nl
                ++ lit "  <h2>New quote request</h2>" ++ nl
                ++ lit "  <p><strong>Full name:</strong> " ++ n ++ lit "</p>" ++ nl
                ++ lit "  <p><strong>Phone:</strong> " ++ p ++ lit "</p>" ++ nl
                ++ lit "  <p><strong>Email:</strong> " ++ e ++ lit "</p>" ++ nl
                ++ lit "  <p><strong>Postcode:</strong> " ++ a ++ lit "</p>" ++ nl
                ++ lit "  <p><strong>Service:</strong> " ++ s ++ lit "</p>" ++ nl
                ++ lit "  <p><strong>Preferred date:</strong> " ++ d ++ lit "</p>" ++ nl
                ++ lit "  <p><strong>Message:</strong><br>"
                ++ replace_newlines (lit "<br>") m ++ lit "</p>" ++ nl
                ++ lit "  ")).

(** One entry of [attachments.slice(0, 5).map((a, i) => ...)] *)
Definition msAttachment (i : nat) (a : value) : completion value :=
  fn <- get a "filename" ;;
  b64 <- get a "base64" ;;
  Normal (obj [("filename",
                or_else fn (VStr (lit "photo-" ++ decimal (i + 1)
                                  ++ lit ".jpg")));
               ("content", or_else b64 (str ""))]).

Definition msAttachments (attachments : value) : completion (list value) :=
  match attachments with
  | VArr ((_ :: _) as l) => sequence (imap msAttachment (firstn 5 l))
  | _ => Normal []
  end.

Definition not_configured : response :=
  json 500 (obj [("error", str "Server not configured. Missing env vars.")]).

Definition skipped : response :=
  json 200 (obj [("ok", VBool true); ("skipped", VBool true)]).

(** [json(400, { error: `Please provide a ${missing}.` })] *)
Definition please_provide (missing : jsstring) : response :=
  json 400
    (obj [("error", VStr (lit "Please provide a " ++ missing ++ lit "."))]).

(** The provider's endpoint and the headers both calls carry. *)
Definition mailersend (token : jsstring) (data : value) : request :=
  {| url := lit "https://api.mailersend.com/v1/email";
     method := lit "POST";
     authorization := lit "Bearer " ++ token;
     content_type := lit "application/json";
     payload_sent := data |}.

(** The email to the business inbox. *)
Definition business_email (token from to : jsstring) (f : fields)
    (subject text html : jsstring) (ms : list value) : request :=
  mailersend token
    (obj [("from", obj [("email", VStr from)]);
          ("to", VArr [obj [("email", VStr to)]]);
          ("reply_to", obj [("email", email f)]);
          ("subject", VStr subject);
          ("text", VStr text);
          ("html", VStr html);
          ("attachments", VArr ms)]).

(** [`${v}`] *)
Definition interpolate (v : value) : completion jsstring :=
  ToString Number_toString v.

Definition confirmation_text (f : fields) : completion jsstring :=
  n <- interpolate (or_else (fullName f) (str "")) ;;
  s <- interpolate (or_else (service f) (str "Handyman service")) ;;
  a <- interpolate (or_else (address f) (str "")) ;;
  d <- interpolate (or_else (date f) (str "Not specified")) ;;
  Normal (lit "Hi " ++ n ++ lit "," ++ nl
          ++ nl
          ++ lit "Thanks for your request. Here" ++ apostrophe
          ++ lit "s what we got:" ++ nl
          ++ lit "- Service: " ++ s ++ nl
          ++ lit "- Postcode/Address: " ++ a ++ nl
          ++ lit "- Preferred date: " ++ d ++ nl
          ++ nl
          ++ lit "We" ++ apostrophe
          ++ lit "ll contact you shortly. If urgent, call 07305 848484." ++ nl
          ++ nl
          ++ em_dash ++ lit " ET Handyman Services").

Definition confirmation_html (f : fields) : completion jsstring :=
  n <- interpolate (or_else (fullName f) (str "there")) ;;
  s <- interpolate (or_else (service f) (str "Handyman service")) ;;
  a <- interpolate (or_else (address f) (str "")) ;;
  d <- interpolate (or_else (date f) (str "Not specified")) ;;
  Normal (lit "<p>Hi " ++ n ++ lit ",</p>" ++ nl
          ++ spaces 19 ++ lit "<p>Thanks for your request. We" ++ apostrophe
          ++ lit "ve logged the details below:</p>" ++ nl
          ++ spaces 19 ++ lit "<ul>" ++ nl
          ++ spaces 21 ++ lit "<li><b>Service:</b> " ++ s ++ lit "</li>" ++ nl
          ++ spaces 21 ++ lit "<li><b>Postcode/Address:</b> " ++ a
          ++ lit "</li>" ++ nl
          ++ spaces 21 ++ lit "<li><b>Preferred date:</b> " ++ d
          ++ lit "</li>" ++ nl
          ++ spaces 19 ++ lit "</ul>" ++ nl
          ++ spaces 19 ++ lit "<p>We" ++ apostrophe
          ++ lit "ll get back to you shortly. For urgent jobs, call <a href="
          ++ [34%N] ++ lit "tel:+447305848484" ++ [34%N]
          ++ lit ">07305 848484</a>.</p>" ++ nl
          ++ spaces 19 ++ lit "<p>" ++ em_dash
          ++ lit " ET Handyman Services</p>").

(** The email to the customer. *)
Definition confirmation_email (token from : jsstring) (f : fields)
  : completion request :=
  text <- confirmation_text f ;;
  html <- confirmation_html f ;;
  Normal (mailersend token
            (obj [("from", obj [("email", VStr from);
                                ("name", str "ET Handyman Services")]);
                  ("to", VArr [obj [("email", email f)]]);
                  ("subject",
                   VStr (lit "We" ++ apostrophe
                         ++ lit "ve received your quote request "
                         ++ [9989%N]));
                  ("text", VStr text);
                  ("html", VStr html)])).

(** [await] of a settled call *)
Definition await (o : fetch_outcome) : M fetch_response :=
  match o with
  | Responds r => ret r
  | Rejects e => throw e
  end.

(** Step 6, up to the [await] inside the detached function: the call is
    made, and nothing here waits for it. *)
Definition confirm (token from : jsstring) (f : fields) : M unit :=
  try_catch
    (req <- lift (confirmation_email token from f) ;;
     call req Detached)%M
    (fun e => log (Warn (lit "Confirmation email failed:") e)).

(** Step 5 and 6: the [try] around the provider call. *)
Definition send (rt : runtime) (token from to : jsstring) (f : fields)
    (subject text html : jsstring) (ms : list value) : M response :=
  try_catch
    (call (business_email token from to f subject text html ms) Awaited ;;;
     resp <- await (provider rt) ;;
     let data := default (obj []) (json_body resp) in
     if negb (ok resp) then
       log (ErrorStatus (lit "MailerSend error:") (status resp) data) ;;;
       m <- lift (get_opt data "message") ;;
       ret (json 500
              (obj [("error",
                     or_else m
                       (str "Email send failed. Please try again or call 07305 848484."))]))
     else
       confirm token from f ;;;
       id <- lift (get_opt data "message_id") ;;
       ret (json 200 (obj [("ok", VBool true);
                           ("id", or_else id (str "sent"))])))%M
    (fun err =>
       (log (ErrorThrown err) ;;;
        ret (json 500
               (obj [("error",
                      str "Network error sending email. Please try again later.")])))%M).

(** Validation and steps 3 to 6 on the destructured payload. *)
Definition answer (rt : runtime) (token from to : jsstring) (f : fields)
  : M response :=
  (m <- lift (missing f) ;;
   match m with
   | Some m => ret (please_provide m)
   | None =>
       subject <- lift (subject f) ;;
       text <- lift (textBody f) ;;
       html <- lift (htmlBody f) ;;
       ms <- lift (msAttachments (attachments f)) ;;
       send rt token from to f subject text html ms
   end)%M.

(** The honeypot, then the rest, on the parsed payload. *)
Definition quote (rt : runtime) (token from to : jsstring) (payload : value)
  : M response :=
  (company <- lift (get payload "company") ;;
   if truthy company
   then ret skipped
   else
     f <- lift (destructure payload) ;;
     answer rt token from to f)%M.

(** Steps 1 to 6: what follows the rate limit. *)
Definition configured (rt : runtime) (ev : event) : M response :=
  let API_TOKEN := MAILERSEND_TOKEN rt in
  let FROM_EMAIL := MAILERSEND_FROM rt in
  let TO_EMAIL := MAILERSEND_TO rt in
  if unset API_TOKEN || unset FROM_EMAIL || unset TO_EMAIL
  then ret not_configured
  else
    let quote := quote rt (default [] API_TOKEN) (default [] FROM_EMAIL)
                   (default [] TO_EMAIL) in
    match parse (body ev) with
    | None => ret (json 400 (obj [("error", str "Bad JSON")]))
    | Some payload => quote payload
    end.

(** [exports.handler], up to its [return]. A [Throw] is the rejection of the
    promise the handler returns: no response is produced. *)
Definition handler (rt : runtime) (ev : event) : M response :=
  if bool_decide (httpMethod ev = lit "OPTIONS")
  then ret (json 200 (obj [("ok", VBool true)]))
  else if negb (bool_decide (httpMethod ev = lit "POST"))
  then ret (json 405 (obj [("error", str "Method not allowed")]))
  else
    (limited <- rate_limit rt ev ;;
     match limited with
     | Some r => ret r
     | None => configured rt ev
     end)%M.

(** The detached confirmation call settling, after the handler returned:
    a rejection is caught and logged, a response is not looked at. *)
Definition settle (confirmation : fetch_outcome) : M unit :=
  match confirmation with
  | Rejects e => log (Warn (lit "Confirmation email failed:") e)
  | Responds _ => ret tt
  end.

Definition is_detached (c : request * dispatch) : bool :=
  match snd c with
  | Detached => true
  | Awaited => false
  end.

(** An invocation to its end: the handler returns, then the detached call,
    if this invocation made one, settles. *)
Definition invocation (rt : runtime) (ev : event)
    (confirmation : fetch_outcome) (st : state)
  : completion response * state :=
  let (r, st') := handler rt ev st in
  (r, if existsb is_detached (drop (length (outbound st)) (outbound st'))
      then snd (settle confirmation st')
      else st').

(** Invocations one after the other on the same process: each leaves the
    state the next one starts from. *)
Definition serve (reqs : list (runtime * event * fetch_outcome))
    (st : state) : state :=
  fold_left
    (fun st r => snd (invocation (fst (fst r)) (snd (fst r)) (snd r) st))
    reqs st.

End Handler.

(** The bucket [globalThis.__hits] holds for a client, empty if none. *)
Definition bucket_of (st : state) (ip : jsstring) : list Z :=
  default [] (default ∅ (hits st) !! ip).

(** A state with [globalThis.__hits] replaced. *)
Definition with_hits (h : gmap jsstring (list Z)) (st : state) : state :=
  {| hits := Some h; console := console st; outbound := outbound st |}.

(** A state with one more line on the console. *)
Definition with_log (e : log_entry) (st : state) : state :=
  {| hits := hits st; console := console st ++ [e]; outbound := outbound st |}.

(** Timestamps in order of arrival, each later one less than the window
    after each earlier one. *)
Fixpoint within_window (ts : list Z) : bool :=
  match ts with
  | [] => true
  | t :: later =>
      forallb (fun t' => t' - t <? WINDOW_MS) later && within_window later
  end.

(** A [POST] whose client identifier is [ip]. *)
Definition from_client (ip : jsstring) (ev : event) : Prop :=
  httpMethod ev = lit "POST" /\ client_ip (headers ev) = Normal ip.

#[global] Instance from_client_dec ip ev : Decision (from_client ip ev).
Proof. unfold from_client. apply _. Defined.

(** Among requests of any clients, those of the client [ip]. *)
Definition requests_of (ip : jsstring)
    (reqs : list (runtime * event * fetch_outcome))
  : list (runtime * event * fetch_outcome) :=
  filter (fun r => from_client ip (snd (fst r))) reqs.

(** ** Vocabulary of the properties *)

(** A computation that leaves [globalThis.__hits] as it found it. *)
Definition keeps_hits {A} (m : M A) : Prop :=
  forall st, hits (snd (m st)) = hits st.

(** A computation whose normal results all satisfy [P]. *)
Definition yields {A} (P : A -> Prop) (m : M A) : Prop :=
  forall st a, fst (m st) = Normal a -> P a.

(** The status codes of steps 1 to 6. *)
Definition after_limit_status (r : response) : Prop :=
  statusCode r = 200 \/ statusCode r = 400 \/ statusCode r = 500.

(** The entries of a bucket that every later pruning keeps. *)
Definition lasting (later : list Z) (bucket : list Z) : list Z :=
  List.filter (fun t => forallb (fun t' => t' - t <? WINDOW_MS) later) bucket.

(** When a request of a sequence arrives. *)
Definition arrival (r : runtime * event * fetch_outcome) : Z :=
  now (fst (fst r)).

(** The request passes the rate limit, finds the environment set and a
    body that parses: the handler reaches the honeypot with [payload], in
    the state [st'] the rate limit left. *)
Definition reaches_quote (rt : runtime) (ev : event) (st st' : state)
    (payload : value) : Prop :=
  httpMethod ev = lit "POST"
  /\ rate_limit rt ev st = (Normal None, st')
  /\ unset (MAILERSEND_TOKEN rt) || unset (MAILERSEND_FROM rt)
     || unset (MAILERSEND_TO rt) = false
  /\ parse (body ev) = Some payload.

(** [payload.company] read and tested. *)
Definition company (payload : value) : completion bool :=
  c <- get payload "company" ;; Normal (truthy c).

(** A string that is empty once trimmed. *)
Definition is_blank (s : jsstring) : bool := bool_decide (trim s = []).

(** The validator as the specification words it, on text fields: the name,
    then the email against the pattern, then the phone, then the address or
    postcode, then the service (any truthy value, not trimmed), then the
    message; the first check that fails names the field. *)
Definition first_failing (name email phone address : jsstring)
    (service : value) (message : jsstring) : option jsstring :=
  if is_blank name then Some (lit "name")
  else if negb (Regex.full_match email_re email) then Some (lit "valid email")
  else if is_blank phone then Some (lit "phone")
  else if is_blank address then Some (lit "postcode")
  else if negb (truthy service) then Some (lit "service")
  else if is_blank message then Some (lit "message")
  else None.

(** What a provider response supplies under a key: a truthy property of
    its JSON body, when it has one. *)
Definition supplied (r : fetch_response) (k : string) : option value :=
  match json_body r with
  | Some (VObj props) =>
      match lookup_prop (lit k) props with
      | Some v => if truthy v then Some v else None
      | None => None
      end
  | _ => None
  end.

(** A state with one more call to the provider. *)
Definition with_call (r : request) (d : dispatch) (st : state) : state :=
  {| hits := hits st; console := console st;
     outbound := outbound st ++ [(r, d)] |}.

Section Validity.

Variable Number_toString : float -> jsstring.

(** The payload passes the validator and its email content builds. *)
Definition valid_quote (f : fields) (subj text html : jsstring)
    (ms : list value) : Prop :=
  missing Number_toString f = Normal None
  /\ subject Number_toString f = Normal subj
  /\ textBody Number_toString f = Normal text
  /\ htmlBody Number_toString f = Normal html
  /\ msAttachments (attachments f) = Normal ms.

End Validity.

(** A property that is absent or a string, as the data model has the
    fields of a quote request. *)
Definition text_or_absent (v : value) : Prop :=
  v = VUndefined \/ exists s, v = VStr s.

(** A payload whose fields are text and whose attachments, if any, are an
    array without [null] entries. *)
Definition text_payload (payload : value) : Prop :=
  (exists props, payload = VObj props)
  /\ (forall k v,
        In k ["fullName"; "phone"; "email"; "address"; "postcode"; "service";
              "date"; "message"] ->
        get payload k = Normal v -> text_or_absent v)
  /\ (forall v,
        get payload "attachments" = Normal v ->
        v = VUndefined
        \/ exists l, v = VArr l /\ Forall (fun a => a <> VNull /\ a <> VUndefined) l).

(** A string without white space. *)
Definition no_space (s : jsstring) : Prop :=
  Forall (fun c => is_space c = false) s.

(** ** Sample inputs

    The samples print no number, so any printing of numbers serves them. *)

Definition sample_runtime (t : Z) (p : fetch_outcome) : runtime :=
  {| now := t;
     MAILERSEND_TOKEN := Some (lit "mlsn_0123");
     MAILERSEND_FROM := Some (lit "no-reply@example.net");
     MAILERSEND_TO := Some (lit "owner@example.net");
     provider := p |}.

Definition accepted : fetch_outcome :=
  Responds {| status := 202; json_body := None |}.

Definition sample_payload : value :=
  obj [("fullName", str "Ann Lee"); ("email", str "ann@example.org");
       ("phone", str "07000 000000"); ("postcode", str "AB1 2CD");
       ("service", str "Shelving"); ("message", str "Two shelves, please.")].

Definition sample_event (payload : value) : event :=
  {| httpMethod := lit "POST";
     headers := obj [("x-forwarded-for", str "203.0.113.7, 10.0.0.1")];
     body := BodyJSON payload |}.

Definition sample_ip : jsstring := lit "203.0.113.7".

Definition fresh : state := {| hits := None; console := []; outbound := [] |}.

Definition unprinted : float -> jsstring := fun _ => [].

(** Five requests of the sample client, a minute apart. *)
Definition five (rt : Z -> runtime) (payload : value)
  : list (runtime * event * fetch_outcome) :=
  List.map (fun t => (rt t, sample_event payload, accepted))
    [0; 60000; 120000; 180000; 240000].

Definition five_requests : list (runtime * event * fetch_outcome) :=
  five (fun t => sample_runtime t accepted) sample_payload.

(** No environment variable set. *)
Definition bare_runtime (t : Z) : runtime :=
  {| now := t;
     MAILERSEND_TOKEN := None;
     MAILERSEND_FROM := None;
     MAILERSEND_TO := None;
     provider := accepted |}.

Definition five_bare_requests : list (runtime * event * fetch_outcome) :=
  five bare_runtime sample_payload.

(** A bot's submission: the hidden field is filled in. *)
Definition bot_payload : value :=
  obj [("company", str "Acme Ltd"); ("fullName", str "Bot")].

(** A submission whose name is [null]. *)
Definition null_name_payload : value :=
  obj [("fullName", VNull); ("email", str "ann@example.org");
       ("phone", str "07000 000000"); ("postcode", str "AB1 2CD");
       ("service", str "Shelving"); ("message", str "Two shelves, please.")].

(** A submission with an address of its own beside the postcode. *)
Definition with_address (a : value) : value :=
  obj [("fullName", str "Ann Lee"); ("email", str "ann@example.org");
       ("phone", str "07000 000000"); ("address", a);
       ("postcode", str "AB1 2CD");
       ("service", str "Shelving"); ("message", str "Two shelves, please.")].

(** A submission whose email has no dot after the at sign. *)
Definition bad_email_payload : value :=
  obj [("fullName", str "Ann Lee"); ("email", str "ann@example");
       ("phone", str "07000 000000"); ("postcode", str "AB1 2CD");
       ("service", str "Shelving"); ("message", str "Two shelves, please.")].

(** A submission with seven attachments, one of them without a name and
    one without content. *)
Definition photo (name : string) : value :=
  obj [("filename", str name); ("content_type", str "image/jpeg");
       ("base64", str "QUJD")].

Definition seven_photos : list value :=
  [photo "a.jpg"; obj [("base64", str "REVG")]; obj [("filename", str "c.jpg")];
   photo "d.jpg"; photo "e.jpg"; photo "f.jpg"; photo "g.jpg"].

Definition photos_payload : value :=
  obj [("fullName", str "Ann Lee"); ("email", str "ann@example.org");
       ("phone", str "07000 000000"); ("postcode", str "AB1 2CD");
       ("service", str "Shelving"); ("message", str "Two shelves, please.");
       ("attachments", VArr seven_photos)].

(** The provider's simulated answers. *)
Definition sent_abc : fetch_response :=
  {| status := 202; json_body := Some (obj [("message_id", str "abc")]) |}.

Definition bad_from : fetch_response :=
  {| status := 422; json_body := Some (obj [("message", str "bad from")]) |}.

(** An event whose headers are missing. *)
Definition headerless_event : event :=
  {| httpMethod := lit "POST"; headers := VUndefined;
     body := BodyJSON sample_payload |}.

(** The state the rate limit leaves behind the first request of the sample
    client. *)
Definition first_hit : state := with_hits {[ sample_ip := [0] ]} fresh.

Definition five_bot_requests : list (runtime * event * fetch_outcome) :=
  five (fun t => sample_runtime t accepted) bot_payload.

Definition timeout : fetch_outcome := Rejects (FetchFailure (lit "timeout")).

Definition unavailable : fetch_outcome :=
  Responds {| status := 503; json_body := None |}.

(** A preflight request, and a request with another method. *)
Definition preflight : event :=
  {| httpMethod := lit "OPTIONS"; headers := VUndefined; body := BodyAbsent |}.

Definition get_request : event :=
  {| httpMethod := lit "GET"; headers := obj []; body := BodyAbsent |}.

(** A body that is not JSON. *)
Definition malformed_event : event :=
  {| httpMethod := lit "POST";
     headers := obj [("x-forwarded-for", str "203.0.113.7, 10.0.0.1")];
     body := BodyMalformed |}.

(** Another client, and four minutes in which it and a preflight come
    between five requests of the sample client. *)
Definition other_event : event :=
  {| httpMethod := lit "POST";
     headers := obj [("client-ip", str "198.51.100.2")];
     body := BodyJSON sample_payload |}.

Definition busy_minutes : list (runtime * event * fetch_outcome) :=
  [ (sample_runtime 0 accepted, sample_event sample_payload, accepted);
    (sample_runtime 30000 accepted, other_event, accepted);
    (sample_runtime 60000 accepted, sample_event sample_payload, timeout);
    (sample_runtime 90000 accepted, preflight, accepted);
    (sample_runtime 120000 accepted, sample_event sample_payload, accepted);
    (sample_runtime 180000 accepted, sample_event bad_email_payload, accepted);
    (sample_runtime 200000 accepted, other_event, unavailable);
    (sample_runtime 240000 accepted, sample_event sample_payload, accepted) ].


(** ** Vocabulary of the further properties *)

(** A string of white space only, and a string with a character that is
    not white space. *)
Definition all_space (s : jsstring) : Prop :=
  Forall (fun c => is_space c = true) s.

Definition inked (s : jsstring) : Prop :=
  Exists (fun c => is_space c = false) s.

(** A string that holds [x] with something that is not white space before
    it and after it. *)
Definition framed (x s : jsstring) : Prop :=
  exists pre post, s = pre ++ x ++ post /\ inked pre /\ inked post.

(** The clients [globalThis.__hits] has a bucket for. *)
Definition clients (st : state) : gset jsstring :=
  dom (default ∅ (hits st)).

(** A bucket as the rate limiter writes it: it ends with the time of the
    write, and every entry before is less than the window older. *)
Definition tidy (bucket : list Z) : bool :=
  match rev bucket with
  | [] => false
  | t :: earlier => forallb (fun u => t - u <? WINDOW_MS) earlier
  end.

Definition store_tidy (st : state) : Prop :=
  map_Forall (fun _ bucket => tidy bucket = true) (default ∅ (hits st)).

(** The response that reports the business email as sent. *)
Definition delivered (c : completion response) : Prop :=
  exists id,
    c = Normal (json 200 (obj [("ok", VBool true); ("id", id)])).

(** What the handler answers, or throws, without calling the provider. *)
Definition refused (c : completion response) : Prop :=
  match c with
  | Throw _ => True
  | Normal r =>
      r = json 200 (obj [("ok", VBool true)])
      \/ r = skipped
      \/ r = not_configured
      \/ statusCode r = 400 \/ statusCode r = 405 \/ statusCode r = 429
  end.

(** Two completions that are both normal, or both abrupt with the same
    exception. *)
Definition same_outcome {A B} (c : completion A) (c' : completion B) : Prop :=
  match c, c' with
  | Normal _, Normal _ => True
  | Throw e, Throw e' => e = e'
  | _, _ => False
  end.

(** What the handler answers once the business email is on its way. *)
Definition reply_of (o : fetch_outcome) : response :=
  match o with
  | Responds r =>
      if ok r then
        json 200 (obj [("ok", VBool true);
                       ("id", default (str "sent") (supplied r "message_id"))])
      else
        json 500
          (obj [("error",
                 default
                   (str "Email send failed. Please try again or call 07305 848484.")
                   (supplied r "message"))])
  | Rejects _ =>
      json 500
        (obj [("error",
               str "Network error sending email. Please try again later.")])
  end.

(** ** The earlier version of the handler

    The same function before the rate limit, the postcode fallback, the
    numbered attachment names and the confirmation email were added. Its
    [json], its validator, [safe], [textBody] and [htmlBody] read as in the
    later version, and are shared with it. *)
Module Earlier.

(** [const { fullName = "", ..., address = "", ... } = payload || {}] *)
Definition destructure (payload : value) : completion fields :=
  let src := or_else payload (obj []) in
  fullName <- field src "fullName" (Normal (str "")) ;;
  phone <- field src "phone" (Normal (str "")) ;;
  email <- field src "email" (Normal (str "")) ;;
  address <- field src "address" (Normal (str "")) ;;
  service <- field src "service" (Normal (str "")) ;;
  date <- field src "date" (Normal (str "")) ;;
  message <- field src "message" (Normal (str "")) ;;
  attachments <- field src "attachments" (Normal (VArr [])) ;;
  Normal {| fullName := fullName; phone := phone; email := email;
            address := address; service := service; date := date;
            message := message; attachments := attachments |}.

(** The three code units the file holds where the later version has a
    dash. *)
Definition dash : jsstring := [226%N; 8364%N; 8221%N].

(** One entry of [attachments.slice(0, 5).map((a) => ...)] *)
Definition msAttachment (a : value) : completion value :=
  fn <- get a "filename" ;;
  b64 <- get a "base64" ;;
  Normal (obj [("filename", or_else fn (str "photo"));
               ("content", or_else b64 (str ""))]).

Definition msAttachments (attachments : value) : completion (list value) :=
  match attachments with
  | VArr ((_ :: _) as l) => sequence (List.map msAttachment (firstn 5 l))
  | _ => Normal []
  end.

Section Handler.

Variable Number_toString : float -> jsstring.

Definition subject (f : fields) : completion jsstring :=
  n <- safe Number_toString (fullName f) ;;
  s <- safe Number_toString (service f) ;;
  Normal (lit "New Quote Request " ++ dash ++ lit " " ++ n
          ++ lit " (" ++ s ++ lit ")").

(** Step 5: the [try] around the provider call. *)
Definition send (rt : runtime) (token from to : jsstring) (f : fields)
    (subject text html : jsstring) (ms : list value) : M response :=
  try_catch
    (call (business_email token from to f subject text html ms) Awaited ;;;
     resp <- await (provider rt) ;;
     let data := default (obj []) (json_body resp) in
     if negb (ok resp) then
       log (ErrorStatus (lit "MailerSend error:") (status resp) data) ;;;
       m <- lift (get_opt data "message") ;;
       ret (json 500
              (obj [("error",
                     or_else m
                       (str "Email send failed. Please try again or call 07305 848484."))]))
     else
       id <- lift (get_opt data "message_id") ;;
       ret (json 200 (obj [("ok", VBool true);
                           ("id", or_else id (str "sent"))])))%M
    (fun err =>
       (log (ErrorThrown err) ;;;
        ret (json 500
               (obj [("error",
                      str "Network error sending email. Please try again later.")])))%M).

(** Validation and steps 3 to 5 on the destructured payload. *)
Definition answer (rt : runtime) (token from to : jsstring) (f : fields)
  : M response :=
  (m <- lift (missing Number_toString f) ;;
   match m with
   | Some m => ret (please_provide m)
   | None =>
       subject <- lift (subject f) ;;
       text <- lift (textBody Number_toString f) ;;
       html <- lift (htmlBody Number_toString f) ;;
       ms <- lift (msAttachments (attachments f)) ;;
       send rt token from to f subject text html ms
   end)%M.

(** The honeypot, then the rest, on the parsed payload. *)
Definition quote (rt : runtime) (token from to : jsstring) (payload : value)
  : M response :=
  (company <- lift (get payload "company") ;;
   if truthy company
   then ret skipped
   else
     f <- lift (destructure payload) ;;
     answer rt token from to f)%M.

(** [exports.handler] of the earlier version, up to its [return]. *)
Definition handler (rt : runtime) (ev : event) : M response :=
  if bool_decide (httpMethod ev = lit "OPTIONS")
  then ret (json 200 (obj [("ok", VBool true)]))
  else if negb (bool_decide (httpMethod ev = lit "POST"))
  then ret (json 405 (obj [("error", str "Method not allowed")]))
  else
    let API_TOKEN := MAILERSEND_TOKEN rt in
    let FROM_EMAIL := MAILERSEND_FROM rt in
    let TO_EMAIL := MAILERSEND_TO rt in
    if unset API_TOKEN || unset FROM_EMAIL || unset TO_EMAIL
    then ret not_configured
    else
      match parse (body ev) with
      | None => ret (json 400 (obj [("error", str "Bad JSON")]))
      | Some payload =>
          quote rt (default [] API_TOKEN) (default [] FROM_EMAIL)
            (default [] TO_EMAIL) payload
      end.

End Handler.

End Earlier.

(** ** The version that awaits both emails

    The other [handler] of the file: an ES module on [node-fetch] that
    neither limits nor validates, does all its work inside one [try], and
    awaits the confirmation email as it awaits the business email. *)
Module NodeFetch.

(** What the [catch] of the handler can be handed. *)
Inductive exception : Type :=
| SyntaxError                           (* [JSON.parse] on a malformed body *)
| Engine (e : error)                    (* a [TypeError], or what [fetch] rejects with *)
| MailerSendError (errText : jsstring). (* [new Error(`MailerSend error: ${errText}`)] *)

Inductive result (A : Type) : Type :=
| Returns (a : A)
| Throws (x : exception).
Arguments Returns {A} a.
Arguments Throws {A} x.

(** A [fetch] response: its status, and its body as [text()] reads it. *)
Record reply : Type := {
  status : Z;
  response_text : completion jsstring
}.

(** [resp.ok] *)
Definition ok (r : reply) : bool :=
  (200 <=? status r) && (status r <=? 299).

Inductive outcome : Type :=
| Responds (r : reply)
| Rejects (e : error).

(** What an invocation reads from its surroundings: [process.env], and how
    the two awaited calls settle. *)
Record runtime : Type := {
  MAILERSEND_API_KEY : option jsstring;
  MAIL_FROM : option jsstring;
  MAIL_TO : option jsstring;
  business : outcome;
  confirmation : outcome
}.

(** What an invocation changes: the console and the calls made. *)
Record state : Type := {
  console : list exception;
  outbound : list request
}.

(** The response object, its body before [JSON.stringify]; it has no
    headers. *)
Record response : Type := {
  statusCode : Z;
  response_body : value
}.

Definition M (A : Type) : Type := state -> result A * state.

Definition ret {A} (a : A) : M A := fun st => (Returns a, st).

Definition throw {A} (x : exception) : M A := fun st => (Throws x, st).

Definition bindM {A B} (m : M A) (k : A -> M B) : M B :=
  fun st =>
    match m st with
    | (Returns a, st') => k a st'
    | (Throws x, st') => (Throws x, st')
    end.

(** A step that leaves the state alone. *)
Definition pure {A} (r : result A) : M A := fun st => (r, st).

(** A step of the runtime: what it throws is the engine's. *)
Definition lift {A} (c : completion A) : M A :=
  pure (match c with
        | Normal a => Returns a
        | Throw e => Throws (Engine e)
        end).

(** [try { m } catch (err) { h err }] *)
Definition try_catch {A} (m : M A) (h : exception -> M A) : M A :=
  fun st =>
    match m st with
    | (Returns a, st') => (Returns a, st')
    | (Throws x, st') => h x st'
    end.

(** [console.error("Error:", err)] *)
Definition log (x : exception) : M unit :=
  fun st =>
    (Returns tt, {| console := console st ++ [x]; outbound := outbound st |}).

Definition call (r : request) : M unit :=
  fun st =>
    (Returns tt, {| console := console st; outbound := outbound st ++ [r] |}).

Declare Scope nf_scope.
Delimit Scope nf_scope with nf.
Notation "x <- c ;; k" := (bindM c (fun x => k))
  (at level 100, c at next level, right associativity) : nf_scope.
Notation "c ;;; k" := (bindM c (fun _ => k))
  (at level 100, right associativity) : nf_scope.

(** [JSON.parse(event.body || "{}")] *)
Definition parse (b : body_text) : result value :=
  match b with
  | BodyAbsent => Returns (obj [])
  | BodyMalformed => Throws SyntaxError
  | BodyJSON v => Returns v
  end.

(** [const { fullName, ..., attachments = [] } = data] *)
Definition destructure (data : value) : completion fields :=
  fullName <- get data "fullName" ;;
  email <- get data "email" ;;
  phone <- get data "phone" ;;
  address <- get data "address" ;;
  service <- get data "service" ;;
  date <- get data "date" ;;
  message <- get data "message" ;;
  attachments <- field data "attachments" (Normal (VArr [])) ;;
  Normal {| fullName := fullName; phone := phone; email := email;
            address := address; service := service; date := date;
            message := message; attachments := attachments |}.

(** One entry of [attachments.map(f => ...)] *)
Definition attachment (f : value) : completion value :=
  content <- get f "base64" ;;
  filename <- get f "filename" ;;
  ty <- get f "content_type" ;;
  Normal (obj [("content", content); ("filename", filename);
               ("disposition", str "attachment"); ("type", ty)]).

(** [attachments.map(...)]: only an array has a [map] to call. *)
Definition mapped (attachments : value) : completion (list value) :=
  match attachments with
  | VArr l => sequence (List.map attachment l)
  | _ => Throw TypeError
  end.

(** [process.env.X || "..."] *)
Definition env_or (v : option jsstring) (dflt : string) : jsstring :=
  match v with
  | Some (c :: s) => c :: s
  | _ => lit dflt
  end.

(** The variable as [`Bearer ${MAILERSEND_API_KEY}`] prints it. *)
Definition key (rt : runtime) : jsstring :=
  default (lit "undefined") (MAILERSEND_API_KEY rt).

(** [await] of a settled call *)
Definition await (o : outcome) : M reply :=
  match o with
  | Responds r => ret r
  | Rejects e => throw (Engine e)
  end.

Section Handler.

Variable Number_toString : float -> jsstring.

(** [err.message] of what the runtime itself throws, in the engine's
    wording. *)
Variable engine_message : exception -> jsstring.

Local Abbreviation interpolate := (interpolate Number_toString).

Definition text (f : fields) : completion jsstring :=
  n <- interpolate (fullName f) ;;
  e <- interpolate (email f) ;;
  p <- interpolate (phone f) ;;
  a <- interpolate (address f) ;;
  s <- interpolate (service f) ;;
  d <- interpolate (or_else (date f) (str "Not specified")) ;;
  m <- interpolate (message f) ;;
  Normal (nl ++ lit "New quote request from ET Handyman Services website" ++ nl
          ++ nl
          ++ lit "Name: " ++ n ++ nl
          ++ lit "Email: " ++ e ++ nl
          ++ lit "Phone: " ++ p ++ nl
          ++ lit "Address: " ++ a ++ nl
          ++ lit "Service: " ++ s ++ nl
          ++ lit "Preferred Date: " ++ d ++ nl
          ++ lit "Message:" ++ nl
          ++ m ++ nl
          ++ spaces 4).

(** The arguments of the first [fetch]. *)
Definition business_email (rt : runtime) (f : fields) (text : jsstring)
  : completion request :=
  n <- interpolate (fullName f) ;;
  ms <- mapped (attachments f) ;;
  Normal (mailersend (key rt)
            (obj [("from",
                   obj [("email",
                         VStr (env_or (MAIL_FROM rt) "eli_etremovals@proton.me"));
                        ("name", str "ET Handyman Services Website")]);
                  ("to",
                   VArr [obj [("email",
                               VStr (env_or (MAIL_TO rt)
                                       "eli_etremovals@proton.me"));
                              ("name", str "ET Handyman Services")]]);
                  ("subject", VStr (lit "New Quote Request from " ++ n));
                  ("text", VStr text);
                  ("attachments", VArr ms)])).

(** The arguments of the second [fetch]. *)
Definition confirmation_email (rt : runtime) (f : fields)
  : completion request :=
  n <- interpolate (fullName f) ;;
  s <- interpolate (service f) ;;
  Normal (mailersend (key rt)
            (obj [("from",
                   obj [("email",
                         VStr (env_or (MAIL_FROM rt) "eli_etremovals@proton.me"));
                        ("name", str "ET Handyman Services")]);
                  ("to", VArr [obj [("email", email f);
                                    ("name", fullName f)]]);
                  ("subject",
                   VStr (lit "Quote Request Received " ++ em_dash
                         ++ lit " ET Handyman Services"));
                  ("text",
                   VStr (lit "Hi " ++ n ++ lit "," ++ nl
                         ++ nl
                         ++ lit "Thanks for reaching out! We" ++ apostrophe
                         ++ lit "ve received your quote request for "
                         ++ [34%N] ++ s ++ [34%N]
                         ++ lit " and will get back to you shortly." ++ nl
                         ++ nl
                         ++ lit "Kind regards," ++ nl
                         ++ lit "ET Handyman Services" ++ nl
                         ++ spaces 8))])).

(** The body of the [try]. *)
Definition attempt (rt : runtime) (body : body_text) : M response :=
  (data <- pure (parse body) ;;
   f <- lift (destructure data) ;;
   text <- lift (text f) ;;
   req <- lift (business_email rt f text) ;;
   call req ;;;
   sendBusinessEmail <- await (business rt) ;;
   (if negb (ok sendBusinessEmail) then
      errText <- lift (response_text sendBusinessEmail) ;;
      throw (MailerSendError errText)
    else ret tt) ;;;
   req <- lift (confirmation_email rt f) ;;
   call req ;;;
   await (confirmation rt) ;;;
   ret {| statusCode := 200;
          response_body := obj [("success", VBool true)] |})%nf.

(** [err.message] *)
Definition message (err : exception) : jsstring :=
  match err with
  | MailerSendError errText => lit "MailerSend error: " ++ errText
  | Engine (FetchFailure m) => m
  | _ => engine_message err
  end.

(** [{ statusCode: 500, body: JSON.stringify({ error: err.message || "Server error" }) }] *)
Definition failure (err : exception) : response :=
  {| statusCode := 500;
     response_body :=
       obj [("error", or_else (VStr (message err)) (str "Server error"))] |}.

(** The handler: whatever the [try] throws is logged and answered. *)
Definition handler (rt : runtime) (ev : event) : M response :=
  try_catch (attempt rt (body ev))
    (fun err => (log err ;;; ret (failure err))%nf).

(** The handler has read the body and built its first email: [f] is the
    destructured payload and [req] the call to make. *)
Definition prepared (rt : runtime) (b : body_text) (f : fields)
    (req : request) : Prop :=
  exists data t,
    parse b = Returns data
    /\ destructure data = Normal f
    /\ text f = Normal t
    /\ business_email rt f t = Normal req.

End Handler.

(** The answer of a [try] that ran to its end. *)
Definition sent : response :=
  {| statusCode := 200; response_body := obj [("success", VBool true)] |}.

(** A state with one more call, and with one more line on the console. *)
Definition with_call (r : request) (st : state) : state :=
  {| console := console st; outbound := outbound st ++ [r] |}.

Definition with_log (x : exception) (st : state) : state :=
  {| console := console st ++ [x]; outbound := outbound st |}.

End NodeFetch.

(** ** Further sample inputs *)

(** What others send while the sample client is silent. *)
Definition others : list (runtime * event * fetch_outcome) :=
  [ (sample_runtime 30000 accepted, other_event, accepted);
    (sample_runtime 90000 accepted, preflight, accepted);
    (sample_runtime 200000 accepted, other_event, unavailable) ].

(** The sample submission with seven photos, destructured. *)
Definition photos_fields : fields :=
  {| fullName := str "Ann Lee"; phone := str "07000 000000";
     email := str "ann@example.org"; address := VUndefined;
     service := str "Shelving"; date := VUndefined;
     message := str "Two shelves, please.";
     attachments := VArr seven_photos |}.

(** The surroundings of the handler that awaits both emails: the sender
    left to its default, and the two calls settling as given. *)
Definition node_fetch_runtime (b c : NodeFetch.outcome) : NodeFetch.runtime :=
  {| NodeFetch.MAILERSEND_API_KEY := Some (lit "mlsn_0123");
     NodeFetch.MAIL_FROM := None;
     NodeFetch.MAIL_TO := Some (lit "owner@example.net");
     NodeFetch.business := b;
     NodeFetch.confirmation := c |}.

Definition taken : NodeFetch.outcome :=
  NodeFetch.Responds
    {| NodeFetch.status := 202; NodeFetch.response_text := Normal [] |}.

Definition turned_down : NodeFetch.reply :=
  {| NodeFetch.status := 422;
     NodeFetch.response_text := Normal (lit "bad from") |}.

Definition timed_out : NodeFetch.outcome :=
  NodeFetch.Rejects (FetchFailure (lit "timeout")).

Definition node_fetch_fresh : NodeFetch.state :=
  {| NodeFetch.console := []; NodeFetch.outbound := [] |}.

(** The samples make the engine throw nothing, so any wording serves. *)
Definition unworded : NodeFetch.exception -> jsstring := fun _ => [].

(** A submission whose message holds markup and a line feed. *)
Definition markup_fields : fields :=
  {| fullName := str "Ann Lee"; phone := str "07000 000000";
     email := str "ann@example.org"; address := str "AB1 2CD";
     service := str "Shelving"; date := VUndefined;
     message := VStr (lit "<b>Two</b> shelves," ++ [10%N] ++ lit "please.");
     attachments := VArr [] |}.

(** A submission with a blank name and a phone that is [null]. *)
Definition blank_name_payload : value :=
  obj [("fullName", str "  "); ("phone", VNull)].

(** The provider accepting with a [message_id] of 0, and refusing with an
    empty [message]. *)
Definition zero_id : fetch_response :=
  {| status := 202;
     json_body := Some (obj [("message_id", VNum 0%float)]) |}.

Definition empty_message : fetch_response :=
  {| status := 422; json_body := Some (obj [("message", str "")]) |}.

(** The sample submission with one attachment, which is [null]. *)
Definition null_photo_payload : value :=
  obj [("fullName", str "Ann Lee"); ("email", str "ann@example.org");
       ("phone", str "07000 000000"); ("postcode", str "AB1 2CD");
       ("service", str "Shelving"); ("message", str "Two shelves, please.");
       ("attachments", VArr [VNull])].
(** * Properties *)

(** ** Strings and values on examples *)

Example email_re_ok : Regex.full_match email_re (lit "a@b.co") = true.
Proof. reflexivity. Qed.

Example email_re_no_dot : Regex.full_match email_re (lit "a@b") = false.
Proof. reflexivity. Qed.

Example email_re_space : Regex.full_match email_re (lit "a b@c.d") = false.
Proof. reflexivity. Qed.

Example trim_example : trim (lit "  a b ") = lit "a b".
Proof. reflexivity. Qed.

Example decimal_example : decimal 120 = lit "120".
Proof. reflexivity. Qed.

Example truthy_zero : truthy (VNum 0%float) = false.
Proof. reflexivity. Qed.

Example truthy_empty_array : truthy (VArr []) = true.
Proof. reflexivity. Qed.

Example ToString_array :
  ToString (fun _ => []) (VArr [VStr (lit "a@b.c")]) = Normal (lit "a@b.c").
Proof. reflexivity. Qed.

Example before_comma_example :
  before_comma (lit "203.0.113.7, 10.0.0.1") = lit "203.0.113.7".
Proof. reflexivity. Qed.

Example client_ip_unknown : client_ip (obj []) = Normal (lit "unknown").
Proof. reflexivity. Qed.

Example client_ip_fallback :
  client_ip (obj [("client-ip", str " 198.51.100.2 ")])
  = Normal (lit "198.51.100.2").
Proof. reflexivity. Qed.

Example client_ip_not_a_string :
  client_ip (obj [("x-forwarded-for", VArr [str "203.0.113.7"])])
  = Throw TypeError.
Proof. reflexivity. Qed.

(** ** The pattern matcher *)

Section RegexCorrect.

Import Regex.

Lemma matches_Seq_inv r1 r2 s :
  matches (Seq r1 r2) s ->
  exists s1 s2, s = s1 ++ s2 /\ matches r1 s1 /\ matches r2 s2.
Proof. intros H. inversion H; subst. eauto. Qed.

Lemma matches_Alt_inv r1 r2 s :
  matches (Alt r1 r2) s -> matches r1 s \/ matches r2 s.
Proof. intros H. inversion H; subst; tauto. Qed.

Lemma matches_Chr_inv c s : matches (Chr c) s -> s = [c].
Proof. intros H. inversion H; subst. reflexivity. Qed.

Lemma matches_NonSpace_inv s :
  matches NonSpace s -> exists c, s = [c] /\ is_space c = false.
Proof. intros H. inversion H; subst. eauto. Qed.

Lemma matches_Empty_inv s : ~ matches Empty s.
Proof. intros H. inversion H. Qed.

Lemma matches_Eps_inv s : matches Eps s -> s = [].
Proof. intros H. inversion H; subst. reflexivity. Qed.

Lemma nullable_spec r : nullable r = true <-> matches r [].
Proof.
  induction r as [| | c | |r1 IH1 r2 IH2|r1 IH1 r2 IH2|r IH]; simpl.
  - split; [discriminate | intros H; destruct (matches_Empty_inv _ H)].
  - split; [constructor | reflexivity].
  - split; [discriminate | intros H; apply matches_Chr_inv in H; discriminate].
  - split; [discriminate|].
    intros H. apply matches_NonSpace_inv in H as (c & E & _). discriminate.
  - rewrite andb_true_iff, IH1, IH2. split.
    + intros [H1 H2]. apply (MSeq _ _ [] [] H1 H2).
    + intros H. apply matches_Seq_inv in H as (s1 & s2 & E & H1 & H2).
      symmetry in E. apply app_eq_nil in E as [-> ->]. tauto.
  - rewrite orb_true_iff, IH1, IH2. split.
    + intros [H|H]; [apply MAltL | apply MAltR]; assumption.
    + apply matches_Alt_inv.
  - split; [constructor | reflexivity].
Qed.

Lemma matches_Star_cons r c s :
  matches (Star r) (c :: s) ->
  exists s1 s2,
    s = s1 ++ s2 /\ matches r (c :: s1) /\ matches (Star r) s2.
Proof.
  intros H. remember (Star r) as r' eqn:Er. remember (c :: s) as s' eqn:Es.
  revert s Es.
  induction H as [| | | | | | |r0 s1 s2 H1 _ H2 IH2]; intros t Es;
    try discriminate.
  injection Er as ->.
  destruct s1 as [|c1 s1]; simpl in Es.
  - apply IH2; [reflexivity | assumption].
  - injection Es as -> <-. eauto.
Qed.

Lemma deriv_spec c r : forall s,
  matches (deriv c r) s <-> matches r (c :: s).
Proof.
  induction r as [| | d | |r1 IH1 r2 IH2|r1 IH1 r2 IH2|r IH]; intros s; simpl.
  - split; intros H; destruct (matches_Empty_inv _ H).
  - split; intros H.
    + destruct (matches_Empty_inv _ H).
    + apply matches_Eps_inv in H. discriminate.
  - destruct (N.eqb_spec c d) as [->|Hne]; split; intros H.
    + apply matches_Eps_inv in H as ->. constructor.
    + apply matches_Chr_inv in H. injection H as ->. constructor.
    + destruct (matches_Empty_inv _ H).
    + apply matches_Chr_inv in H. congruence.
  - destruct (is_space c) eqn:Hc; split; intros H.
    + destruct (matches_Empty_inv _ H).
    + apply matches_NonSpace_inv in H as (c' & E & Hc'). congruence.
    + apply matches_Eps_inv in H as ->. constructor. assumption.
    + apply matches_NonSpace_inv in H as (c' & E & Hc').
      injection E as -> ->. constructor.
  - assert (Hcons : matches (Seq (deriv c r1) r2) s ->
                    matches (Seq r1 r2) (c :: s)).
    { intros H. apply matches_Seq_inv in H as (s1 & s2 & -> & H1 & H2).
      apply IH1 in H1. apply (MSeq _ _ (c :: s1) s2 H1 H2). }
    assert (Hsplit : matches (Seq r1 r2) (c :: s) ->
                     matches (Seq (deriv c r1) r2) s
                     \/ (matches r1 [] /\ matches r2 (c :: s))).
    { intros H. apply matches_Seq_inv in H as (s1 & s2 & E & H1 & H2).
      destruct s1 as [|c1 s1]; simpl in E.
      - subst s2. right. tauto.
      - injection E as <- ->. left. apply MSeq; [|assumption].
        apply IH1. assumption. }
    destruct (nullable r1) eqn:Hn; split; intros H.
    + apply matches_Alt_inv in H as [H|H]; [exact (Hcons H)|].
      apply IH2 in H. apply nullable_spec in Hn.
      apply (MSeq _ _ [] (c :: s) Hn H).
    + destruct (Hsplit H) as [Hl|[_ Hr]].
      * apply MAltL. assumption.
      * apply MAltR. apply IH2. assumption.
    + exact (Hcons H).
    + destruct (Hsplit H) as [Hl|[Hnil _]]; [assumption|].
      apply nullable_spec in Hnil. congruence.
  - split; intros H; apply matches_Alt_inv in H as [H|H].
    + apply MAltL. apply IH1. assumption.
    + apply MAltR. apply IH2. assumption.
    + apply MAltL. apply IH1. assumption.
    + apply MAltR. apply IH2. assumption.
  - split; intros H.
    + apply matches_Seq_inv in H as (s1 & s2 & -> & H1 & H2).
      apply IH in H1. apply (MStarS _ (c :: s1) s2 H1 H2).
    + apply matches_Star_cons in H as (s1 & s2 & -> & H1 & H2).
      apply MSeq; [|assumption]. apply IH. assumption.
Qed.

(** The matcher decides the language of the pattern. *)
Theorem full_match_spec s : forall r,
  full_match r s = true <-> matches r s.
Proof.
  induction s as [|c s IH]; intros r; simpl.
  - apply nullable_spec.
  - rewrite IH. apply deriv_spec.
Qed.

Lemma matches_Star_NonSpace s :
  matches (Star NonSpace) s <-> no_space s.
Proof.
  split.
  - intros H. remember (Star NonSpace) as r eqn:Er.
    induction H as [| | | | | | |r0 s1 s2 H1 _ H2 IH2]; try discriminate.
    + constructor.
    + injection Er as ->.
      apply matches_NonSpace_inv in H1 as (c & -> & Hc).
      constructor; [assumption | apply IH2; reflexivity].
  - intros H. induction H as [|c s Hc _ IH].
    + constructor.
    + apply (MStarS _ [c] s); [constructor; assumption | assumption].
Qed.

Lemma matches_Plus_NonSpace s :
  matches (Plus NonSpace) s <-> s <> [] /\ no_space s.
Proof.
  unfold Plus. split.
  - intros H. apply matches_Seq_inv in H as (s1 & s2 & -> & H1 & H2).
    apply matches_NonSpace_inv in H1 as (c & -> & Hc).
    apply matches_Star_NonSpace in H2.
    split; [discriminate | constructor; assumption].
  - intros [Hne H]. destruct H as [|c s Hc Hs]; [congruence|].
    apply (MSeq _ _ [c] s); [constructor; assumption|].
    apply matches_Star_NonSpace. assumption.
Qed.

(** X6. The strings [/^\S+@\S+\.\S+$/] accepts: no white space anywhere,
    an at sign after at least one character, and after it a dot with at
    least one character on each side. *)
Theorem email_re_spec s :
  full_match email_re s = true <->
  exists a b c,
    s = a ++ [64%N] ++ b ++ [46%N] ++ c
    /\ a <> [] /\ b <> [] /\ c <> []
    /\ no_space a /\ no_space b /\ no_space c.
Proof.
  rewrite full_match_spec. unfold email_re. split.
  - intros H.
    apply matches_Seq_inv in H as (a & s1 & -> & Ha & H).
    apply matches_Seq_inv in H as (at_ & s2 & -> & Hat & H).
    apply matches_Seq_inv in H as (b & s3 & -> & Hb & H).
    apply matches_Seq_inv in H as (dot & c & -> & Hdot & Hc).
    apply matches_Chr_inv in Hat as ->. apply matches_Chr_inv in Hdot as ->.
    apply matches_Plus_NonSpace in Ha as [? ?].
    apply matches_Plus_NonSpace in Hb as [? ?].
    apply matches_Plus_NonSpace in Hc as [? ?].
    exists a, b, c. repeat split; assumption.
  - intros (a & b & c & -> & Ha & Hb & Hc & Na & Nb & Nc).
    apply MSeq; [apply matches_Plus_NonSpace; split; assumption|].
    apply MSeq; [constructor|].
    apply MSeq; [apply matches_Plus_NonSpace; split; assumption|].
    apply MSeq; [constructor|].
    apply matches_Plus_NonSpace; split; assumption.
Qed.

End RegexCorrect.

(** ** The rate limiter *)

Section RateLimiter.

Implicit Types (rt : runtime) (ev : event) (st : state) (ip : jsstring).

Lemma prune_spec now b t :
  In t (prune now b) <-> In t b /\ now - t < WINDOW_MS.
Proof.
  unfold prune. rewrite filter_In, Z.ltb_lt. reflexivity.
Qed.

Lemma prune_app T b1 b2 : prune T (b1 ++ b2) = prune T b1 ++ prune T b2.
Proof. unfold prune. apply List.filter_app. Qed.

Lemma prune_one T t : T - t < WINDOW_MS -> prune T [t] = [t].
Proof.
  intros Hlt. unfold prune. simpl. apply Z.ltb_lt in Hlt. rewrite Hlt.
  reflexivity.
Qed.

Lemma check_rate_normal rt ev st ip :
  client_ip (headers ev) = Normal ip ->
  let bucket := prune (now rt) (bucket_of st ip) ++ [now rt] in
  check_rate rt ev st =
    (Normal (if RATE <? Z.of_nat (length bucket)
             then Some too_many_requests else None),
     with_hits (<[ip := bucket]> (default ∅ (hits st))) st).
Proof.
  intros Hip bucket. subst bucket.
  unfold check_rate, bucket_of, with_hits, hits_or_new, bindM, lift,
    get_hits, set_hits, ret.
  rewrite Hip. destruct st as [[store|] cons out]; simpl.
  - destruct (RATE <? _); reflexivity.
  - destruct (RATE <? _); reflexivity.
Qed.

Lemma check_rate_throw rt ev st e :
  client_ip (headers ev) = Throw e ->
  check_rate rt ev st = (Throw e, st).
Proof.
  intros Hip. unfold check_rate, bindM, lift. rewrite Hip. reflexivity.
Qed.

Lemma check_rate_throw_inv rt ev st e :
  fst (check_rate rt ev st) = Throw e ->
  check_rate rt ev st = (Throw e, st).
Proof.
  destruct (client_ip (headers ev)) as [ip|e'] eqn:Hip.
  - rewrite (check_rate_normal rt ev st ip Hip). simpl.
    destruct (RATE <? _); discriminate.
  - rewrite (check_rate_throw rt ev st e' Hip). simpl. congruence.
Qed.

Lemma rate_limit_normal rt ev st ip :
  client_ip (headers ev) = Normal ip ->
  rate_limit rt ev st = check_rate rt ev st.
Proof.
  intros Hip. unfold rate_limit, try_catch.
  rewrite (check_rate_normal rt ev st ip Hip). reflexivity.
Qed.

Lemma rate_limit_throw rt ev st e :
  client_ip (headers ev) = Throw e ->
  rate_limit rt ev st =
    (Normal None, with_log (Warn (lit "Rate limit check failed:") e) st).
Proof.
  intros Hip. unfold rate_limit, try_catch.
  rewrite (check_rate_throw rt ev st e Hip). reflexivity.
Qed.

Lemma bucket_of_with_hits st ip h :
  bucket_of (with_hits h st) ip = default [] (h !! ip).
Proof. reflexivity. Qed.

Lemma bucket_after_check rt ev st ip :
  client_ip (headers ev) = Normal ip ->
  bucket_of (snd (check_rate rt ev st)) ip =
    prune (now rt) (bucket_of st ip) ++ [now rt].
Proof.
  intros Hip. rewrite (check_rate_normal rt ev st ip Hip). simpl.
  rewrite bucket_of_with_hits, lookup_insert_eq. reflexivity.
Qed.

(** Another client's bucket is not touched. *)
Lemma bucket_other_client rt ev st ip ip' :
  client_ip (headers ev) = Normal ip -> ip <> ip' ->
  bucket_of (snd (check_rate rt ev st)) ip' = bucket_of st ip'.
Proof.
  intros Hip Hne. rewrite (check_rate_normal rt ev st ip Hip). simpl.
  rewrite bucket_of_with_hits, lookup_insert_ne by assumption.
  reflexivity.
Qed.

End RateLimiter.

(** ** What leaves [globalThis.__hits] alone *)

Lemma keeps_ret {A} (a : A) : keeps_hits (ret a).
Proof. intros st. reflexivity. Qed.

Lemma keeps_throw {A} e : keeps_hits (@throw A e).
Proof. intros st. reflexivity. Qed.

Lemma keeps_lift {A} (c : completion A) : keeps_hits (lift c).
Proof. intros st. reflexivity. Qed.

Lemma keeps_log e : keeps_hits (log e).
Proof. intros st. reflexivity. Qed.

Lemma keeps_call r d : keeps_hits (call r d).
Proof. intros st. reflexivity. Qed.

Lemma keeps_bindM {A B} (m : M A) (k : A -> M B) :
  keeps_hits m -> (forall a, keeps_hits (k a)) -> keeps_hits (bindM m k).
Proof.
  intros Hm Hk st. unfold bindM. specialize (Hm st).
  destruct (m st) as [[a|e] st']; simpl in *.
  - rewrite Hk. assumption.
  - assumption.
Qed.

Lemma keeps_try_catch {A} (m : M A) (h : error -> M A) :
  keeps_hits m -> (forall e, keeps_hits (h e)) -> keeps_hits (try_catch m h).
Proof.
  intros Hm Hh st. unfold try_catch. specialize (Hm st).
  destruct (m st) as [[a|e] st']; simpl in *.
  - assumption.
  - rewrite Hh. assumption.
Qed.

Create HintDb frame.
#[export] Hint Resolve keeps_ret keeps_throw keeps_lift keeps_log keeps_call : frame.

Ltac frame :=
  repeat first
    [ progress intros
    | progress cbv zeta
    | solve [auto with frame]
    | apply keeps_bindM
    | apply keeps_try_catch
    | match goal with
      | |- keeps_hits (if ?b then _ else _) => destruct b
      | |- keeps_hits (match ?x with _ => _ end) => destruct x
      end ].

Section Frame.

Variable Number_toString : float -> jsstring.

Lemma keeps_await o : keeps_hits (await o).
Proof. unfold await. frame. Qed.

Lemma keeps_confirm token from f :
  keeps_hits (confirm Number_toString token from f).
Proof. unfold confirm. frame. Qed.

Lemma keeps_send rt token from to f subject text html ms :
  keeps_hits (send Number_toString rt token from to f subject text html ms).
Proof.
  unfold send. pose proof keeps_await. pose proof keeps_confirm. frame.
Qed.

Lemma keeps_quote rt token from to payload :
  keeps_hits (quote Number_toString rt token from to payload).
Proof. unfold quote. pose proof keeps_send. frame. Qed.

Lemma keeps_configured rt ev :
  keeps_hits (configured Number_toString rt ev).
Proof.
  unfold configured. pose proof keeps_quote. cbv zeta. frame.
Qed.

End Frame.

(** ** Completions, and the attachments *)

Lemma bind_Normal {A B} (c : completion A) (k : A -> completion B) b :
  bind c k = Normal b -> exists a, c = Normal a /\ k a = Normal b.
Proof. destruct c as [a|e]; simpl; [eauto | discriminate]. Qed.

Lemma sequence_Normal {A} (cs : list (completion A)) xs :
  sequence cs = Normal xs -> Forall2 (fun c x => c = Normal x) cs xs.
Proof.
  revert xs. induction cs as [|c cs IH]; intros xs H; simpl in H.
  - injection H as <-. constructor.
  - apply bind_Normal in H as (a & Ha & H).
    apply bind_Normal in H as (r & Hr & H).
    injection H as <-. constructor; [exact Ha | apply IH; exact Hr].
Qed.

(** The attachments sent are the first five, converted in place. *)
Lemma msAttachments_spec l ms :
  msAttachments (VArr l) = Normal ms ->
  length ms = Nat.min 5 (length l)
  /\ forall i a,
       firstn 5 l !! i = Some a ->
       exists fn b64,
         get a "filename" = Normal fn
         /\ get a "base64" = Normal b64
         /\ ms !! i =
              Some (obj [("filename",
                          or_else fn (VStr (lit "photo-" ++ decimal (i + 1)
                                            ++ lit ".jpg")));
                         ("content", or_else b64 (str ""))]).
Proof.
  intros H.
  assert (Hseq : sequence (imap msAttachment (firstn 5 l)) = Normal ms).
  { destruct l; [|exact H]. simpl in H. injection H as <-. reflexivity. }
  apply sequence_Normal in Hseq.
  split.
  - rewrite <- (Forall2_length _ _ _ Hseq), length_imap. apply length_firstn.
  - intros i a Hi.
    assert (Hc : imap msAttachment (firstn 5 l) !! i = Some (msAttachment i a)).
    { rewrite list_lookup_imap, Hi. reflexivity. }
    destruct (Forall2_lookup_l _ _ _ _ _ Hseq Hc) as (x & Hx & Hm).
    unfold msAttachment in Hm.
    apply bind_Normal in Hm as (fn & Hfn & Hm).
    apply bind_Normal in Hm as (b64 & Hb & Hm).
    injection Hm as <-. eauto.
Qed.

Lemma sequence_total {A} (cs : list (completion A)) :
  Forall (fun c => exists a, c = Normal a) cs ->
  exists xs, sequence cs = Normal xs.
Proof.
  induction 1 as [|c cs [a ->] _ [xs IH]]; simpl.
  - eauto.
  - rewrite IH. simpl. eauto.
Qed.

Lemma msAttachment_total i a :
  a <> VNull -> a <> VUndefined -> exists x, msAttachment i a = Normal x.
Proof.
  intros Hn Hu. unfold msAttachment. destruct a; simpl; try congruence; eauto.
Qed.

(** The attachments are converted whenever none of the first five is
    [null]. *)
Lemma msAttachments_total l :
  Forall (fun a => a <> VNull /\ a <> VUndefined) l ->
  exists ms, msAttachments (VArr l) = Normal ms.
Proof.
  intros Hl. destruct l as [|a l]; [simpl; eauto|].
  unfold msAttachments. apply sequence_total.
  apply List.Forall_forall. intros c Hc.
  apply (proj2 (list_elem_of_In _ _)) in Hc.
  apply list_elem_of_lookup in Hc as [i Hi].
  rewrite list_lookup_imap in Hi.
  destruct (firstn 5 (a :: l) !! i) as [x|] eqn:Hx; [|discriminate].
  injection Hi as <-.
  assert (Hin : In x (a :: l)).
  { apply lookup_take_Some in Hx as [Hx _].
    apply (proj1 (list_elem_of_In _ _)). apply list_elem_of_lookup. eauto. }
  rewrite List.Forall_forall in Hl. destruct (Hl x Hin) as [Hn Hu].
  apply msAttachment_total; assumption.
Qed.

(** The default names of the five attachments are photo-1.jpg to
    photo-5.jpg. *)
Lemma decimal_digit n : (n < 10)%nat -> decimal n = [digit n].
Proof.
  intros Hn. unfold decimal. cbn [decimal_fuel].
  rewrite (Nat.div_small n 10 Hn). reflexivity.
Qed.

(** ** The steps of the handler, one by one *)

Section Stages.

Variable Number_toString : float -> jsstring.
Implicit Types (rt : runtime) (ev : event) (st : state).

Lemma configured_unset rt ev st :
  unset (MAILERSEND_TOKEN rt) || unset (MAILERSEND_FROM rt)
    || unset (MAILERSEND_TO rt) = true ->
  configured Number_toString rt ev st = (Normal not_configured, st).
Proof. intros Henv. unfold configured. rewrite Henv. reflexivity. Qed.

Lemma configured_set rt ev st payload :
  unset (MAILERSEND_TOKEN rt) || unset (MAILERSEND_FROM rt)
    || unset (MAILERSEND_TO rt) = false ->
  parse (body ev) = Some payload ->
  configured Number_toString rt ev st =
    quote Number_toString rt (default [] (MAILERSEND_TOKEN rt))
      (default [] (MAILERSEND_FROM rt)) (default [] (MAILERSEND_TO rt))
      payload st.
Proof.
  intros Henv Hbody. unfold configured. rewrite Henv, Hbody. reflexivity.
Qed.

Lemma quote_company rt token from to payload st :
  company payload = Normal true ->
  quote Number_toString rt token from to payload st = (Normal skipped, st).
Proof.
  unfold company, quote, bindM, lift.
  destruct (get payload "company") as [c|e]; simpl; [|discriminate].
  intros [= ->]. reflexivity.
Qed.

Lemma quote_answer rt token from to payload f st :
  company payload = Normal false ->
  destructure payload = Normal f ->
  quote Number_toString rt token from to payload st =
    answer Number_toString rt token from to f st.
Proof.
  unfold company, quote, bindM, lift.
  destruct (get payload "company") as [c|e]; simpl; [|discriminate].
  intros [= ->] ->. reflexivity.
Qed.

Lemma answer_missing rt token from to f w st :
  missing Number_toString f = Normal (Some w) ->
  answer Number_toString rt token from to f st =
    (Normal (please_provide w), st).
Proof.
  intros Hm. unfold answer, bindM, lift. rewrite Hm. reflexivity.
Qed.

Lemma answer_throws rt token from to f e st :
  missing Number_toString f = Throw e ->
  answer Number_toString rt token from to f st = (Throw e, st).
Proof.
  intros Hm. unfold answer, bindM, lift. rewrite Hm. reflexivity.
Qed.

(** On text fields the validator is the cascade of the specification. *)
Lemma missing_text f n e p a m :
  fullName f = VStr n ->
  ToString Number_toString (email f) = Normal e ->
  phone f = VStr p ->
  address f = VStr a ->
  message f = VStr m ->
  missing Number_toString f =
    Normal (first_failing n e p a (service f) m).
Proof.
  intros Hn He Hp Ha Hm.
  unfold missing, test, first_failing, is_blank.
  rewrite Hn, He, Hp, Ha, Hm. simpl.
  destruct (bool_decide (trim n = [])); [reflexivity|].
  destruct (Regex.full_match email_re e); [|reflexivity]. simpl.
  destruct (bool_decide (trim p = [])); [reflexivity|].
  destruct (bool_decide (trim a = [])); [reflexivity|].
  destruct (truthy (service f)); [|reflexivity]. simpl.
  destruct (bool_decide (trim m = [])); reflexivity.
Qed.

(** A value that is not a string stops the validator at its [trim]. *)
Lemma blank_not_string x :
  (forall s, x <> VStr s) -> blank x = Throw TypeError.
Proof. intros Hx. destruct x; try reflexivity. destruct (Hx s eq_refl). Qed.

Lemma missing_address_throws f n e p :
  fullName f = VStr n -> is_blank n = false ->
  ToString Number_toString (email f) = Normal e ->
  Regex.full_match email_re e = true ->
  phone f = VStr p -> is_blank p = false ->
  (forall s, address f <> VStr s) ->
  missing Number_toString f = Throw TypeError.
Proof.
  intros Hn Hnb He Hem Hp Hpb Ha.
  unfold missing, test. rewrite Hn, He, Hp. simpl.
  unfold is_blank in Hnb, Hpb. rewrite Hnb, Hem, Hpb. simpl.
  rewrite (blank_not_string _ Ha). reflexivity.
Qed.

(** Reading a property of a payload that has a [company] to read. *)
Lemma get_total payload b k :
  company payload = Normal b -> exists v, get payload k = Normal v.
Proof.
  unfold company. destruct payload; simpl; try discriminate; eauto.
Qed.

Lemma get_source payload b k :
  company payload = Normal b ->
  get (or_else payload (obj [])) k = get payload k.
Proof.
  unfold company, or_else.
  destruct payload; simpl; try discriminate; try reflexivity.
  - destruct b0; reflexivity.
  - destruct (negb _); reflexivity.
  - destruct (negb _); reflexivity.
Qed.

(** The destructured [address]: the property when it is defined, else the
    postcode or the empty string. *)
Lemma destructure_address payload b f a :
  company payload = Normal b ->
  destructure payload = Normal f ->
  get payload "address" = Normal a ->
  (a <> VUndefined -> address f = a)
  /\ (a = VUndefined ->
      forall pc, get payload "postcode" = Normal pc ->
                 address f = or_else pc (str "")).
Proof.
  intros Hc Hd Ha. unfold destructure in Hd.
  apply bind_Normal in Hd as (x1 & _ & Hd).
  apply bind_Normal in Hd as (x2 & _ & Hd).
  apply bind_Normal in Hd as (x3 & _ & Hd).
  apply bind_Normal in Hd as (x4 & Haddr & Hd).
  apply bind_Normal in Hd as (x5 & _ & Hd).
  apply bind_Normal in Hd as (x6 & _ & Hd).
  apply bind_Normal in Hd as (x7 & _ & Hd).
  apply bind_Normal in Hd as (x8 & _ & Hd).
  injection Hd as <-. simpl.
  unfold field in Haddr. rewrite (get_source _ _ _ Hc), Ha in Haddr.
  simpl in Haddr. split.
  - intros Hdef. destruct a; congruence.
  - intros -> pc Hpc. rewrite Hpc in Haddr. simpl in Haddr. congruence.
Qed.

Lemma answer_valid rt token from to f subj text html ms st :
  valid_quote Number_toString f subj text html ms ->
  answer Number_toString rt token from to f st =
    send Number_toString rt token from to f subj text html ms st.
Proof.
  intros (Hm & Hs & Ht & Hh & Ha). unfold answer, bindM, lift.
  rewrite Hm, Hs, Ht, Hh, Ha. reflexivity.
Qed.

(** [data?.k || d] is what the response supplies under [k], else [d]. *)
Lemma supplied_or_else r k d :
  exists v,
    get_opt (default (obj []) (json_body r)) k = Normal v
    /\ or_else v d = default d (supplied r k).
Proof.
  unfold supplied. destruct (json_body r) as [[| | | | | |props]|]; simpl;
    try (exists VUndefined; split; reflexivity).
  destruct (lookup_prop (lit k) props) as [v|]; simpl.
  - exists v. split; [reflexivity|]. unfold or_else.
    destruct (truthy v); reflexivity.
  - exists VUndefined. split; reflexivity.
Qed.

(** The confirmation step never throws: it makes the detached call, or
    logs why it could not. *)
Lemma confirm_cases token from f st :
  match confirmation_email Number_toString token from f with
  | Normal req =>
      confirm Number_toString token from f st =
        (Normal tt, with_call req Detached st)
  | Throw e =>
      confirm Number_toString token from f st =
        (Normal tt, with_log (Warn (lit "Confirmation email failed:") e) st)
  end.
Proof.
  unfold confirm, try_catch, bindM, lift.
  destruct (confirmation_email Number_toString token from f); reflexivity.
Qed.

Lemma send_2xx rt token from to f subj text html ms st r :
  provider rt = Responds r -> ok r = true ->
  send Number_toString rt token from to f subj text html ms st =
    (Normal (json 200 (obj [("ok", VBool true);
                            ("id", default (str "sent")
                                     (supplied r "message_id"))])),
     snd (confirm Number_toString token from f
            (with_call (business_email token from to f subj text html ms)
               Awaited st))).
Proof.
  intros Hp Hok. unfold send, try_catch, bindM, call, await.
  rewrite Hp. simpl. rewrite Hok. simpl.
  fold (with_call (business_email token from to f subj text html ms)
          Awaited st).
  pose proof (confirm_cases token from f
                (with_call (business_email token from to f subj text html ms)
                   Awaited st)) as Hc.
  destruct (supplied_or_else r "message_id" (str "sent")) as (v & Hv & Hid).
  destruct (confirmation_email Number_toString token from f);
    rewrite Hc; simpl; unfold lift; rewrite Hv; simpl; rewrite Hid;
    reflexivity.
Qed.

Lemma send_not_2xx rt token from to f subj text html ms st r :
  provider rt = Responds r -> ok r = false ->
  send Number_toString rt token from to f subj text html ms st =
    (Normal (json 500
               (obj [("error",
                      default
                        (str "Email send failed. Please try again or call 07305 848484.")
                        (supplied r "message"))])),
     with_log (ErrorStatus (lit "MailerSend error:") (status r)
                 (default (obj []) (json_body r)))
       (with_call (business_email token from to f subj text html ms)
          Awaited st)).
Proof.
  intros Hp Hok. unfold send, try_catch, bindM, call, await, log.
  rewrite Hp. simpl. rewrite Hok. simpl.
  destruct (supplied_or_else r "message"
              (str "Email send failed. Please try again or call 07305 848484."))
    as (v & Hv & Hid).
  unfold lift. rewrite Hv. simpl. rewrite Hid. reflexivity.
Qed.

Lemma send_rejected rt token from to f subj text html ms st e :
  provider rt = Rejects e ->
  send Number_toString rt token from to f subj text html ms st =
    (Normal (json 500
               (obj [("error",
                      str "Network error sending email. Please try again later.")])),
     with_log (ErrorThrown e)
       (with_call (business_email token from to f subj text html ms)
          Awaited st)).
Proof.
  intros Hp. unfold send, try_catch, bindM, call, await, log, throw.
  rewrite Hp. reflexivity.
Qed.

(** What [safe] can print, a template literal can print, whatever the
    literal that stands in for a falsy value. *)
Lemma interpolate_or_else x s d :
  safe Number_toString x = Normal s ->
  exists s', interpolate Number_toString (or_else x (str d)) = Normal s'.
Proof.
  unfold safe, interpolate, or_else.
  destruct (truthy x); intros Hs; [eauto|]. simpl. eauto.
Qed.

Lemma confirmation_builds token from f text :
  textBody Number_toString f = Normal text ->
  exists req, confirmation_email Number_toString token from f = Normal req.
Proof.
  intros Ht. unfold textBody in Ht.
  apply bind_Normal in Ht as (n & Hn & Ht).
  apply bind_Normal in Ht as (p & _ & Ht).
  apply bind_Normal in Ht as (e & _ & Ht).
  apply bind_Normal in Ht as (a & Ha & Ht).
  apply bind_Normal in Ht as (s & Hs & Ht).
  apply bind_Normal in Ht as (d & Hd & _).
  assert (Hd' : exists d', safe Number_toString (date f) = Normal d').
  { eauto. }
  destruct Hd' as [d' Hd'].
  destruct (interpolate_or_else _ _ "" Hn) as [n1 Hn1].
  destruct (interpolate_or_else _ _ "there" Hn) as [n2 Hn2].
  destruct (interpolate_or_else _ _ "Handyman service" Hs) as [s1 Hs1].
  destruct (interpolate_or_else _ _ "" Ha) as [a1 Ha1].
  destruct (interpolate_or_else _ _ "Not specified" Hd') as [d1 Hd1].
  unfold confirmation_email, confirmation_text, confirmation_html.
  rewrite Hn1, Hn2, Hs1, Ha1, Hd1. simpl. eauto.
Qed.

(** Whatever the provider does, the first call of [send] is the business
    email, awaited. *)
Lemma send_outbound rt token from to f subj text html ms st :
  exists rest,
    outbound (snd (send Number_toString rt token from to f subj text html
                     ms st)) =
      outbound st
      ++ (business_email token from to f subj text html ms, Awaited) :: rest.
Proof.
  destruct (provider rt) as [r|e] eqn:Hp.
  - destruct (ok r) eqn:Hok.
    + rewrite (send_2xx _ _ _ _ _ _ _ _ _ _ _ Hp Hok). simpl.
      pose proof (confirm_cases token from f
                    (with_call
                       (business_email token from to f subj text html ms)
                       Awaited st)) as Hc.
      destruct (confirmation_email Number_toString token from f) as [req|e];
        rewrite Hc; simpl.
      * exists [(req, Detached)]. rewrite <- app_assoc. reflexivity.
      * exists []. reflexivity.
    + rewrite (send_not_2xx _ _ _ _ _ _ _ _ _ _ _ Hp Hok). simpl.
      exists []. reflexivity.
  - rewrite (send_rejected _ _ _ _ _ _ _ _ _ _ _ Hp). simpl.
    exists []. reflexivity.
Qed.

(** *** Text payloads never throw *)

Lemma or_else_text v d :
  text_or_absent v -> exists s, or_else v (str d) = VStr s.
Proof.
  intros [-> | [s ->]]; unfold or_else; simpl.
  - eauto.
  - destruct (negb _); unfold str; eauto.
Qed.

Lemma safe_text s : exists t, safe Number_toString (VStr s) = Normal t.
Proof.
  unfold safe.
  destruct (or_else_text (VStr s) "" (or_intror (ex_intro _ s eq_refl)))
    as [t ->].
  simpl. eauto.
Qed.

Lemma field_text src k d :
  (forall v, get src k = Normal v -> text_or_absent v) ->
  (exists v, get src k = Normal v) ->
  (exists s, d = Normal (VStr s)) ->
  exists s, field src k d = Normal (VStr s).
Proof.
  intros Ht [v Hv] [s0 ->]. unfold field. rewrite Hv. simpl.
  destruct (Ht v Hv) as [-> | [s ->]]; eauto.
Qed.

Lemma address_default_text props :
  (forall v, get (VObj props) "address" = Normal v -> text_or_absent v) ->
  (forall v, get (VObj props) "postcode" = Normal v -> text_or_absent v) ->
  exists s,
    (a <- get (VObj props) "address" ;;
     if truthy a then Normal a
     else p <- get (VObj props) "postcode" ;;
          Normal (or_else p (str "")))%js = Normal (VStr s).
Proof.
  intros Ha Hp. simpl.
  specialize (Ha _ eq_refl). specialize (Hp _ eq_refl).
  destruct (or_else_text _ "" Hp) as [sp Hsp].
  destruct Ha as [-> | [s ->]]; simpl.
  - rewrite Hsp. eauto.
  - destruct (negb _); [eauto|]. rewrite Hsp. eauto.
Qed.

(** The destructured fields of a text payload are strings, and its
    attachments an array without [null] entries. *)
Lemma destructure_text payload :
  text_payload payload ->
  exists n p e a s d m l,
    destructure payload =
      Normal {| fullName := VStr n; phone := VStr p; email := VStr e;
                address := VStr a; service := VStr s; date := VStr d;
                message := VStr m; attachments := VArr l |}
    /\ Forall (fun x => x <> VNull /\ x <> VUndefined) l.
Proof.
  intros ([props ->] & Htext & Hatt).
  assert (Hget : forall k, exists v, get (VObj props) k = Normal v).
  { intros k. simpl. eauto. }
  assert (Hfield : forall k,
             In k ["fullName"; "phone"; "email"; "address"; "postcode";
                   "service"; "date"; "message"] ->
             exists s, field (VObj props) k (Normal (str "")) = Normal (VStr s)).
  { intros k Hk. apply field_text; [intros v; apply Htext; exact Hk | apply Hget |].
    unfold str. eauto. }
  destruct (Hfield "fullName" ltac:(simpl; tauto)) as [n Hn].
  destruct (Hfield "phone" ltac:(simpl; tauto)) as [p Hp].
  destruct (Hfield "email" ltac:(simpl; tauto)) as [e He].
  destruct (Hfield "service" ltac:(simpl; tauto)) as [s Hs].
  destruct (Hfield "date" ltac:(simpl; tauto)) as [d Hd].
  destruct (Hfield "message" ltac:(simpl; tauto)) as [m Hm].
  destruct (field_text (VObj props) "address" _
              (fun v => Htext "address" v ltac:(simpl; tauto))
              (Hget "address")
              (address_default_text props
                 (fun v => Htext "address" v ltac:(simpl; tauto))
                 (fun v => Htext "postcode" v ltac:(simpl; tauto))))
    as [a Ha].
  assert (Hl : exists l,
             field (VObj props) "attachments" (Normal (VArr [])) =
               Normal (VArr l)
             /\ Forall (fun x => x <> VNull /\ x <> VUndefined) l).
  { unfold field. destruct (Hget "attachments") as [v Hv]. rewrite Hv. simpl.
    destruct (Hatt v Hv) as [-> | (l & -> & Hl)]; eauto. }
  destruct Hl as (l & Hl & Hnonnull).
  exists n, p, e, a, s, d, m, l. split; [|exact Hnonnull].
  unfold destructure.
  change (or_else (VObj props) (obj [])) with (VObj props). cbv zeta.
  rewrite Hn. cbn [bind]. rewrite Hp. cbn [bind]. rewrite He. cbn [bind].
  rewrite Ha. cbn [bind]. rewrite Hs. cbn [bind]. rewrite Hd. cbn [bind].
  rewrite Hm. cbn [bind]. rewrite Hl. reflexivity.
Qed.

Lemma send_answers rt token from to f subj text html ms st :
  exists r st',
    send Number_toString rt token from to f subj text html ms st
    = (Normal r, st').
Proof.
  destruct (provider rt) as [r|e] eqn:Hp.
  - destruct (ok r) eqn:Hok.
    + rewrite (send_2xx _ _ _ _ _ _ _ _ _ _ _ Hp Hok). eauto.
    + rewrite (send_not_2xx _ _ _ _ _ _ _ _ _ _ _ Hp Hok). eauto.
  - rewrite (send_rejected _ _ _ _ _ _ _ _ _ _ _ Hp). eauto.
Qed.

Lemma answer_text rt token from to n p e a s d m l st :
  Forall (fun x => x <> VNull /\ x <> VUndefined) l ->
  exists r st',
    answer Number_toString rt token from to
      {| fullName := VStr n; phone := VStr p; email := VStr e;
         address := VStr a; service := VStr s; date := VStr d;
         message := VStr m; attachments := VArr l |} st
    = (Normal r, st').
Proof.
  intros Hl.
  set (f := {| fullName := VStr n; phone := VStr p; email := VStr e;
               address := VStr a; service := VStr s; date := VStr d;
               message := VStr m; attachments := VArr l |}).
  pose proof (missing_text f n e p a m eq_refl eq_refl eq_refl eq_refl eq_refl)
    as Hmissing.
  destruct (first_failing n e p a (service f) m) as [w|].
  - rewrite (answer_missing _ _ _ _ _ _ _ Hmissing). eauto.
  - destruct (safe_text n) as [tn Hn]. destruct (safe_text p) as [tp Hp].
    destruct (safe_text e) as [te He]. destruct (safe_text a) as [ta Ha].
    destruct (safe_text s) as [ts Hs]. destruct (safe_text d) as [td Hd].
    destruct (safe_text m) as [tm Hm].
    destruct (or_else_text (VStr d) "n/a" (or_intror (ex_intro _ d eq_refl)))
      as [d' Hd'].
    destruct (safe_text d') as [td' Htd'].
    destruct (msAttachments_total l Hl) as [ms Hms].
    assert (Hsubj : exists x, subject Number_toString f = Normal x).
    { unfold subject. simpl. rewrite Hn, Hs. simpl. eauto. }
    assert (Htext : exists x, textBody Number_toString f = Normal x).
    { unfold textBody. simpl. rewrite Hn, Hp, He, Ha, Hs, Hd, Hm. simpl. eauto. }
    assert (Hhtml : exists x, htmlBody Number_toString f = Normal x).
    { unfold htmlBody. simpl. rewrite Hn, Hp, He, Ha, Hs, Hd', Htd', Hm.
      simpl. eauto. }
    destruct Hsubj as [subj Hsubj]. destruct Htext as [text Htext].
    destruct Hhtml as [html Hhtml].
    rewrite (answer_valid rt token from to f subj text html ms st).
    + apply send_answers.
    + repeat split; assumption.
Qed.

End Stages.

(** ** The handler from its first line *)

Section Invocations.

Variable Number_toString : float -> jsstring.
Implicit Types (rt : runtime) (ev : event) (st : state) (ip : jsstring).

Local Abbreviation handler := (handler Number_toString).
Local Abbreviation configured := (configured Number_toString).
Local Abbreviation invocation := (invocation Number_toString).
Local Abbreviation serve := (serve Number_toString).

Lemma handler_POST rt ev st :
  httpMethod ev = lit "POST" ->
  handler rt ev st =
    match rate_limit rt ev st with
    | (Normal (Some r), st') => (Normal r, st')
    | (Normal None, st') => configured rt ev st'
    | (Throw e, st') => (Throw e, st')
    end.
Proof.
  intros Hpost. unfold handler. rewrite Hpost. simpl. unfold bindM.
  destruct (rate_limit rt ev st) as [[[r|]|e] st']; reflexivity.
Qed.

Lemma handler_admitted rt ev st st' :
  httpMethod ev = lit "POST" ->
  rate_limit rt ev st = (Normal None, st') ->
  handler rt ev st = configured rt ev st'.
Proof.
  intros Hpost Hrl. rewrite (handler_POST _ _ _ Hpost), Hrl. reflexivity.
Qed.

Lemma hits_invocation rt ev c st :
  hits (snd (invocation rt ev c st)) = hits (snd (handler rt ev st)).
Proof.
  unfold invocation. destruct (handler rt ev st) as [r st']. simpl.
  destruct (existsb _ _); [|reflexivity].
  destruct c; reflexivity.
Qed.

Lemma hits_handler rt ev st :
  httpMethod ev = lit "POST" ->
  hits (snd (handler rt ev st)) = hits (snd (rate_limit rt ev st)).
Proof.
  intros Hpost. rewrite (handler_POST _ _ _ Hpost).
  destruct (rate_limit rt ev st) as [[[r|]|e] st']; try reflexivity.
  apply keeps_configured.
Qed.

Lemma bucket_after_invocation rt ev c st ip :
  from_client ip ev ->
  bucket_of (snd (invocation rt ev c st)) ip =
    prune (now rt) (bucket_of st ip) ++ [now rt].
Proof.
  intros [Hpost Hip]. unfold bucket_of at 1.
  rewrite hits_invocation, (hits_handler _ _ _ Hpost).
  rewrite (rate_limit_normal _ _ _ _ Hip).
  apply (bucket_after_check _ _ _ _ Hip).
Qed.

Lemma handler_not_POST rt ev st :
  httpMethod ev <> lit "POST" -> snd (handler rt ev st) = st.
Proof.
  intros Hm. unfold handler.
  destruct (bool_decide (httpMethod ev = lit "OPTIONS")); [reflexivity|].
  rewrite (bool_decide_eq_false_2 _ Hm). reflexivity.
Qed.

(** A request that is not a [POST] of the client leaves the client's bucket
    as it was. *)
Lemma bucket_untouched rt ev c st ip :
  ~ from_client ip ev ->
  bucket_of (snd (invocation rt ev c st)) ip = bucket_of st ip.
Proof.
  intros Hnot. unfold bucket_of at 1. rewrite hits_invocation.
  destruct (decide (httpMethod ev = lit "POST")) as [Hpost|Hm].
  - rewrite (hits_handler _ _ _ Hpost).
    destruct (client_ip (headers ev)) as [ip'|e] eqn:Hip.
    + rewrite (rate_limit_normal _ _ _ _ Hip).
      apply (bucket_other_client _ _ _ _ _ Hip).
      intros ->. apply Hnot. split; assumption.
    + rewrite (rate_limit_throw _ _ _ _ Hip). reflexivity.
  - rewrite (handler_not_POST _ _ _ Hm). reflexivity.
Qed.

End Invocations.

(** ** Counting the entries that stay in the window *)

Lemma lasting_prune T later b :
  lasting later (prune T b) = lasting (T :: later) b.
Proof.
  unfold lasting, prune. induction b as [|t b IH]; simpl; [reflexivity|].
  destruct (T - t <? WINDOW_MS); simpl.
  - destruct (forallb _ later); simpl; rewrite IH; reflexivity.
  - apply IH.
Qed.

Lemma lasting_app later b1 b2 :
  lasting later (b1 ++ b2) = lasting later b1 ++ lasting later b2.
Proof. unfold lasting. apply List.filter_app. Qed.

Lemma lasting_step T later b :
  forallb (fun t' => t' - T <? WINDOW_MS) later = true ->
  length (lasting later (prune T b ++ [T])) =
    S (length (lasting (T :: later) b)).
Proof.
  intros HT. rewrite lasting_app, lasting_prune, length_app.
  unfold lasting at 2. simpl. rewrite HT. simpl. lia.
Qed.

Lemma prune_lasting T b : prune T b = lasting [T] b.
Proof.
  unfold prune, lasting. apply List.filter_ext. intros t. simpl.
  rewrite andb_true_r. reflexivity.
Qed.

Section Sequences.

Variable Number_toString : float -> jsstring.
Local Abbreviation serve := (serve Number_toString).
Local Abbreviation invocation := (invocation Number_toString).

Lemma serve_cons r reqs st :
  serve (r :: reqs) st =
    serve reqs (snd (invocation (fst (fst r)) (snd (fst r)) (snd r) st)).
Proof. reflexivity. Qed.

(** Each request of the client adds one entry that all later prunings
    keep, and the requests of others between them change nothing. *)
Lemma serve_lasting ip reqs : forall st later,
  within_window (List.map arrival (requests_of ip reqs) ++ later) = true ->
  (length (lasting (List.map arrival (requests_of ip reqs) ++ later)
             (bucket_of st ip))
     + length (requests_of ip reqs)
   <= length (lasting later (bucket_of (serve reqs st) ip)))%nat.
Proof.
  induction reqs as [|r reqs IH]; intros st later Hwin.
  - simpl. lia.
  - rewrite serve_cons. unfold requests_of in *. rewrite filter_cons in *.
    destruct (decide (from_client ip (snd (fst r)))) as [Hr|Hr].
    + simpl in Hwin. apply andb_true_iff in Hwin as [Hr_later Hwin].
      specialize (IH (snd (invocation (fst (fst r)) (snd (fst r)) (snd r) st))
                     later Hwin).
      rewrite (bucket_after_invocation _ _ _ _ _ _ Hr) in IH.
      fold (arrival r) in IH.
      rewrite (lasting_step _ _ _ Hr_later) in IH.
      simpl. lia.
    + specialize (IH (snd (invocation (fst (fst r)) (snd (fst r)) (snd r) st))
                     later Hwin).
      rewrite (bucket_untouched _ _ _ _ _ _ Hr) in IH.
      exact IH.
Qed.

End Sequences.

(** ** What the steps after the rate limit can answer *)

Lemma yields_ret {A} (P : A -> Prop) a : P a -> yields P (ret a).
Proof. intros HP st a' [= <-]. exact HP. Qed.

Lemma yields_throw {A} (P : A -> Prop) e : yields P (throw e).
Proof. intros st a [=]. Qed.

Lemma yields_bindM {A B} (P : B -> Prop) (m : M A) (k : A -> M B) :
  (forall a, yields P (k a)) -> yields P (bindM m k).
Proof.
  intros Hk st b. unfold bindM.
  destruct (m st) as [[a|e] st']; simpl.
  - apply Hk.
  - discriminate.
Qed.

Lemma yields_bindM_after {A B} (Q : A -> Prop) (P : B -> Prop)
    (m : M A) (k : A -> M B) :
  yields Q m -> (forall a, Q a -> yields P (k a)) -> yields P (bindM m k).
Proof.
  intros Hm Hk st b. unfold bindM. specialize (Hm st).
  destruct (m st) as [[a|e] st']; simpl in *.
  - apply Hk. apply Hm. reflexivity.
  - discriminate.
Qed.

Lemma yields_try_catch {A} (P : A -> Prop) (m : M A) (h : error -> M A) :
  yields P m -> (forall e, yields P (h e)) -> yields P (try_catch m h).
Proof.
  intros Hm Hh st a. unfold try_catch. specialize (Hm st).
  destruct (m st) as [[a'|e] st']; simpl in *.
  - apply Hm.
  - apply Hh.
Qed.

Ltac yields :=
  repeat first
    [ progress intros
    | progress cbv zeta
    | apply yields_bindM
    | apply yields_try_catch
    | apply yields_throw
    | apply yields_ret; first [reflexivity | unfold after_limit_status; simpl; tauto]
    | match goal with
      | |- yields _ (if ?b then _ else _) => destruct b
      | |- yields _ (match ?x with _ => _ end) => destruct x
      end ].

Lemma configured_status nts rt ev :
  yields after_limit_status (configured nts rt ev).
Proof. unfold configured, quote, send. yields. Qed.

Lemma configured_headers nts rt ev :
  yields (fun r => response_headers r = cors_headers) (configured nts rt ev).
Proof. unfold configured, quote, send. yields. Qed.

(** ** The handler's contract *)

Section Claims.

Variable Number_toString : float -> jsstring.
Implicit Types (rt : runtime) (ev : event) (st : state) (ip : jsstring).

Local Abbreviation handler := (handler Number_toString).
Local Abbreviation configured := (configured Number_toString).
Local Abbreviation invocation := (invocation Number_toString).
Local Abbreviation serve := (serve Number_toString).

Lemma handler_quote rt ev st st' payload :
  reaches_quote rt ev st st' payload ->
  handler rt ev st =
    quote Number_toString rt (default [] (MAILERSEND_TOKEN rt))
      (default [] (MAILERSEND_FROM rt)) (default [] (MAILERSEND_TO rt))
      payload st'.
Proof.
  intros (Hpost & Hrl & Henv & Hbody).
  rewrite (handler_admitted _ _ _ _ _ Hpost Hrl).
  apply (configured_set _ _ _ _ _ Henv Hbody).
Qed.

Lemma rate_limit_outbound rt ev st :
  outbound (snd (rate_limit rt ev st)) = outbound st
  /\ exists o, fst (rate_limit rt ev st) = Normal o
              /\ (o = None \/ o = Some too_many_requests).
Proof.
  destruct (client_ip (headers ev)) as [ip|e] eqn:Hip.
  - rewrite (rate_limit_normal _ _ _ _ Hip), (check_rate_normal _ _ _ _ Hip).
    simpl. split; [reflexivity|]. destruct (RATE <? _); eauto.
  - rewrite (rate_limit_throw _ _ _ _ Hip). simpl. eauto.
Qed.

Lemma handler_send rt ev st st' payload f subj text html ms :
  reaches_quote rt ev st st' payload ->
  company payload = Normal false ->
  destructure payload = Normal f ->
  valid_quote Number_toString f subj text html ms ->
  handler rt ev st =
    send Number_toString rt (default [] (MAILERSEND_TOKEN rt))
      (default [] (MAILERSEND_FROM rt)) (default [] (MAILERSEND_TO rt))
      f subj text html ms st'.
Proof.
  intros Hreach Hc Hd Hv.
  rewrite (handler_quote _ _ _ _ _ Hreach).
  rewrite (quote_answer _ _ _ _ _ _ _ _ Hc Hd).
  apply answer_valid. exact Hv.
Qed.

(** The decision of the rate limit for a client it can identify. *)
Lemma handler_from_client ip rt ev st :
  from_client ip ev ->
  let bucket := prune (now rt) (bucket_of st ip) ++ [now rt] in
  let stored := with_hits (<[ip := bucket]> (default ∅ (hits st))) st in
  rate_limit rt ev st =
    (Normal (if RATE <? Z.of_nat (length bucket)
             then Some too_many_requests else None), stored)
  /\ (RATE < Z.of_nat (length bucket) ->
      handler rt ev st = (Normal too_many_requests, stored))
  /\ (Z.of_nat (length bucket) <= RATE ->
      handler rt ev st = configured rt ev stored).
Proof.
  intros [Hpost Hip] bucket stored.
  assert (Hrl : rate_limit rt ev st =
                  (Normal (if RATE <? Z.of_nat (length bucket)
                           then Some too_many_requests else None), stored)).
  { rewrite (rate_limit_normal _ _ _ _ Hip).
    apply (check_rate_normal _ _ _ _ Hip). }
  split; [exact Hrl|]. split; intros Hlen.
  - rewrite (handler_POST _ _ _ _ Hpost), Hrl.
    apply Z.ltb_lt in Hlen. rewrite Hlen. reflexivity.
  - rewrite (handler_POST _ _ _ _ Hpost), Hrl.
    apply Z.ltb_ge in Hlen. rewrite Hlen. reflexivity.
Qed.

Lemma handler_unset rt ev st st' :
  httpMethod ev = lit "POST" ->
  rate_limit rt ev st = (Normal None, st') ->
  unset (MAILERSEND_TOKEN rt) || unset (MAILERSEND_FROM rt)
    || unset (MAILERSEND_TO rt) = true ->
  handler rt ev st = (Normal not_configured, st').
Proof.
  intros Hpost Hrl Henv.
  rewrite (handler_admitted _ _ _ _ _ Hpost Hrl).
  apply (configured_unset _ _ _ _ Henv).
Qed.

(** C1, as the code has it. For every POST request that reaches the
    validator (let through by the rate limiter, with the environment set,
    a body that parses and no truthy [company]), the checks run in the
    order name, email against the pattern, phone, address or postcode,
    service (any truthy value, not trimmed), message, and the first that
    fails decides, later fields not being looked at: a blank name answers
    400 "Please provide a name." whatever the other fields hold; with a
    name that is not blank, an email that prints as a string the pattern
    does not match answers "Please provide a valid email."; and so on for
    "phone", "postcode", "service" and "message". A name, phone, address
    or message that a check reaches and that is not a string ([null], a
    number, ...) is not reported as missing: [trim] is called on it and
    the handler throws a [TypeError]; an email whose conversion to a string
    throws does the same. *)
Theorem validator_order rt ev st st' payload f :
  reaches_quote rt ev st st' payload ->
  company payload = Normal false ->
  destructure payload = Normal f ->
  let asks (w : string) :=
    handler rt ev st = (Normal (please_provide (lit w)), st') in
  let throws (x : error) := handler rt ev st = (Throw x, st') in
  (forall w,
     statusCode (please_provide w) = 400
     /\ response_body (please_provide w) =
          obj [("error", VStr (lit "Please provide a " ++ w ++ lit "."))])
  /\ ((forall s, fullName f <> VStr s) -> throws TypeError)
  /\ forall n, fullName f = VStr n ->
     (is_blank n = true -> asks "name")
     /\ (is_blank n = false ->
         (forall x, ToString Number_toString (email f) = Throw x -> throws x)
         /\ forall e, ToString Number_toString (email f) = Normal e ->
            (Regex.full_match email_re e = false -> asks "valid email")
            /\ (Regex.full_match email_re e = true ->
                ((forall s, phone f <> VStr s) -> throws TypeError)
                /\ forall p, phone f = VStr p ->
                   (is_blank p = true -> asks "phone")
                   /\ (is_blank p = false ->
                       ((forall s, address f <> VStr s) -> throws TypeError)
                       /\ forall a, address f = VStr a ->
                          (is_blank a = true -> asks "postcode")
                          /\ (is_blank a = false ->
                              (truthy (service f) = false -> asks "service")
                              /\ (truthy (service f) = true ->
                                  ((forall s, message f <> VStr s) ->
                                   throws TypeError)
                                  /\ forall m, message f = VStr m ->
                                     is_blank m = true ->
                                     asks "message"))))).
Proof.
  intros Hreach Hc Hd asks throws.
  assert (Hh : handler rt ev st =
                 answer Number_toString rt (default [] (MAILERSEND_TOKEN rt))
                   (default [] (MAILERSEND_FROM rt))
                   (default [] (MAILERSEND_TO rt)) f st').
  { rewrite (handler_quote _ _ _ _ _ Hreach).
    apply (quote_answer _ _ _ _ _ _ _ _ Hc Hd). }
  assert (Hask : forall w,
             missing Number_toString f = Normal (Some (lit w)) -> asks w).
  { intros w Hw. unfold asks. rewrite Hh. apply answer_missing. exact Hw. }
  assert (Hthr : forall x, missing Number_toString f = Throw x -> throws x).
  { intros x Hx. unfold throws. rewrite Hh. apply answer_throws. exact Hx. }
  split; [intros w; split; reflexivity|].
  split.
  { intros Hs. apply Hthr. unfold missing.
    rewrite (blank_not_string _ Hs). reflexivity. }
  intros n Hn. unfold is_blank. split.
  { intros Bn. apply Hask. unfold missing. rewrite Hn. simpl. rewrite Bn.
    reflexivity. }
  intros Bn. split.
  { intros x Hx. apply Hthr. unfold missing, test. rewrite Hn. simpl.
    rewrite Bn, Hx. reflexivity. }
  intros e He. split.
  { intros Be. apply Hask. unfold missing, test. rewrite Hn. simpl.
    rewrite Bn, He. simpl. rewrite Be. reflexivity. }
  intros Be. split.
  { intros Hs. apply Hthr. unfold missing, test. rewrite Hn. simpl.
    rewrite Bn, He. simpl. rewrite Be, (blank_not_string _ Hs). reflexivity. }
  intros p Hp. split.
  { intros Bp. apply Hask. unfold missing, test. rewrite Hn, Hp. simpl.
    rewrite Bn, He. simpl. rewrite Be, Bp. reflexivity. }
  intros Bp. split.
  { intros Hs. apply Hthr. unfold missing, test. rewrite Hn, Hp. simpl.
    rewrite Bn, He. simpl. rewrite Be, Bp, (blank_not_string _ Hs).
    reflexivity. }
  intros a Ha. split.
  { intros Ba. apply Hask. unfold missing, test. rewrite Hn, Hp, Ha. simpl.
    rewrite Bn, He. simpl. rewrite Be, Bp, Ba. reflexivity. }
  intros Ba. split.
  { intros Bs. apply Hask. unfold missing, test. rewrite Hn, Hp, Ha. simpl.
    rewrite Bn, He. simpl. rewrite Be, Bp, Ba, Bs. reflexivity. }
  intros Bs. split.
  { intros Hs. apply Hthr. unfold missing, test. rewrite Hn, Hp, Ha. simpl.
    rewrite Bn, He. simpl. rewrite Be, Bp, Ba, Bs, (blank_not_string _ Hs).
    reflexivity. }
  intros m Hm Bm. apply Hask. unfold missing, test.
  rewrite Hn, Hp, Ha, Hm. simpl. rewrite Bn, He. simpl.
  rewrite Be, Bp, Ba, Bs, Bm. reflexivity.
Qed.

(** C2. On each call for a client it can identify, the rate limiter takes
    the bucket of timestamps of that client (empty if none), keeps the
    entries less than the 10-minute window old (600000 ms) and drops the
    others, appends the current timestamp and stores the bucket back; it
    answers 429 with the error "Too many requests. Please try again
    later." exactly when the stored bucket holds more than 5 entries, and
    otherwise the handler goes on to its next steps. After five or
    more earlier requests of the same client, each later one within the
    window of each earlier one, with any requests of other clients between
    them, the next request of the client is answered 429; once
    every entry of the bucket is a window old or more, a request of that
    client is admitted again, into a bucket that holds only itself. *)
Theorem rate_limit_window ip rt ev st :
  from_client ip ev ->
  let kept := prune (now rt) (bucket_of st ip) in
  let bucket := kept ++ [now rt] in
  let stored := with_hits (<[ip := bucket]> (default ∅ (hits st))) st in
  (WINDOW_MS = 600000 /\ RATE = 5)
  /\ (statusCode too_many_requests = 429
      /\ response_body too_many_requests =
           obj [("error", str "Too many requests. Please try again later.")])
  /\ (forall t, In t kept <->
                In t (bucket_of st ip) /\ now rt - t < WINDOW_MS)
  /\ snd (rate_limit rt ev st) = stored
  /\ bucket_of stored ip = bucket
  /\ (fst (rate_limit rt ev st) = Normal (Some too_many_requests) <->
      RATE < Z.of_nat (length bucket))
  /\ (RATE < Z.of_nat (length bucket) ->
      handler rt ev st = (Normal too_many_requests, stored))
  /\ (Z.of_nat (length bucket) <= RATE ->
      handler rt ev st = configured rt ev stored)
  /\ (forall earlier st0,
        st = serve earlier st0 ->
        (5 <= length (requests_of ip earlier))%nat ->
        within_window
          (List.map arrival (requests_of ip earlier) ++ [now rt]) = true ->
        fst (handler rt ev st) = Normal too_many_requests)
  /\ ((forall t, In t (bucket_of st ip) -> WINDOW_MS <= now rt - t) ->
      kept = [] /\ handler rt ev st = configured rt ev stored).
Proof.
  intros Hfrom kept bucket stored.
  destruct (handler_from_client ip rt ev st Hfrom) as (Hrl & Hover & Hunder).
  fold kept in Hrl, Hover, Hunder. fold bucket in Hrl, Hover, Hunder.
  fold stored in Hrl, Hover, Hunder.
  assert (Hgone : (forall t, In t (bucket_of st ip) ->
                        WINDOW_MS <= now rt - t) -> kept = []).
  { intros Hold. destruct kept as [|t kept'] eqn:Hkept; [reflexivity|].
    assert (Hin : In t (prune (now rt) (bucket_of st ip))).
    { fold kept. rewrite Hkept. left. reflexivity. }
    apply prune_spec in Hin as [Hin Hlt].
    specialize (Hold t Hin). lia. }
  split; [split; reflexivity|].
  split; [split; reflexivity|].
  split; [intros t; apply prune_spec|].
  split; [rewrite Hrl; reflexivity|].
  split.
  { subst stored. rewrite bucket_of_with_hits, lookup_insert_eq.
    reflexivity. }
  split.
  { rewrite Hrl. simpl. destruct (RATE <? _) eqn:E.
    - apply Z.ltb_lt in E. tauto.
    - apply Z.ltb_ge in E. split; [discriminate | lia]. }
  split; [exact Hover|].
  split; [exact Hunder|].
  split.
  - intros earlier st0 -> Hfive Hwin.
    rewrite Hover; [reflexivity|].
    pose proof (serve_lasting Number_toString ip earlier st0 [now rt] Hwin)
      as Hcount.
    subst bucket kept. rewrite length_app, prune_lasting. simpl.
    unfold RATE. lia.
  - intros Hold. split; [exact (Hgone Hold)|].
    apply Hunder. subst bucket. rewrite (Hgone Hold). simpl.
    unfold RATE. lia.
Qed.

(** C3, as the code has it. For every POST request the rate limiter lets
    through, if one of the three environment variables is absent or empty
    the handler answers 500 "Server not configured. Missing env vars." and
    leaves the state exactly as the rate limiter left it: the body is not
    parsed, the honeypot and the validator do not run, nothing is logged or
    sent. The rate limit runs before this check. *)
Theorem missing_env_500 rt ev st st' :
  httpMethod ev = lit "POST" ->
  rate_limit rt ev st = (Normal None, st') ->
  unset (MAILERSEND_TOKEN rt) || unset (MAILERSEND_FROM rt)
    || unset (MAILERSEND_TO rt) = true ->
  handler rt ev st = (Normal not_configured, st')
  /\ statusCode not_configured = 500.
Proof.
  intros Hpost Hrl Henv. split; [|reflexivity].
  apply (handler_unset _ _ _ _ Hpost Hrl Henv).
Qed.

(** The three answers to a payload with a truthy [company]. *)
Lemma honeypot_paths rt ev st payload :
  httpMethod ev = lit "POST" ->
  parse (body ev) = Some payload ->
  company payload = Normal true ->
  outbound (snd (handler rt ev st)) = outbound st
  /\ (fst (handler rt ev st) = Normal too_many_requests
      \/ fst (handler rt ev st) = Normal not_configured
      \/ fst (handler rt ev st) = Normal skipped)
  /\ (forall st',
        rate_limit rt ev st = (Normal None, st') ->
        unset (MAILERSEND_TOKEN rt) || unset (MAILERSEND_FROM rt)
          || unset (MAILERSEND_TO rt) = false ->
        handler rt ev st = (Normal skipped, st')).
Proof.
  intros Hpost Hbody Hcompany.
  assert (Hquote : forall token from to st',
             quote Number_toString rt token from to payload st' =
               (Normal skipped, st')).
  { intros token from to st'. apply quote_company. exact Hcompany. }
  assert (Hpass : forall st',
             rate_limit rt ev st = (Normal None, st') ->
             unset (MAILERSEND_TOKEN rt) || unset (MAILERSEND_FROM rt)
               || unset (MAILERSEND_TO rt) = false ->
             handler rt ev st = (Normal skipped, st')).
  { intros st' Hrl Henv.
    rewrite (handler_quote rt ev st st' payload); [apply Hquote|].
    repeat split; assumption. }
  destruct (rate_limit_outbound rt ev st) as (Hout & o & Ho & Hcases).
  destruct (rate_limit rt ev st) as [ro st'] eqn:Hrl. simpl in Hout, Ho.
  subst ro.
  destruct Hcases as [-> | ->].
  - destruct (unset (MAILERSEND_TOKEN rt) || unset (MAILERSEND_FROM rt)
              || unset (MAILERSEND_TO rt)) eqn:Henv.
    + rewrite (handler_unset rt ev st st' Hpost Hrl Henv).
      simpl. split; [exact Hout|]. split; [tauto|]. intros _ _ [=].
    + rewrite (Hpass st' eq_refl eq_refl). simpl.
      split; [exact Hout|]. split; [tauto|].
      intros st'' [= <-] _. reflexivity.
  - rewrite (handler_POST _ _ _ _ Hpost), Hrl. simpl.
    split; [exact Hout|]. split; [tauto|]. intros st'' [=].
Qed.

(** C4, as the code has it. For every POST request whose parsed payload
    has a truthy [company], no call to the provider is made, and the
    answer is the rate limiter's 429, the 500 of a missing environment
    variable, or 200 with [{ok: true, skipped: true}]; whenever the rate
    limiter lets the request through and the environment is set, it is
    that 200, whatever the other fields are. *)
Theorem honeypot_dropped rt ev st payload :
  httpMethod ev = lit "POST" ->
  parse (body ev) = Some payload ->
  company payload = Normal true ->
  outbound (snd (handler rt ev st)) = outbound st
  /\ (statusCode skipped = 200
      /\ response_body skipped = obj [("ok", VBool true); ("skipped", VBool true)])
  /\ (statusCode too_many_requests = 429 /\ statusCode not_configured = 500)
  /\ (fst (handler rt ev st) = Normal too_many_requests
      \/ fst (handler rt ev st) = Normal not_configured
      \/ fst (handler rt ev st) = Normal skipped)
  /\ (forall st',
        rate_limit rt ev st = (Normal None, st') ->
        unset (MAILERSEND_TOKEN rt) || unset (MAILERSEND_FROM rt)
          || unset (MAILERSEND_TO rt) = false ->
        handler rt ev st = (Normal skipped, st')).
Proof.
  intros Hpost Hbody Hcompany.
  destruct (honeypot_paths rt ev st payload Hpost Hbody Hcompany)
    as (Hout & Hcases & Hpass).
  split; [exact Hout|]. split; [split; reflexivity|].
  split; [split; reflexivity|]. split; [exact Hcases | exact Hpass].
Qed.

(** C5, as the code has it. For every POST request that reaches the
    validator, passes it and has its business email built and sent: the
    provider's response counts as a success exactly when its status is
    200 to 299. On a success the handler answers 200 with [{ok: true, id}],
    the id being [message_id] of the response's JSON body when that is
    truthy and "sent" otherwise, also when a [message_id] is supplied that
    is falsy (0, the empty string, [false], [null]). On any other response
    it answers 500 with the error being [message] of the body when that is
    truthy and "Email send failed. Please try again or call 07305 848484."
    otherwise, also when a [message] is present that is empty. A body that
    cannot be read as JSON counts as [{}]. *)
Theorem provider_outcome rt ev st st' payload f subj text html ms r :
  reaches_quote rt ev st st' payload ->
  company payload = Normal false ->
  destructure payload = Normal f ->
  valid_quote Number_toString f subj text html ms ->
  provider rt = Responds r ->
  let data := default (obj []) (json_body r) in
  (ok r = true <-> 200 <= status r <= 299)
  /\ exists a,
       fst (handler rt ev st) = Normal a
       /\ (ok r = true ->
           statusCode a = 200
           /\ exists v,
                get_opt data "message_id" = Normal v
                /\ response_body a =
                     obj [("ok", VBool true);
                          ("id", if truthy v then v else str "sent")])
       /\ (ok r = false ->
           statusCode a = 500
           /\ exists v,
                get_opt data "message" = Normal v
                /\ response_body a =
                     obj [("error",
                           if truthy v then v
                           else str "Email send failed. Please try again or call 07305 848484.")]).
Proof.
  intros Hreach Hc Hd Hv Hp data.
  rewrite (handler_send _ _ _ _ _ _ _ _ _ _ Hreach Hc Hd Hv).
  split.
  { unfold ok. rewrite andb_true_iff, !Z.leb_le. reflexivity. }
  destruct (ok r) eqn:Hok.
  - rewrite (send_2xx _ _ _ _ _ _ _ _ _ _ _ _ Hp Hok).
    eexists. split; [reflexivity|]. split; [|discriminate].
    intros _. split; [reflexivity|].
    destruct (supplied_or_else r "message_id" (str "sent")) as (v & Hg & Ho).
    exists v. split; [exact Hg|]. simpl. rewrite <- Ho. reflexivity.
  - rewrite (send_not_2xx _ _ _ _ _ _ _ _ _ _ _ _ Hp Hok).
    eexists. split; [reflexivity|]. split; [discriminate|].
    intros _. split; [reflexivity|].
    destruct (supplied_or_else r "message"
                (str "Email send failed. Please try again or call 07305 848484."))
      as (v & Hg & Ho).
    exists v. split; [exact Hg|]. simpl. rewrite <- Ho. reflexivity.
Qed.

(** What the handler answers once the business email is on its way. *)
Lemma send_reply rt token from to f subj text html ms st :
  fst (send Number_toString rt token from to f subj text html ms st)
  = Normal (reply_of (provider rt)).
Proof.
  unfold reply_of.
  destruct (provider rt) as [r|e] eqn:Hp; [destruct (ok r) eqn:Hok|].
  - rewrite (send_2xx _ _ _ _ _ _ _ _ _ _ _ _ Hp Hok). reflexivity.
  - rewrite (send_not_2xx _ _ _ _ _ _ _ _ _ _ _ _ Hp Hok). reflexivity.
  - rewrite (send_rejected _ _ _ _ _ _ _ _ _ _ _ _ Hp). reflexivity.
Qed.

(** The answer of the steps after the rate limit does not depend on the
    state they start from, and the answer of the handler depends on no
    more of it than the store. *)
Lemma answer_state_free rt token from to f st1 st2 :
  fst (answer Number_toString rt token from to f st1)
  = fst (answer Number_toString rt token from to f st2).
Proof.
  unfold answer, bindM, lift.
  destruct (missing Number_toString f) as [[w|]|e]; try reflexivity.
  destruct (subject Number_toString f); [|reflexivity].
  destruct (textBody Number_toString f); [|reflexivity].
  destruct (htmlBody Number_toString f); [|reflexivity].
  destruct (msAttachments (attachments f)); [|reflexivity].
  rewrite !send_reply. reflexivity.
Qed.

Lemma configured_state_free rt ev st1 st2 :
  fst (configured rt ev st1) = fst (configured rt ev st2).
Proof.
  unfold configured. cbv zeta.
  destruct (unset (MAILERSEND_TOKEN rt) || unset (MAILERSEND_FROM rt)
            || unset (MAILERSEND_TO rt)); [reflexivity|].
  destruct (parse (body ev)) as [payload|]; [|reflexivity].
  unfold quote, bindM, lift.
  destruct (get payload "company") as [c|]; [|reflexivity].
  destruct (truthy c); [reflexivity|].
  destruct (destructure payload); [|reflexivity].
  apply answer_state_free.
Qed.

Lemma handler_state_free rt ev st1 st2 :
  hits st1 = hits st2 ->
  fst (handler rt ev st1) = fst (handler rt ev st2).
Proof.
  intros Hh. unfold handler.
  destruct (bool_decide (httpMethod ev = lit "OPTIONS")); [reflexivity|].
  destruct (negb (bool_decide (httpMethod ev = lit "POST"))); [reflexivity|].
  unfold bindM.
  destruct (client_ip (headers ev)) as [ip|e] eqn:Hip.
  - rewrite !(rate_limit_normal _ _ _ _ Hip), !(check_rate_normal _ _ _ _ Hip).
    unfold bucket_of. rewrite Hh.
    destruct (RATE <? _); [reflexivity|]. apply configured_state_free.
  - rewrite !(rate_limit_throw _ _ _ _ Hip). apply configured_state_free.
Qed.

(** The confirmation call is made and not waited for. *)
Lemma confirmation_detached
    rt ev st st' payload f subj text html ms r :
  reaches_quote rt ev st st' payload ->
  company payload = Normal false ->
  destructure payload = Normal f ->
  valid_quote Number_toString f subj text html ms ->
  provider rt = Responds r ->
  ok r = true ->
  let token := default [] (MAILERSEND_TOKEN rt) in
  let from := default [] (MAILERSEND_FROM rt) in
  let to := default [] (MAILERSEND_TO rt) in
  let success :=
    json 200 (obj [("ok", VBool true);
                   ("id", default (str "sent") (supplied r "message_id"))]) in
  exists req,
    confirmation_email Number_toString token from f = Normal req
    /\ handler rt ev st =
         (Normal success,
          with_call req Detached
            (with_call (business_email token from to f subj text html ms)
               Awaited st'))
    /\ forall c,
         fst (invocation rt ev c st) = Normal success
         /\ hits (snd (invocation rt ev c st)) = hits st'
         /\ outbound (snd (invocation rt ev c st)) =
              outbound st'
              ++ [(business_email token from to f subj text html ms, Awaited);
                  (req, Detached)]
         /\ console (snd (invocation rt ev c st)) =
              console st'
              ++ match c with
                 | Rejects e => [Warn (lit "Confirmation email failed:") e]
                 | Responds _ => []
                 end.
Proof.
  intros Hreach Hc Hd Hv Hp Hok token from to success.
  pose proof Hv as (_ & _ & Ht & _).
  destruct (confirmation_builds Number_toString token from f text Ht)
    as [req Hreq].
  exists req. split; [exact Hreq|].
  assert (Hh : handler rt ev st =
                 (Normal success,
                  with_call req Detached
                    (with_call
                       (business_email token from to f subj text html ms)
                       Awaited st'))).
  { rewrite (handler_send _ _ _ _ _ _ _ _ _ _ Hreach Hc Hd Hv).
    rewrite (send_2xx _ _ _ _ _ _ _ _ _ _ _ _ Hp Hok).
    pose proof (confirm_cases Number_toString token from f
                  (with_call
                     (business_email token from to f subj text html ms)
                     Awaited st')) as Hcc.
    rewrite Hreq in Hcc. fold token from to. rewrite Hcc. reflexivity. }
  split; [exact Hh|].
  intros c.
  assert (Hrl : outbound st' = outbound st).
  { destruct Hreach as (_ & Hrl & _).
    pose proof (rate_limit_outbound rt ev st) as [Hout _].
    rewrite Hrl in Hout. exact Hout. }
  unfold invocation. rewrite Hh. simpl.
  rewrite <- Hrl, <- app_assoc, drop_app_length. simpl.
  destruct c; simpl; rewrite ?app_nil_r, <- ?app_assoc; repeat split;
    reflexivity.
Qed.

(** C6, as the code has it. For every valid payload whose business email
    the provider accepted with a 2xx response, the handler makes the
    confirmation call as a detached call and returns 200 with
    [{ok: true, id}] without its result; and however that call ends (a 2xx
    response, an error response, a rejection), the invocation's response
    is that same 200, the store and the calls made are the same, and no
    later request of anybody is answered differently. Only a rejection of
    the call is logged, with one [console.warn] line; a response with an
    error status is not looked at and nothing is logged. *)
Theorem confirmation_never_changes_response
    rt ev st st' payload f subj text html ms r :
  reaches_quote rt ev st st' payload ->
  company payload = Normal false ->
  destructure payload = Normal f ->
  valid_quote Number_toString f subj text html ms ->
  provider rt = Responds r ->
  ok r = true ->
  let token := default [] (MAILERSEND_TOKEN rt) in
  let from := default [] (MAILERSEND_FROM rt) in
  let to := default [] (MAILERSEND_TO rt) in
  let success :=
    json 200 (obj [("ok", VBool true);
                   ("id", default (str "sent") (supplied r "message_id"))]) in
  (statusCode success = 200
   /\ response_body success =
        obj [("ok", VBool true);
             ("id", default (str "sent") (supplied r "message_id"))])
  /\ exists req,
       confirmation_email Number_toString token from f = Normal req
       /\ handler rt ev st =
            (Normal success,
             with_call req Detached
               (with_call (business_email token from to f subj text html ms)
                  Awaited st'))
       /\ (forall c,
             fst (invocation rt ev c st) = Normal success
             /\ hits (snd (invocation rt ev c st)) = hits st'
             /\ outbound (snd (invocation rt ev c st)) =
                  outbound st'
                  ++ [(business_email token from to f subj text html ms,
                       Awaited);
                      (req, Detached)]
             /\ console (snd (invocation rt ev c st)) =
                  console st'
                  ++ match c with
                     | Rejects e =>
                         [Warn (lit "Confirmation email failed:") e]
                     | Responds _ => []
                     end)
       /\ (forall c c' rt' ev',
             fst (handler rt' ev' (snd (invocation rt ev c st)))
             = fst (handler rt' ev' (snd (invocation rt ev c' st)))).
Proof.
  intros Hreach Hc Hd Hv Hp Hok token from to success.
  split; [split; reflexivity|].
  destruct (confirmation_detached rt ev st st' payload f subj text html ms r
              Hreach Hc Hd Hv Hp Hok) as (req & Hreq & Hh & Hall).
  exists req. split; [exact Hreq|]. split; [exact Hh|].
  split; [exact Hall|].
  intros c c' rt' ev'. apply handler_state_free.
  destruct (Hall c) as (_ & -> & _). destruct (Hall c') as (_ & -> & _).
  reflexivity.
Qed.

(** C7. When the rate-limit check of a POST request throws (an
    [event.headers] that is [undefined], a header that is not a string),
    the exception is caught and logged with [console.warn], nothing is
    written to the store, no 429 is answered, and the handler goes on with
    the environment check and the rest as for an admitted request. *)
Theorem rate_limit_fails_open rt ev st e :
  httpMethod ev = lit "POST" ->
  fst (check_rate rt ev st) = Throw e ->
  let logged := with_log (Warn (lit "Rate limit check failed:") e) st in
  rate_limit rt ev st = (Normal None, logged)
  /\ hits logged = hits st
  /\ handler rt ev st = configured rt ev logged.
Proof.
  intros Hpost Hthrow logged.
  assert (Hrl : rate_limit rt ev st = (Normal None, logged)).
  { unfold rate_limit, try_catch.
    rewrite (check_rate_throw_inv _ _ _ _ Hthrow). reflexivity. }
  split; [exact Hrl|]. split; [reflexivity|].
  apply (handler_admitted _ _ _ _ _ Hpost Hrl).
Qed.

Lemma sequence_Throw {A} (cs : list (completion A)) e :
  sequence cs = Throw e -> Exists (fun c => c = Throw e) cs.
Proof.
  induction cs as [|c cs IH]; simpl; [discriminate|].
  destruct c as [a|e']; simpl.
  - destruct (sequence cs) as [r|e'']; simpl; [discriminate|].
    intros [= <-]. apply Exists_cons_tl, IH. reflexivity.
  - intros [= <-]. apply Exists_cons_hd. reflexivity.
Qed.

Lemma msAttachment_error i a e : msAttachment i a = Throw e -> e = TypeError.
Proof.
  unfold msAttachment. destruct a; simpl; intros [=]; congruence.
Qed.

Lemma msAttachments_error l e :
  msAttachments (VArr l) = Throw e -> e = TypeError.
Proof.
  destruct l as [|a l]; [discriminate|]. unfold msAttachments. intros H.
  apply sequence_Throw, Exists_exists in H as (c & Hin & ->).
  apply list_elem_of_lookup in Hin as [i Hi].
  rewrite list_lookup_imap in Hi.
  destruct (firstn 5 (a :: l) !! i) as [x|]; [|discriminate].
  injection Hi as Hi. exact (msAttachment_error i x e Hi).
Qed.

(** The attachments are converted when none of the first five is [null],
    and not otherwise. *)
Lemma msAttachments_first_total l :
  Forall (fun a => a <> VNull /\ a <> VUndefined) (firstn 5 l) ->
  exists ms, msAttachments (VArr l) = Normal ms.
Proof.
  intros Hl. destruct l as [|a l]; [simpl; eauto|].
  unfold msAttachments. apply sequence_total.
  apply List.Forall_forall. intros c Hc.
  apply (proj2 (list_elem_of_In _ _)) in Hc.
  apply list_elem_of_lookup in Hc as [i Hi].
  rewrite list_lookup_imap in Hi.
  destruct (firstn 5 (a :: l) !! i) as [x|] eqn:Hx; [|discriminate].
  injection Hi as <-.
  assert (Hin : In x (firstn 5 (a :: l))).
  { apply (proj1 (list_elem_of_In _ _)). apply list_elem_of_lookup. eauto. }
  rewrite List.Forall_forall in Hl. destruct (Hl x Hin) as [Hn Hu].
  apply msAttachment_total; assumption.
Qed.

Lemma msAttachments_null l :
  Exists (fun a => a = VNull \/ a = VUndefined) (firstn 5 l) ->
  msAttachments (VArr l) = Throw TypeError.
Proof.
  intros Hex. destruct (msAttachments (VArr l)) as [ms|e] eqn:H.
  - exfalso. destruct (msAttachments_spec l ms H) as [_ Hent].
    apply Exists_exists in Hex as (x & Hin & Hx).
    apply list_elem_of_lookup in Hin as [i Hi].
    destruct (Hent i x Hi) as (fn & b64 & Hfn & _).
    destruct Hx as [-> | ->]; discriminate.
  - rewrite (msAttachments_error l e H). reflexivity.
Qed.

(** C8, as the code has it. For every POST request that reaches the
    validator with a payload that passes it, whose subject and bodies are
    built and whose [attachments] is an array: when none of the first five
    entries is [null] (or [undefined]), the first call the handler makes is
    the business email, its [attachments] are at most 5, as many as the
    smaller of 5 and the array's length, and the i-th is the i-th entry of
    the array converted to [{filename, content}], the filename being the
    entry's [filename] or "photo-{i+1}.jpg" when that is missing (or
    falsy), the content the entry's [base64] or the empty string; when one
    of the first five entries is [null], reading its [filename] throws a
    [TypeError] outside of any [try]: the handler throws, nothing is sent
    and nothing is answered. *)
Theorem attachments_capped rt ev st st' payload f subj text html l :
  reaches_quote rt ev st st' payload ->
  company payload = Normal false ->
  destructure payload = Normal f ->
  missing Number_toString f = Normal None ->
  subject Number_toString f = Normal subj ->
  textBody Number_toString f = Normal text ->
  htmlBody Number_toString f = Normal html ->
  attachments f = VArr l ->
  (Forall (fun a => a <> VNull /\ a <> VUndefined) (firstn 5 l) ->
   exists ms,
     let business :=
       business_email (default [] (MAILERSEND_TOKEN rt))
         (default [] (MAILERSEND_FROM rt)) (default [] (MAILERSEND_TO rt))
         f subj text html ms in
     msAttachments (attachments f) = Normal ms
     /\ (exists rest,
          outbound (snd (handler rt ev st)) =
            outbound st' ++ (business, Awaited) :: rest)
     /\ get (payload_sent business) "attachments" = Normal (VArr ms)
     /\ (length ms <= 5)%nat
     /\ length ms = Nat.min 5 (length l)
     /\ forall i a,
          firstn 5 l !! i = Some a ->
          exists fn b64,
            get a "filename" = Normal fn
            /\ get a "base64" = Normal b64
            /\ ms !! i =
                 Some (obj [("filename",
                             or_else fn
                               (VStr (lit "photo-" ++ decimal (i + 1)
                                      ++ lit ".jpg")));
                            ("content", or_else b64 (str ""))]))
  /\ (Exists (fun a => a = VNull \/ a = VUndefined) (firstn 5 l) ->
      handler rt ev st = (Throw TypeError, st')).
Proof.
  intros Hreach Hc Hd Hm Hs Ht Hh Hl. split.
  - intros Hall. destruct (msAttachments_first_total l Hall) as [ms Hms].
    exists ms. cbv zeta.
    assert (Hv : valid_quote Number_toString f subj text html ms).
    { repeat split; try assumption. rewrite Hl. exact Hms. }
    destruct (msAttachments_spec l ms Hms) as [Hlen Hentries].
    split; [rewrite Hl; exact Hms|].
    split.
    { rewrite (handler_send _ _ _ _ _ _ _ _ _ _ Hreach Hc Hd Hv).
      apply send_outbound. }
    split; [reflexivity|].
    split; [lia|]. split; [exact Hlen | exact Hentries].
  - intros Hex. rewrite (handler_quote _ _ _ _ _ Hreach).
    rewrite (quote_answer _ _ _ _ _ _ _ _ Hc Hd).
    unfold answer, bindM, lift.
    rewrite Hm, Hs, Ht, Hh, Hl, (msAttachments_null l Hex). reflexivity.
Qed.

(** C9. Whenever the rate-limit check of a POST request runs without
    throwing, the bucket stored for the client ends with the current
    timestamp, whether the request is admitted or not: the timestamp is
    appended before the length is compared. A request answered 429 is
    the rate limiter's rejection, its timestamp is in the bucket, and a
    request of the same client less than a window later finds it there:
    the new bucket holds the survivors of the old entries, the rejected
    request and the new one, and the new request is rejected when that
    makes more than 5. *)
Theorem rejected_request_recorded ip rt ev st :
  from_client ip ev ->
  let kept := prune (now rt) (bucket_of st ip) in
  let bucket := kept ++ [now rt] in
  (forall c, bucket_of (snd (invocation rt ev c st)) ip = bucket)
  /\ (forall r, fst (handler rt ev st) = Normal r -> statusCode r = 429 ->
       r = too_many_requests
       /\ RATE < Z.of_nat (length bucket)
       /\ forall c rt' ev',
            from_client ip ev' ->
            now rt' - now rt < WINDOW_MS ->
            let st1 := snd (invocation rt ev c st) in
            let bucket' := prune (now rt') kept ++ [now rt; now rt'] in
            bucket_of (snd (handler rt' ev' st1)) ip = bucket'
            /\ (RATE < Z.of_nat (length bucket') ->
                fst (handler rt' ev' st1) = Normal too_many_requests)).
Proof.
  intros Hfrom kept bucket.
  assert (Hrec : forall c, bucket_of (snd (invocation rt ev c st)) ip = bucket).
  { intros c. apply (bucket_after_invocation _ _ _ _ _ _ Hfrom). }
  split; [exact Hrec|].
  intros r Hr H429. pose proof Hfrom as [Hpost Hip].
  destruct (handler_from_client ip rt ev st Hfrom) as (_ & Hover & Hunder).
  fold kept in Hover, Hunder. fold bucket in Hover, Hunder.
  destruct (Z.lt_ge_cases RATE (Z.of_nat (length bucket))) as [Hlen|Hlen].
  - rewrite (Hover Hlen) in Hr. simpl in Hr. injection Hr as <-.
    split; [reflexivity|]. split; [exact Hlen|].
    intros c rt' ev' Hfrom' Hnear st1 bucket'.
    assert (Hb : prune (now rt') (bucket_of st1 ip) ++ [now rt'] = bucket').
    { subst st1 bucket'. rewrite Hrec. subst bucket.
      rewrite prune_app, (prune_one _ _ Hnear), <- app_assoc.
      reflexivity. }
    destruct (handler_from_client ip rt' ev' st1 Hfrom')
      as (Hrl' & Hover' & _).
    rewrite Hb in Hrl', Hover'.
    split.
    + destruct Hfrom' as [Hpost' _].
      unfold bucket_of at 1. rewrite (hits_handler _ _ _ _ Hpost'), Hrl'.
      simpl. rewrite lookup_insert_eq. reflexivity.
    + intros Hlen'. rewrite (Hover' Hlen'). reflexivity.
  - rewrite (Hunder Hlen) in Hr.
    apply configured_status in Hr. unfold after_limit_status in Hr. lia.
Qed.

(** The address the validator sees, and what it does with a defined
    one. *)
Lemma address_checked rt ev st st' payload f a :
  reaches_quote rt ev st st' payload ->
  company payload = Normal false ->
  destructure payload = Normal f ->
  get payload "address" = Normal a ->
  (a = VUndefined ->
   forall pc, get payload "postcode" = Normal pc ->
              address f = or_else pc (str ""))
  /\ (a <> VUndefined ->
      address f = a
      /\ forall n e p,
           fullName f = VStr n -> is_blank n = false ->
           ToString Number_toString (email f) = Normal e ->
           Regex.full_match email_re e = true ->
           phone f = VStr p -> is_blank p = false ->
           (forall s, a = VStr s -> is_blank s = true ->
                      handler rt ev st =
                        (Normal (please_provide (lit "postcode")), st'))
           /\ ((forall s, a <> VStr s) ->
               handler rt ev st = (Throw TypeError, st'))).
Proof.
  intros Hreach Hc Hd Ha.
  destruct (destructure_address _ _ _ _ Hc Hd Ha) as [Hdef Hundef].
  split; [exact Hundef|].
  intros Hne. specialize (Hdef Hne). split; [exact Hdef|].
  intros n e p Hn Hnb He Hem Hp Hpb.
  rewrite (handler_quote _ _ _ _ _ Hreach).
  rewrite (quote_answer _ _ _ _ _ _ _ _ Hc Hd).
  split.
  - intros s -> Hsb. apply answer_missing.
    unfold missing, test. rewrite Hn, He, Hp, Hdef. simpl.
    unfold is_blank in Hnb, Hpb, Hsb. rewrite Hnb, Hem, Hpb, Hsb.
    reflexivity.
  - intros Hns. apply answer_throws.
    apply (missing_address_throws _ _ _ _ _ Hn Hnb He Hem Hp Hpb).
    rewrite Hdef. exact Hns.
Qed.

(** C10, as the code has it. For every POST request that reaches the
    validator (let through by the rate limiter, with the environment set,
    a body that parses and no truthy [company]): the destructured address
    is the postcode (or the empty string) only when the payload has no
    defined [address]; a defined [address] is used as it is, whatever the
    postcode. When moreover the name, email and phone checks pass, a
    defined address that is an empty or blank string answers 400 "Please
    provide a postcode." although a postcode was given, and a defined
    address that is not a string ([null], [false], [0], ...) makes
    [address.trim()] throw a [TypeError]: the postcode is not used then
    either, and no 400 is answered. *)
Theorem postcode_fallback rt ev st st' payload f a :
  reaches_quote rt ev st st' payload ->
  company payload = Normal false ->
  destructure payload = Normal f ->
  get payload "address" = Normal a ->
  (statusCode (please_provide (lit "postcode")) = 400
   /\ response_body (please_provide (lit "postcode")) =
        obj [("error", str "Please provide a postcode.")])
  /\ (a = VUndefined ->
      forall pc, get payload "postcode" = Normal pc ->
                 address f = or_else pc (str ""))
  /\ (a <> VUndefined ->
      address f = a
      /\ forall n e p,
           fullName f = VStr n -> is_blank n = false ->
           ToString Number_toString (email f) = Normal e ->
           Regex.full_match email_re e = true ->
           phone f = VStr p -> is_blank p = false ->
           (forall s, a = VStr s -> is_blank s = true ->
                      handler rt ev st =
                        (Normal (please_provide (lit "postcode")), st'))
           /\ ((forall s, a <> VStr s) ->
               handler rt ev st = (Throw TypeError, st'))).
Proof.
  intros Hreach Hc Hd Ha.
  split; [split; reflexivity|].
  exact (address_checked rt ev st st' payload f a Hreach Hc Hd Ha).
Qed.

(** A request with the method OPTIONS is answered 200 with [{ok: true}],
    whatever its headers and body, and nothing else happens. *)
Lemma options_always_200 rt ev st :
  httpMethod ev = lit "OPTIONS" ->
  handler rt ev st = (Normal (json 200 (obj [("ok", VBool true)])), st).
Proof. intros Hm. unfold handler. rewrite Hm. reflexivity. Qed.

(** A request whose method is neither OPTIONS nor POST is answered 405
    with the error "Method not allowed", and nothing else happens. *)
Lemma other_methods_405 rt ev st :
  httpMethod ev <> lit "OPTIONS" ->
  httpMethod ev <> lit "POST" ->
  handler rt ev st =
    (Normal (json 405 (obj [("error", str "Method not allowed")])), st).
Proof.
  intros Ho Hp. unfold handler.
  rewrite (bool_decide_eq_false_2 _ Ho), (bool_decide_eq_false_2 _ Hp).
  reflexivity.
Qed.

(** X3. A POST request the rate limiter lets through, with the environment
    set and a body that is not JSON, is answered 400 with the error
    "Bad JSON". *)
Theorem bad_json_400 rt ev st st' :
  httpMethod ev = lit "POST" ->
  rate_limit rt ev st = (Normal None, st') ->
  unset (MAILERSEND_TOKEN rt) || unset (MAILERSEND_FROM rt)
    || unset (MAILERSEND_TO rt) = false ->
  parse (body ev) = None ->
  handler rt ev st =
    (Normal {| statusCode := 400;
               response_headers := cors_headers;
               response_body := obj [("error", str "Bad JSON")] |}, st').
Proof.
  intros Hpost Hrl Henv Hbody.
  rewrite (handler_admitted _ _ _ _ _ Hpost Hrl).
  unfold configured. rewrite Henv, Hbody. reflexivity.
Qed.

(** X4. For a valid payload whose business email is built, when the call
    to the provider rejects (the network fails), the error is logged with
    [console.error], no confirmation is sent, and the handler answers 500
    with "Network error sending email. Please try again later.". *)
Theorem transport_failure_500
    rt ev st st' payload f subj text html ms e :
  reaches_quote rt ev st st' payload ->
  company payload = Normal false ->
  destructure payload = Normal f ->
  valid_quote Number_toString f subj text html ms ->
  provider rt = Rejects e ->
  handler rt ev st =
    (Normal {| statusCode := 500;
               response_headers := cors_headers;
               response_body :=
                 obj [("error",
                       str "Network error sending email. Please try again later.")] |},
     with_log (ErrorThrown e)
       (with_call
          (business_email (default [] (MAILERSEND_TOKEN rt))
             (default [] (MAILERSEND_FROM rt))
             (default [] (MAILERSEND_TO rt)) f subj text html ms)
          Awaited st')).
Proof.
  intros Hreach Hc Hd Hv Hp.
  rewrite (handler_send _ _ _ _ _ _ _ _ _ _ Hreach Hc Hd Hv).
  apply send_rejected. exact Hp.
Qed.

(** Every response carries the headers of [json]. *)
Lemma handler_headers rt ev st r :
  fst (handler rt ev st) = Normal r ->
  response_headers r = cors_headers.
Proof.
  revert st r.
  change (yields (fun r => response_headers r = cors_headers)
            (handler rt ev)).
  unfold handler.
  destruct (bool_decide _); [apply yields_ret; reflexivity|].
  destruct (negb _); [apply yields_ret; reflexivity|].
  apply (yields_bindM_after
           (fun o => o = None \/ o = Some too_many_requests)).
  - intros st o Ho.
    destruct (rate_limit_outbound rt ev st) as (_ & o' & Ho' & Hcases).
    congruence.
  - intros o [-> | ->].
    + apply configured_headers.
    + apply yields_ret. reflexivity.
Qed.

(** X5. Every response the handler returns, on any request, carries the
    content type [application/json] and the three CORS headers: any
    origin is allowed, with the header [Content-Type] and the methods POST
    and OPTIONS. *)
Theorem responses_carry_cors rt ev st r :
  fst (handler rt ev st) = Normal r ->
  response_headers r =
    [ (lit "Content-Type", lit "application/json");
      (lit "Access-Control-Allow-Origin", lit "*");
      (lit "Access-Control-Allow-Headers", lit "Content-Type");
      (lit "Access-Control-Allow-Methods", lit "POST, OPTIONS") ].
Proof. intros Hr. exact (handler_headers rt ev st r Hr). Qed.

(** X7. A request whose payload, when its body parses, is an object with
    text fields and attachments without [null] entries is always answered:
    the handler returns a response and does not throw, whatever the method,
    the headers, the store, the environment and the provider do. *)
Theorem text_payload_answered rt ev st :
  (forall payload, parse (body ev) = Some payload -> text_payload payload) ->
  exists r st', handler rt ev st = (Normal r, st').
Proof.
  intros Htext. unfold handler, ret.
  destruct (bool_decide (httpMethod ev = lit "OPTIONS")); [eauto|].
  destruct (negb _); [eauto|].
  unfold bindM.
  destruct (rate_limit_outbound rt ev st) as (_ & o & Ho & Hcases).
  destruct (rate_limit rt ev st) as [ro st1]. simpl in Ho. subst ro.
  destruct Hcases as [-> | ->]; [|eauto].
  unfold configured, ret. cbv zeta.
  destruct (unset _ || unset _ || unset _); [eauto|].
  destruct (parse (body ev)) as [payload|] eqn:Hparse; [|eauto].
  specialize (Htext payload eq_refl).
  destruct (destructure_text payload Htext)
    as (n & p & e & a & s & d & m & l & Hd & Hl).
  destruct Htext as ([props ->] & _).
  unfold quote, bindM, lift, ret. cbn [get].
  destruct (truthy _); [eauto|].
  rewrite Hd. apply answer_text. exact Hl.
Qed.

End Claims.


(** ** Trimming *)

Lemma trim_start_snoc s c :
  trim_start (s ++ [c]) =
    match trim_start s with
    | [] => if is_space c then [] else [c]
    | t => t ++ [c]
    end.
Proof.
  induction s as [|d s IH]; simpl.
  - destruct (is_space c); reflexivity.
  - destruct (is_space d); [exact IH | reflexivity].
Qed.

Lemma trim_end_cons c s :
  trim_end (c :: s) =
    match trim_end s with
    | [] => if is_space c then [] else [c]
    | t => c :: t
    end.
Proof.
  unfold trim_end. simpl rev. rewrite trim_start_snoc.
  destruct (trim_start (rev s)) as [|d t].
  - simpl. destruct (is_space c); reflexivity.
  - rewrite rev_app_distr. simpl. destruct (rev t); reflexivity.
Qed.

Lemma trim_start_cases s :
  trim_start s = []
  \/ exists c t, trim_start s = c :: t /\ is_space c = false.
Proof.
  induction s as [|c s IH]; simpl; [left; reflexivity|].
  destruct (is_space c) eqn:E; [exact IH | right; eauto].
Qed.

Lemma trim_start_nil s : trim_start s = [] <-> all_space s.
Proof.
  unfold all_space. induction s as [|c s IH]; simpl.
  - split; [constructor | reflexivity].
  - destruct (is_space c) eqn:E.
    + rewrite IH. split; [constructor; assumption | inversion 1; assumption].
    + split; [discriminate | inversion 1; congruence].
Qed.

Lemma trim_end_nil s : trim_end s = [] <-> all_space s.
Proof.
  unfold all_space. induction s as [|c s IH]; [split; [constructor|reflexivity]|].
  rewrite trim_end_cons. destruct (trim_end s) as [|d t].
  - destruct (is_space c) eqn:E.
    + split; [constructor; [exact E | apply IH; reflexivity] | reflexivity].
    + split; [discriminate | inversion 1; congruence].
  - split; [discriminate|]. inversion 1 as [|? ? _ Hs]. apply IH in Hs. discriminate.
Qed.

Lemma trim_start_split s :
  exists l, s = l ++ trim_start s /\ all_space l.
Proof.
  induction s as [|c s (l & Hl & Hs)]; simpl.
  - exists []. split; [reflexivity | constructor].
  - destruct (is_space c) eqn:E.
    + exists (c :: l). split; [simpl; congruence | constructor; assumption].
    + exists []. split; [reflexivity | constructor].
Qed.

Lemma trim_end_split s :
  exists r, s = trim_end s ++ r /\ all_space r.
Proof.
  induction s as [|c s (r & Hr & Hs)].
  - exists []. split; [reflexivity | constructor].
  - rewrite trim_end_cons. destruct (trim_end s) as [|d t] eqn:Et.
    + simpl in Hr. subst r. destruct (is_space c) eqn:E.
      * exists (c :: s). split; [reflexivity | constructor; assumption].
      * exists s. split; [reflexivity | assumption].
    + exists r. split; [rewrite Hr at 1; reflexivity | assumption].
Qed.

(** What [trim] returns sits in its argument between white space. *)
Lemma trim_split s :
  exists l r, s = l ++ trim s ++ r /\ all_space l /\ all_space r.
Proof.
  destruct (trim_start_split s) as (l & Hl & Hsl).
  destruct (trim_end_split (trim_start s)) as (r & Hr & Hsr).
  exists l, r. unfold trim. split; [congruence | auto].
Qed.

Lemma trim_nil s : trim s = [] <-> all_space s.
Proof.
  unfold trim. rewrite trim_end_nil.
  destruct (trim_start_cases s) as [E | (c & t & E & Hc)].
  - rewrite E. split; [intros _; apply trim_start_nil, E | constructor].
  - rewrite E. split.
    + inversion 1; congruence.
    + intros Hs. apply trim_start_nil in Hs. congruence.
Qed.

Lemma trim_start_idem s : trim_start (trim_start s) = trim_start s.
Proof.
  destruct (trim_start_cases s) as [E | (c & t & E & Hc)]; rewrite E;
    simpl; [|rewrite Hc]; reflexivity.
Qed.

(** [trim] leaves a trimmed string as it is. *)
Lemma trim_idem s : trim (trim s) = trim s.
Proof.
  unfold trim.
  assert (H : trim_start (trim_end (trim_start s)) = trim_end (trim_start s)).
  { destruct (trim_start_cases s) as [E | (c & t & E & Hc)]; rewrite E;
      [reflexivity|].
    rewrite trim_end_cons. destruct (trim_end t); rewrite ?Hc; simpl; rewrite Hc; reflexivity. }
  rewrite H. unfold trim_end at 1 2. rewrite rev_involutive, trim_start_idem.
  reflexivity.
Qed.

Lemma is_blank_true s : is_blank s = true <-> all_space s.
Proof.
  unfold is_blank. rewrite bool_decide_eq_true. apply trim_nil.
Qed.

Lemma is_blank_false s : is_blank s = false <-> inked s.
Proof.
  unfold inked. rewrite <- not_true_iff_false, is_blank_true. unfold all_space.
  induction s as [|c s IH].
  - split; [intros H; destruct H; constructor | inversion 1].
  - destruct (is_space c) eqn:E.
    + split.
      * intros H. apply Exists_cons_tl, IH. intros Hs. apply H.
        constructor; assumption.
      * inversion 1 as [? ? Hc | ? ? Hs]; [congruence|].
        inversion 1. apply IH in Hs. auto.
    + split; [intros _; apply Exists_cons_hd, E | inversion 2; congruence].
Qed.

Lemma trim_start_app_inked a b :
  inked a -> trim_start (a ++ b) = trim_start a ++ b.
Proof.
  induction 1 as [c a Hc | c a _ IH]; simpl.
  - rewrite Hc. reflexivity.
  - destruct (is_space c); [exact IH | reflexivity].
Qed.

Lemma trim_end_app_inked a b :
  inked b -> trim_end (a ++ b) = a ++ trim_end b.
Proof.
  intros Hb. induction a as [|c a IH]; [reflexivity|].
  simpl. rewrite trim_end_cons, IH.
  destruct (a ++ trim_end b) eqn:E; [|reflexivity].
  apply app_eq_nil in E as [_ E]. apply trim_end_nil in E.
  apply is_blank_false in Hb. apply is_blank_true in E. congruence.
Qed.

(** Trimming leaves alone what has something else than white space on
    both sides. *)
Lemma trim_framed x s :
  framed x s -> exists pre post, trim s = pre ++ x ++ post.
Proof.
  intros (pre & post & -> & Hpre & Hpost). unfold trim.
  rewrite (trim_start_app_inked _ _ Hpre), app_assoc.
  rewrite (trim_end_app_inked _ _ Hpost), <- app_assoc. eauto.
Qed.

Lemma framed_skip x a s : framed x s -> framed x (a ++ s).
Proof.
  intros (pre & post & -> & Hpre & Hpost). exists (a ++ pre), post.
  split; [rewrite <- app_assoc; reflexivity|].
  split; [apply Exists_app; right; exact Hpre | exact Hpost].
Qed.

Lemma framed_here x a b : inked a -> inked b -> framed x (a ++ x ++ b).
Proof. intros Ha Hb. exists a, b. auto. Qed.

(** ** The client identifier *)

Lemma before_comma_no_comma s : ~ In 44%N (before_comma s).
Proof.
  induction s as [|c s IH]; simpl; [tauto|].
  destruct (N.eqb_spec c 44); simpl; [tauto|].
  intros [H|H]; [congruence | auto].
Qed.

Lemma before_comma_app a b :
  ~ In 44%N a -> before_comma (a ++ 44%N :: b) = a.
Proof.
  induction a as [|c a IH]; simpl; intros H.
  - reflexivity.
  - destruct (N.eqb_spec c 44); [tauto|]. rewrite IH; [reflexivity | tauto].
Qed.

Lemma trim_In c s : In c (trim s) -> In c s.
Proof.
  destruct (trim_split s) as (l & r & Hs & _). intros H. rewrite Hs at 1.
  apply in_or_app. right. apply in_or_app. left. exact H.
Qed.

(** X8. The identifier under which the rate limiter files a request is
    never empty, holds no comma and has no white space at either end:
    trimming it again changes nothing. *)
Theorem client_ip_normalized hdrs ip :
  client_ip hdrs = Normal ip ->
  ip <> [] /\ ~ In 44%N ip /\ trim ip = ip.
Proof.
  unfold client_ip. intros H.
  apply bind_Normal in H as (xff & _ & H).
  apply bind_Normal in H as (h & _ & H).
  destruct h as [| | | |s| |]; try discriminate.
  injection H as <-. case_bool_decide as E.
  - split; [discriminate|]. split; [|reflexivity].
    vm_compute. intuition discriminate.
  - split; [exact E|]. split; [|apply trim_idem].
    intros Hin. apply trim_In in Hin. exact (before_comma_no_comma _ Hin).
Qed.

(** X9. When the header [x-forwarded-for] holds a chain of addresses, the
    client is its first entry, trimmed, or "unknown" when that entry is
    blank; the later entries of the chain and the header [client-ip] play
    no part. *)
Theorem forwarded_for_first_hop hdrs a b :
  get hdrs "x-forwarded-for" = Normal (VStr (a ++ lit "," ++ b)) ->
  ~ In 44%N a ->
  client_ip hdrs =
    Normal (if bool_decide (trim a = []) then lit "unknown" else trim a).
Proof.
  intros Hx Ha. unfold client_ip. rewrite Hx. cbn [bind].
  assert (Ht : truthy (VStr (a ++ lit "," ++ b)) = true).
  { simpl. destruct a; reflexivity. }
  rewrite Ht. cbn [bind]. change (lit "," ++ b) with (44%N :: b).
  rewrite before_comma_app by assumption. reflexivity.
Qed.

(** ** What the validator lets through *)

Lemma Normal_inj {A} (x y : A) : Normal x = Normal y -> x = y.
Proof. intros [= H]. exact H. Qed.

Lemma blank_Normal x b :
  blank x = Normal b -> exists s, x = VStr s /\ b = is_blank s.
Proof. destruct x; try discriminate. intros [= <-]. eauto. Qed.

Section Validator.

Variable Number_toString : float -> jsstring.

Lemma missing_accepts f :
  missing Number_toString f = Normal None ->
  exists n e p a m,
    fullName f = VStr n /\ ToString Number_toString (email f) = Normal e
    /\ phone f = VStr p /\ address f = VStr a /\ message f = VStr m
    /\ is_blank n = false /\ Regex.full_match email_re e = true
    /\ is_blank p = false /\ is_blank a = false
    /\ truthy (service f) = true /\ is_blank m = false.
Proof.
  unfold missing, test. intros H.
  apply bind_Normal in H as (b1 & H1 & H).
  apply blank_Normal in H1 as (n & Hn & ->).
  destruct (is_blank n) eqn:Bn; [discriminate|].
  apply bind_Normal in H as (mt & Ht & H).
  apply bind_Normal in Ht as (e & He & [= <-]).
  destruct (Regex.full_match email_re e) eqn:Be; [|discriminate].
  simpl in H.
  apply bind_Normal in H as (b2 & H2 & H).
  apply blank_Normal in H2 as (p & Hp & ->).
  destruct (is_blank p) eqn:Bp; [discriminate|].
  apply bind_Normal in H as (b3 & H3 & H).
  apply blank_Normal in H3 as (a & Ha & ->).
  destruct (is_blank a) eqn:Ba; [discriminate|].
  destruct (truthy (service f)) eqn:Bs; [|discriminate]. simpl in H.
  apply bind_Normal in H as (b4 & H4 & H).
  apply blank_Normal in H4 as (m & Hm & ->).
  destruct (is_blank m) eqn:Bm; [discriminate|].
  exists n, e, p, a, m. auto 12.
Qed.

(** X10. The validator lets a payload through exactly when its name,
    phone, address and message are strings with a character that is not
    white space, its email prints as a string the pattern matches, and its
    service is truthy. *)
Theorem validator_accepts f :
  missing Number_toString f = Normal None <->
  exists n e p a m,
    fullName f = VStr n /\ ToString Number_toString (email f) = Normal e
    /\ phone f = VStr p /\ address f = VStr a /\ message f = VStr m
    /\ inked n /\ Regex.full_match email_re e = true /\ inked p /\ inked a
    /\ truthy (service f) = true /\ inked m.
Proof.
  split.
  - intros H.
    destruct (missing_accepts f H)
      as (n & e & p & a & m & Hn & He & Hp & Ha & Hm
          & Kn & Ke & Kp & Ka & Ks & Km).
    exists n, e, p, a, m. rewrite <- !is_blank_false. auto 12.
  - intros (n & e & p & a & m & Hn & He & Hp & Ha & Hm
            & Kn & Ke & Kp & Ka & Ks & Km).
    rewrite (missing_text Number_toString f n e p a m Hn He Hp Ha Hm).
    unfold first_failing. apply is_blank_false in Kn, Kp, Ka, Km.
    rewrite Kn, Ke, Kp, Ka, Ks, Km. reflexivity.
Qed.

Lemma or_else_truthy v d : truthy v = true -> or_else v d = v.
Proof. unfold or_else. intros ->. reflexivity. Qed.

(** X27. The confirmation email of a payload the validator lets through
    never uses its fallbacks for the name, the service and the address:
    [confirmation_text] and [confirmation_html] greet the payload's own
    name, and list its own service and its own address, and neither
    "there" nor "Handyman service" is put in their place. Only the date
    can fall back: a date that is falsy is listed as "Not specified", a
    truthy one as it prints. *)
Theorem confirmation_defaults_unused f s d :
  missing Number_toString f = Normal None ->
  interpolate Number_toString (service f) = Normal s ->
  interpolate Number_toString (or_else (date f) (str "Not specified"))
  = Normal d ->
  exists n a,
    fullName f = VStr n /\ address f = VStr a
    /\ confirmation_text Number_toString f
       = Normal (lit "Hi " ++ n ++ lit "," ++ nl
                 ++ nl
                 ++ lit "Thanks for your request. Here" ++ apostrophe
                 ++ lit "s what we got:" ++ nl
                 ++ lit "- Service: " ++ s ++ nl
                 ++ lit "- Postcode/Address: " ++ a ++ nl
                 ++ lit "- Preferred date: " ++ d ++ nl
                 ++ nl
                 ++ lit "We" ++ apostrophe
                 ++ lit "ll contact you shortly. If urgent, call 07305 848484."
                 ++ nl
                 ++ nl
                 ++ em_dash ++ lit " ET Handyman Services")
    /\ confirmation_html Number_toString f
       = Normal (lit "<p>Hi " ++ n ++ lit ",</p>" ++ nl
                 ++ spaces 19 ++ lit "<p>Thanks for your request. We"
                 ++ apostrophe
                 ++ lit "ve logged the details below:</p>" ++ nl
                 ++ spaces 19 ++ lit "<ul>" ++ nl
                 ++ spaces 21 ++ lit "<li><b>Service:</b> " ++ s
                 ++ lit "</li>" ++ nl
                 ++ spaces 21 ++ lit "<li><b>Postcode/Address:</b> " ++ a
                 ++ lit "</li>" ++ nl
                 ++ spaces 21 ++ lit "<li><b>Preferred date:</b> " ++ d
                 ++ lit "</li>" ++ nl
                 ++ spaces 19 ++ lit "</ul>" ++ nl
                 ++ spaces 19 ++ lit "<p>We" ++ apostrophe
                 ++ lit "ll get back to you shortly. For urgent jobs, call <a href="
                 ++ [34%N] ++ lit "tel:+447305848484" ++ [34%N]
                 ++ lit ">07305 848484</a>.</p>" ++ nl
                 ++ spaces 19 ++ lit "<p>" ++ em_dash
                 ++ lit " ET Handyman Services</p>")
    /\ (truthy (date f) = false -> d = lit "Not specified")
    /\ (truthy (date f) = true ->
        interpolate Number_toString (date f) = Normal d).
Proof.
  intros H Hs Hd.
  destruct (missing_accepts f H)
    as (n & e & p & a & m & Hn & _ & _ & Ha & _ & Kn & _ & _ & Ka & Ks & _).
  assert (Hne : forall x, is_blank x = false -> truthy (VStr x) = true).
  { intros [|c x] Hx; [discriminate | reflexivity]. }
  exists n, a. split; [exact Hn|]. split; [exact Ha|].
  assert (Hfn : forall x, or_else (fullName f) x = VStr n).
  { intros x. rewrite Hn. apply or_else_truthy, Hne, Kn. }
  assert (Had : forall x, or_else (address f) x = VStr a).
  { intros x. rewrite Ha. apply or_else_truthy, Hne, Ka. }
  assert (Hsv : forall x, or_else (service f) x = service f).
  { intros x. apply or_else_truthy, Ks. }
  split; [|split; [|split]].
  - unfold confirmation_text. rewrite Hfn, Had, Hsv, Hs, Hd. reflexivity.
  - unfold confirmation_html. rewrite Hfn, Had, Hsv, Hs, Hd. reflexivity.
  - intros Hfalsy. unfold or_else in Hd. rewrite Hfalsy in Hd.
    apply Normal_inj in Hd. symmetry. exact Hd.
  - intros Htruthy. unfold or_else in Hd. rewrite Htruthy in Hd. exact Hd.
Qed.

(** X26. The message reaches the HTML body of the business email as it
    was given, its line feeds turned into [<br>] and nothing else changed:
    no character of it is escaped and the trimming of the body does not
    touch it. *)
Theorem message_reaches_html f html m :
  htmlBody Number_toString f = Normal html ->
  safe Number_toString (message f) = Normal m ->
  exists pre post, html = pre ++ replace_newlines (lit "<br>") m ++ post.
Proof.
  unfold htmlBody. intros H Hm.
  apply bind_Normal in H as (n & _ & H).
  apply bind_Normal in H as (p & _ & H).
  apply bind_Normal in H as (e & _ & H).
  apply bind_Normal in H as (a & _ & H).
  apply bind_Normal in H as (s & _ & H).
  apply bind_Normal in H as (d & _ & H).
  rewrite Hm in H. cbn [bind] in H. apply Normal_inj in H. rewrite <- H.
  apply trim_framed.
  repeat first
    [ apply framed_here; apply is_blank_false; reflexivity
    | apply framed_skip ].
Qed.

End Validator.

(** ** The store of the rate limiter over time *)

Section Store.

Variable Number_toString : float -> jsstring.
Local Abbreviation invocation := (invocation Number_toString).
Local Abbreviation serve := (serve Number_toString).

Lemma hits_after_invocation rt ev c st :
  hits (snd (invocation rt ev c st)) =
    if bool_decide (httpMethod ev = lit "POST") then
      match client_ip (headers ev) with
      | Normal ip =>
          Some (<[ip := prune (now rt) (bucket_of st ip) ++ [now rt]]>
                  (default ∅ (hits st)))
      | Throw _ => hits st
      end
    else hits st.
Proof.
  rewrite hits_invocation. case_bool_decide as Hm.
  - rewrite (hits_handler _ _ _ _ Hm).
    destruct (client_ip (headers ev)) as [ip|e] eqn:Hip.
    + rewrite (rate_limit_normal _ _ _ _ Hip), (check_rate_normal _ _ _ _ Hip).
      reflexivity.
    + rewrite (rate_limit_throw _ _ _ _ Hip). reflexivity.
  - rewrite (handler_not_POST _ _ _ _ Hm). reflexivity.
Qed.

Lemma clients_after_invocation rt ev c st ip :
  ip ∈ clients st \/ from_client ip ev ->
  ip ∈ clients (snd (invocation rt ev c st)).
Proof.
  unfold clients. rewrite hits_after_invocation. intros [H | [Hm Hip]].
  - case_bool_decide; [|exact H].
    destruct (client_ip (headers ev)); [|exact H].
    simpl. rewrite dom_insert_L. set_solver.
  - rewrite bool_decide_eq_true_2 by exact Hm. rewrite Hip. simpl.
    rewrite dom_insert_L. set_solver.
Qed.

Lemma tidy_after T b : tidy (prune T b ++ [T]) = true.
Proof.
  unfold tidy. rewrite rev_app_distr. simpl. apply forallb_forall.
  intros u Hu. apply in_rev, prune_spec in Hu. apply Z.ltb_lt. tauto.
Qed.

Lemma tidy_after_invocation rt ev c st :
  store_tidy st -> store_tidy (snd (invocation rt ev c st)).
Proof.
  unfold store_tidy. rewrite hits_after_invocation. intros H.
  case_bool_decide; [|exact H].
  destruct (client_ip (headers ev)); [|exact H].
  simpl. apply map_Forall_insert_2; [apply tidy_after | exact H].
Qed.

(** X11. The rate limiter never forgets a client: whoever has a bucket, or
    sends a POST request it can identify, still has a bucket after any
    further requests of any clients. No bucket is ever removed. *)
Theorem store_never_forgets reqs : forall st ip,
  ip ∈ clients st \/ Exists (fun r => from_client ip (snd (fst r))) reqs ->
  ip ∈ clients (serve reqs st).
Proof.
  induction reqs as [|r reqs IH]; intros st ip H.
  - destruct H as [H|H]; [exact H | inversion H].
  - rewrite serve_cons. apply IH.
    destruct H as [H|H].
    + left. apply clients_after_invocation. left. exact H.
    + inversion H as [? ? Hr | ? ? Hrs]; subst.
      * left. apply clients_after_invocation. right. exact Hr.
      * right. exact Hrs.
Qed.

(** X12. The buckets stay as the rate limiter writes them: if every bucket
    of the store ends with the time of its last write and holds before it
    only times less than the window older, the same is true after any
    requests of any clients. *)
Theorem buckets_stay_tidy reqs : forall st,
  store_tidy st -> store_tidy (serve reqs st).
Proof.
  induction reqs as [|r reqs IH]; intros st H; [exact H|].
  rewrite serve_cons. apply IH, tidy_after_invocation, H.
Qed.

End Store.

(** ** The calls an invocation makes *)

Section Calls.

Variable Number_toString : float -> jsstring.
Implicit Types (rt : runtime) (ev : event) (st : state).

Local Abbreviation handler := (handler Number_toString).
Local Abbreviation configured := (configured Number_toString).
Local Abbreviation quote := (quote Number_toString).
Local Abbreviation send := (send Number_toString).

(** Up to the provider call the handler changes nothing after the rate
    limit: it refuses, in the state it started from, or it goes on to send
    a valid quote. *)
Lemma quote_cases rt token from to payload st :
  (exists c, quote rt token from to payload st = (c, st) /\ refused c)
  \/ (exists f subj text html ms,
        company payload = Normal false
        /\ destructure payload = Normal f
        /\ valid_quote Number_toString f subj text html ms
        /\ quote rt token from to payload st =
             send rt token from to f subj text html ms st).
Proof.
  destruct (company payload) as [[|]|e] eqn:Hc.
  - left. rewrite (quote_company _ _ _ _ _ _ _ Hc).
    eexists; split; [reflexivity | right; left; reflexivity].
  - destruct (destructure payload) as [f|e] eqn:Hd.
    + rewrite (quote_answer _ _ _ _ _ _ _ _ Hc Hd).
      destruct (missing Number_toString f) as [[w|]|e] eqn:Hm.
      * left. rewrite (answer_missing _ _ _ _ _ _ _ _ Hm).
        eexists; split; [reflexivity|]. do 3 right. left. reflexivity.
      * destruct (subject Number_toString f) as [subj|e] eqn:Hs;
          [destruct (textBody Number_toString f) as [text|e] eqn:Ht;
           [destruct (htmlBody Number_toString f) as [html|e] eqn:Hh;
            [destruct (msAttachments (attachments f)) as [ms|e] eqn:Ha|]|]|].
        -- right. exists f, subj, text, html, ms.
           assert (Hv : valid_quote Number_toString f subj text html ms)
             by (repeat split; assumption).
           repeat split; try assumption. apply answer_valid, Hv.
        -- left. unfold answer, bindM, lift. rewrite Hm, Hs, Ht, Hh, Ha.
           eexists; split; [reflexivity | exact I].
        -- left. unfold answer, bindM, lift. rewrite Hm, Hs, Ht, Hh.
           eexists; split; [reflexivity | exact I].
        -- left. unfold answer, bindM, lift. rewrite Hm, Hs, Ht.
           eexists; split; [reflexivity | exact I].
        -- left. unfold answer, bindM, lift. rewrite Hm, Hs.
           eexists; split; [reflexivity | exact I].
      * left. rewrite (answer_throws _ _ _ _ _ _ _ _ Hm).
        eexists; split; [reflexivity | exact I].
    + left. unfold company in Hc. unfold quote, bindM, lift.
      destruct (get payload "company") as [c|]; [|discriminate].
      injection Hc as ->. rewrite Hd.
      eexists; split; [reflexivity | exact I].
  - left. unfold company in Hc. unfold quote, bindM, lift.
    destruct (get payload "company") as [c|]; [discriminate|].
    eexists; split; [reflexivity | exact I].
Qed.

Lemma handler_cases rt ev st :
  (outbound (snd (handler rt ev st)) = outbound st
   /\ refused (fst (handler rt ev st)))
  \/ (exists st1 payload f subj text html ms,
        reaches_quote rt ev st st1 payload
        /\ outbound st1 = outbound st
        /\ company payload = Normal false
        /\ destructure payload = Normal f
        /\ valid_quote Number_toString f subj text html ms).
Proof.
  destruct (decide (httpMethod ev = lit "OPTIONS")) as [Ho|Ho].
  { left. unfold handler. rewrite bool_decide_eq_true_2 by exact Ho.
    split; [reflexivity | left; reflexivity]. }
  destruct (decide (httpMethod ev = lit "POST")) as [Hp|Hp].
  2:{ left. unfold handler. rewrite !bool_decide_eq_false_2 by assumption.
      split; [reflexivity | do 4 right; left; reflexivity]. }
  destruct (rate_limit_outbound rt ev st) as (Hout & o & Hfst & Hcase).
  rewrite (handler_POST _ _ _ _ Hp).
  destruct (rate_limit rt ev st) as [c st1] eqn:Hrl. simpl in Hout, Hfst.
  subst c. destruct Hcase as [-> | ->].
  2:{ left. split; [exact Hout | do 5 right; reflexivity]. }
  destruct (unset (MAILERSEND_TOKEN rt) || unset (MAILERSEND_FROM rt)
            || unset (MAILERSEND_TO rt)) eqn:Henv.
  { left. rewrite (configured_unset _ _ _ _ Henv).
    split; [exact Hout | do 2 right; left; reflexivity]. }
  destruct (parse (body ev)) as [payload|] eqn:Hb.
  2:{ left. unfold configured. rewrite Henv, Hb.
      split; [exact Hout | do 3 right; left; reflexivity]. }
  rewrite (configured_set _ _ _ _ _ Henv Hb).
  destruct (quote_cases rt (default [] (MAILERSEND_TOKEN rt))
              (default [] (MAILERSEND_FROM rt))
              (default [] (MAILERSEND_TO rt)) payload st1)
    as [(c & Hq & Hr) | (f & subj & text & html & ms & Hc & Hd & Hv & _)].
  - left. rewrite Hq. split; [exact Hout | exact Hr].
  - right. exists st1, payload, f, subj, text, html, ms.
    split; [repeat split; assumption|]. auto.
Qed.

Lemma confirmation_email_to_provider token from f req :
  confirmation_email Number_toString token from f = Normal req ->
  exists data, req = mailersend token data.
Proof.
  unfold confirmation_email. intros H.
  apply bind_Normal in H as (text & _ & H).
  apply bind_Normal in H as (html & _ & H).
  injection H as <-. eauto.
Qed.

(** The calls of an invocation that sends a valid quote: the business
    email, awaited, and after a 2xx the confirmation email, not awaited. *)
Lemma handler_sends rt ev st st1 payload f subj text html ms :
  reaches_quote rt ev st st1 payload ->
  outbound st1 = outbound st ->
  company payload = Normal false ->
  destructure payload = Normal f ->
  valid_quote Number_toString f subj text html ms ->
  let token := default [] (MAILERSEND_TOKEN rt) in
  let from := default [] (MAILERSEND_FROM rt) in
  let to := default [] (MAILERSEND_TO rt) in
  let b := business_email token from to f subj text html ms in
  exists creq,
    confirmation_email Number_toString token from f = Normal creq
    /\ ((outbound (snd (handler rt ev st))
         = outbound st ++ [(b, Awaited); (creq, Detached)]
         /\ delivered (fst (handler rt ev st)))
        \/ (outbound (snd (handler rt ev st)) = outbound st ++ [(b, Awaited)]
            /\ exists r, fst (handler rt ev st) = Normal r
                         /\ statusCode r = 500)).
Proof.
  intros Hreach Hout Hc Hd Hv token from to b.
  rewrite (handler_send _ _ _ _ _ _ _ _ _ _ _ Hreach Hc Hd Hv).
  fold token from to. fold b.
  pose proof Hv as (_ & _ & Ht & _).
  destruct (confirmation_builds _ token from f text Ht) as [creq Hreq].
  exists creq. split; [exact Hreq|].
  destruct (provider rt) as [r|e] eqn:Hp; [destruct (ok r) eqn:Hok|].
  - left. rewrite (send_2xx _ _ _ _ _ _ _ _ _ _ _ _ Hp Hok).
    pose proof (confirm_cases Number_toString token from f
                  (with_call b Awaited st1)) as Hcc.
    rewrite Hreq in Hcc. fold b. rewrite Hcc. simpl. rewrite Hout.
    split; [rewrite <- app_assoc; reflexivity | eexists; reflexivity].
  - right. rewrite (send_not_2xx _ _ _ _ _ _ _ _ _ _ _ _ Hp Hok).
    simpl. rewrite Hout. split; [reflexivity|].
    eexists. split; reflexivity.
  - right. rewrite (send_rejected _ _ _ _ _ _ _ _ _ _ _ _ Hp).
    simpl. rewrite Hout. split; [reflexivity|].
    eexists. split; reflexivity.
Qed.

Lemma token_set rt ev st st1 payload :
  reaches_quote rt ev st st1 payload ->
  exists token,
    MAILERSEND_TOKEN rt = Some token /\ token <> [].
Proof.
  intros (_ & _ & Henv & _).
  destruct (MAILERSEND_TOKEN rt) as [[|c token]|]; try discriminate.
  exists (c :: token). split; [reflexivity | discriminate].
Qed.

(** X13. On any request the handler calls the provider at most twice,
    each time with POST at "https://api.mailersend.com/v1/email", with
    the content type "application/json" and the authorization "Bearer "
    followed by the token of the environment, which is set and not
    empty: not at all, and then it does not report the email as sent; or
    once, awaited, and then it answers 500; or once awaited and once more
    without waiting, and then, and only then, it reports the email as
    sent. *)
Theorem provider_calls rt ev st :
  exists calls,
    outbound (snd (handler rt ev st)) = outbound st ++ calls
    /\ Forall
         (fun c : request * dispatch =>
            url (fst c) = lit "https://api.mailersend.com/v1/email"
            /\ method (fst c) = lit "POST"
            /\ content_type (fst c) = lit "application/json"
            /\ exists token,
                 MAILERSEND_TOKEN rt = Some token
                 /\ token <> []
                 /\ authorization (fst c) = lit "Bearer " ++ token)
         calls
    /\ ((calls = [] /\ ~ delivered (fst (handler rt ev st)))
        \/ (exists b r,
              calls = [(b, Awaited)]
              /\ fst (handler rt ev st) = Normal r /\ statusCode r = 500)
        \/ (exists b c,
              calls = [(b, Awaited); (c, Detached)]
              /\ delivered (fst (handler rt ev st)))).
Proof.
  destruct (handler_cases rt ev st)
    as [[Hout Href]
       | (st1 & payload & f & subj & text & html & ms
          & Hreach & Hout & Hc & Hd & Hv)].
  - exists []. rewrite app_nil_r. split; [exact Hout|].
    split; [constructor|]. left. split; [reflexivity|].
    intros (id & Hid). rewrite Hid in Href. simpl in Href.
    destruct Href as [H|[H|[H|[H|[H|H]]]]]; vm_compute in H; discriminate.
  - destruct (token_set _ _ _ _ _ Hreach) as (token & Htoken & Hfull).
    assert (Hcall : forall data (d : dispatch),
               let c := (mailersend (default [] (MAILERSEND_TOKEN rt)) data,
                         d) in
               url (fst c) = lit "https://api.mailersend.com/v1/email"
               /\ method (fst c) = lit "POST"
               /\ content_type (fst c) = lit "application/json"
               /\ exists token,
                    MAILERSEND_TOKEN rt = Some token
                    /\ token <> []
                    /\ authorization (fst c) = lit "Bearer " ++ token).
    { intros data d c. split; [reflexivity|]. split; [reflexivity|].
      split; [reflexivity|]. exists token.
      split; [exact Htoken|]. split; [exact Hfull|].
      unfold c. rewrite Htoken. reflexivity. }
    destruct (handler_sends rt ev st st1 payload f subj text html ms
                Hreach Hout Hc Hd Hv)
      as (creq & Hreq & [[Hcalls Hdel] | [Hcalls Hr]]);
      destruct (confirmation_email_to_provider _ _ _ _ Hreq) as [data ->];
      eexists; (split; [exact Hcalls|]).
    + split.
      { constructor; [apply (Hcall _ Awaited)|].
        constructor; [apply (Hcall _ Detached) | constructor]. }
      right. right. eauto.
    + split.
      { constructor; [apply (Hcall _ Awaited) | constructor]. }
      right. left. destruct Hr as (r & Hr & Hs). eauto.
Qed.

(** X14. The handler calls the provider only for a POST request that the
    rate limiter lets through, with the environment set, whose body parses
    into a payload with the honeypot empty that the validator lets
    through. *)
Theorem emails_only_for_valid rt ev st :
  outbound (snd (handler rt ev st)) <> outbound st ->
  exists st1 payload f,
    reaches_quote rt ev st st1 payload
    /\ company payload = Normal false
    /\ destructure payload = Normal f
    /\ missing Number_toString f = Normal None.
Proof.
  intros Hne.
  destruct (handler_cases rt ev st)
    as [[Hout _]
       | (st1 & payload & f & subj & text & html & ms
          & Hreach & _ & Hc & Hd & Hv & _)].
  - contradiction.
  - exists st1, payload, f. auto.
Qed.

(** X25. Who gets which email: the awaited call carries the business
    email, to the inbox of the environment and from its sender, with the
    payload's email as the address to reply to; the call that is not
    awaited carries the confirmation, to that same email of the payload. *)
Theorem emails_addressed rt ev st calls :
  outbound (snd (handler rt ev st)) = outbound st ++ calls ->
  calls <> [] ->
  exists payload f,
    parse (body ev) = Some payload
    /\ destructure payload = Normal f
    /\ forall r d,
         In (r, d) calls ->
         match d with
         | Awaited =>
             get (payload_sent r) "to"
             = Normal (VArr [obj [("email",
                                   VStr (default [] (MAILERSEND_TO rt)))]])
             /\ get (payload_sent r) "from"
                = Normal (obj [("email",
                                VStr (default [] (MAILERSEND_FROM rt)))])
             /\ get (payload_sent r) "reply_to"
                = Normal (obj [("email", email f)])
         | Detached =>
             get (payload_sent r) "to"
             = Normal (VArr [obj [("email", email f)]])
         end.
Proof.
  intros Hcalls Hne.
  destruct (handler_cases rt ev st)
    as [[Hout _]
       | (st1 & payload & f & subj & text & html & ms
          & Hreach & Hout & Hc & Hd & Hv)].
  - exfalso. apply Hne. rewrite Hcalls in Hout.
    rewrite <- (app_nil_r (outbound st)) in Hout at 2.
    apply app_inv_head in Hout. exact Hout.
  - exists payload, f. destruct Hreach as (Hp & Hrl & Henv & Hb).
    split; [exact Hb|]. split; [exact Hd|].
    assert (Hreach : reaches_quote rt ev st st1 payload)
      by (repeat split; assumption).
    destruct (handler_sends rt ev st st1 payload f subj text html ms
                Hreach Hout Hc Hd Hv) as (creq & Hreq & Hcase).
    assert (Hto : get (payload_sent creq) "to"
                  = Normal (VArr [obj [("email", email f)]])).
    { unfold confirmation_email in Hreq.
      apply bind_Normal in Hreq as (t & _ & Hreq).
      apply bind_Normal in Hreq as (h & _ & Hreq).
      injection Hreq as <-. reflexivity. }
    intros r d Hin.
    destruct Hcase as [[Hcalls' _] | [Hcalls' _]];
      rewrite Hcalls in Hcalls'; apply app_inv_head in Hcalls';
      rewrite Hcalls' in Hin; simpl in Hin.
    + destruct Hin as [[= <- <-] | [[= <- <-] | []]].
      * repeat split.
      * exact Hto.
    + destruct Hin as [[= <- <-] | []]. repeat split.
Qed.

(** X1. The handler answers with one of five status codes: 405 exactly
    when the method is neither OPTIONS nor POST, and 429 exactly when the
    rate limiter turns a POST request down. A request with the method
    OPTIONS is answered 200 with [{ok: true}], and a request that is no
    POST leaves the store, the console and the provider alone. *)
Theorem status_codes rt ev st r :
  fst (handler rt ev st) = Normal r ->
  In (statusCode r) [200; 400; 405; 429; 500]
  /\ (statusCode r = 405 <->
      httpMethod ev <> lit "OPTIONS" /\ httpMethod ev <> lit "POST")
  /\ (statusCode r = 429 <->
      httpMethod ev = lit "POST"
      /\ fst (rate_limit rt ev st) = Normal (Some too_many_requests))
  /\ (httpMethod ev = lit "OPTIONS" ->
      r = json 200 (obj [("ok", VBool true)]))
  /\ (httpMethod ev <> lit "POST" -> snd (handler rt ev st) = st).
Proof.
  intros Hr.
  assert (Hstate : httpMethod ev <> lit "POST" -> snd (handler rt ev st) = st)
    by apply handler_not_POST.
  destruct (decide (httpMethod ev = lit "OPTIONS")) as [Ho|Ho].
  { rewrite (options_always_200 _ _ _ _ Ho) in Hr. injection Hr as <-. simpl.
    split; [tauto|]. split; [split; [discriminate | tauto]|].
    split; [|split; [reflexivity | exact Hstate]].
    split; [discriminate|].
    intros [Hp _]. rewrite Ho in Hp. vm_compute in Hp. discriminate. }
  destruct (decide (httpMethod ev = lit "POST")) as [Hp|Hp].
  2:{ rewrite (other_methods_405 _ _ _ _ Ho Hp) in Hr. injection Hr as <-.
      simpl. split; [tauto|]. split; [tauto|].
      split; [split; [discriminate | tauto]|].
      split; [contradiction | exact Hstate]. }
  rewrite (handler_POST _ _ _ _ Hp) in Hr.
  destruct (rate_limit_outbound rt ev st) as (_ & o & Hfst & Hcase).
  destruct (rate_limit rt ev st) as [c st1] eqn:Hrl. simpl in Hfst. subst c.
  destruct Hcase as [-> | ->].
  - pose proof (configured_status Number_toString rt ev st1 r Hr) as Hs.
    unfold after_limit_status in Hs. simpl.
    split; [intuition congruence|].
    split; [split; [|tauto]|].
    { intros E. rewrite E in Hs. destruct Hs as [H|[H|H]]; discriminate. }
    split; [split|].
    + intros E. rewrite E in Hs. destruct Hs as [H|[H|H]]; discriminate.
    + intros [_ H]. discriminate.
    + split; [contradiction | exact Hstate].
  - injection Hr as <-. simpl.
    split; [tauto|]. split; [split; [discriminate | tauto]|].
    split; [tauto|]. split; [contradiction | exact Hstate].
Qed.

End Calls.

(** ** The earlier version beside the later one *)

Lemma same_sequence {A B} (cs : list (completion A))
    (cs' : list (completion B)) :
  Forall2 same_outcome cs cs' -> same_outcome (sequence cs) (sequence cs').
Proof.
  induction 1 as [|c c' cs cs' Hc _ IH]; simpl; [exact I|].
  destruct c, c'; simpl in *; try contradiction; [|exact Hc].
  destruct (sequence cs), (sequence cs'); simpl in *; auto.
Qed.

Lemma same_msAttachment i a :
  same_outcome (msAttachment i a) (Earlier.msAttachment a).
Proof.
  unfold msAttachment, Earlier.msAttachment.
  destruct (get a "filename"); simpl; [|reflexivity].
  destruct (get a "base64"); simpl; [exact I | reflexivity].
Qed.

Lemma same_imap (l : list value) : forall g : nat -> value -> completion value,
  (forall i a, same_outcome (g i a) (Earlier.msAttachment a)) ->
  Forall2 same_outcome (imap g l) (List.map Earlier.msAttachment l).
Proof.
  induction l as [|a l IH]; intros g Hg; simpl; constructor.
  - apply Hg.
  - apply IH. intros i b. apply Hg.
Qed.

Lemma same_msAttachments v :
  same_outcome (msAttachments v) (Earlier.msAttachments v).
Proof.
  destruct v as [| | | | |[|a l]|]; try exact I.
  apply same_sequence, same_imap, same_msAttachment.
Qed.

Lemma same_destructure payload c :
  get payload "company" = Normal c ->
  (forall pc,
     get payload "address" = Normal VUndefined ->
     get payload "postcode" = Normal pc -> truthy pc = false) ->
  destructure payload = Earlier.destructure payload.
Proof.
  intros Hc Hpc.
  assert (Hco : company payload = Normal (truthy c))
    by (unfold company; rewrite Hc; reflexivity).
  assert (Ha : field (or_else payload (obj [])) "address"
                 (a <- get payload "address" ;;
                  if truthy a then Normal a
                  else p <- get payload "postcode" ;;
                       Normal (or_else p (str "")))
               = field (or_else payload (obj [])) "address" (Normal (str ""))).
  { unfold field. rewrite (get_source _ _ "address" Hco).
    destruct (get payload "address") as [a|] eqn:Hga; [|reflexivity].
    destruct a; try reflexivity. simpl.
    destruct (get_total _ _ "postcode" Hco) as [pc Hgp].
    rewrite Hgp. simpl. unfold or_else.
    rewrite (Hpc pc eq_refl Hgp). reflexivity. }
  unfold destructure, Earlier.destructure. cbv zeta. rewrite Ha. reflexivity.
Qed.

Section EarlierVersion.

Variable Number_toString : float -> jsstring.
Implicit Types (rt : runtime) (ev : event) (st : state).

Local Abbreviation handler := (handler Number_toString).
Local Abbreviation send := (send Number_toString).

Lemma earlier_send_reply rt token from to f subj text html ms st :
  fst (Earlier.send rt token from to f subj text html ms st)
  = Normal (reply_of (provider rt)).
Proof.
  unfold Earlier.send, reply_of, try_catch, bindM, call, await, log, throw.
  destruct (provider rt) as [r|e]; [|reflexivity].
  simpl. destruct (ok r); simpl.
  - destruct (supplied_or_else r "message_id" (str "sent")) as (v & Hv & Hid).
    unfold lift. rewrite Hv. simpl. rewrite Hid. reflexivity.
  - destruct (supplied_or_else r "message"
                (str "Email send failed. Please try again or call 07305 848484."))
      as (v & Hv & Hid).
    unfold lift. rewrite Hv. simpl. rewrite Hid. reflexivity.
Qed.

Lemma same_subject f :
  same_outcome (subject Number_toString f) (Earlier.subject Number_toString f).
Proof.
  unfold subject, Earlier.subject.
  destruct (safe Number_toString (fullName f)); simpl; [|reflexivity].
  destruct (safe Number_toString (service f)); simpl; [exact I | reflexivity].
Qed.

Lemma same_answer rt token from to f st st' :
  fst (answer Number_toString rt token from to f st)
  = fst (Earlier.answer Number_toString rt token from to f st').
Proof.
  unfold answer, Earlier.answer, bindM, lift.
  destruct (missing Number_toString f) as [[w|]|e]; try reflexivity.
  pose proof (same_subject f) as Hs.
  destruct (subject Number_toString f), (Earlier.subject Number_toString f);
    simpl in Hs; try contradiction; [|simpl; congruence].
  destruct (textBody Number_toString f); [|reflexivity].
  destruct (htmlBody Number_toString f); [|reflexivity].
  pose proof (same_msAttachments (attachments f)) as Hm.
  destruct (msAttachments (attachments f)),
    (Earlier.msAttachments (attachments f));
    simpl in Hm; try contradiction; [|simpl; congruence].
  rewrite send_reply, earlier_send_reply. reflexivity.
Qed.

Lemma same_quote rt token from to payload st st' :
  (forall pc,
     get payload "address" = Normal VUndefined ->
     get payload "postcode" = Normal pc -> truthy pc = false) ->
  fst (quote Number_toString rt token from to payload st)
  = fst (Earlier.quote Number_toString rt token from to payload st').
Proof.
  intros Hpc. unfold quote, Earlier.quote, bindM, lift.
  destruct (get payload "company") as [c|e] eqn:Hc; [|reflexivity].
  destruct (truthy c); [reflexivity|].
  rewrite <- (same_destructure payload c Hc Hpc).
  destruct (destructure payload) as [f|e]; [|reflexivity].
  apply same_answer.
Qed.

(** X16. The later version answers as the earlier one did, whatever the
    method, environment, body and provider outcome, on every request its
    rate limiter lets through whose payload gives an address of its own or
    no postcode: the rate limit and the postcode fallback are all that
    changed an answer. *)
Theorem later_answers_as_earlier rt ev st :
  (httpMethod ev = lit "POST" -> fst (rate_limit rt ev st) = Normal None) ->
  (forall payload pc,
     parse (body ev) = Some payload ->
     get payload "address" = Normal VUndefined ->
     get payload "postcode" = Normal pc -> truthy pc = false) ->
  fst (handler rt ev st) = fst (Earlier.handler Number_toString rt ev st).
Proof.
  intros Hrl Hpc. unfold Earlier.handler.
  destruct (decide (httpMethod ev = lit "OPTIONS")) as [Ho|Ho].
  { unfold handler. rewrite !bool_decide_eq_true_2 by exact Ho. reflexivity. }
  destruct (decide (httpMethod ev = lit "POST")) as [Hp|Hp].
  2:{ unfold handler. rewrite !bool_decide_eq_false_2 by assumption.
      reflexivity. }
  rewrite (handler_POST _ _ _ _ Hp).
  rewrite bool_decide_eq_false_2 by exact Ho.
  rewrite bool_decide_eq_true_2 by exact Hp.
  specialize (Hrl Hp). destruct (rate_limit rt ev st) as [c st1].
  simpl in Hrl. subst c. unfold configured. cbv zeta. simpl negb. cbv iota.
  destruct (unset (MAILERSEND_TOKEN rt) || unset (MAILERSEND_FROM rt)
            || unset (MAILERSEND_TO rt)); [reflexivity|].
  destruct (parse (body ev)) as [payload|] eqn:Hb; [|reflexivity].
  apply same_quote. intros pc. apply Hpc. reflexivity.
Qed.

Lemma earlier_destructure payload c f :
  get payload "company" = Normal c ->
  destructure payload = Normal f ->
  get payload "address" = Normal VUndefined ->
  Earlier.destructure payload =
    Normal {| fullName := fullName f; phone := phone f; email := email f;
              address := str ""; service := service f; date := date f;
              message := message f; attachments := attachments f |}.
Proof.
  intros Hc H Ha.
  assert (Hco : company payload = Normal (truthy c))
    by (unfold company; rewrite Hc; reflexivity).
  unfold destructure in H. cbv zeta in H.
  apply bind_Normal in H as (v1 & H1 & H).
  apply bind_Normal in H as (v2 & H2 & H).
  apply bind_Normal in H as (v3 & H3 & H).
  apply bind_Normal in H as (v4 & _ & H).
  apply bind_Normal in H as (v5 & H5 & H).
  apply bind_Normal in H as (v6 & H6 & H).
  apply bind_Normal in H as (v7 & H7 & H).
  apply bind_Normal in H as (v8 & H8 & H).
  injection H as <-.
  assert (H4 : field (or_else payload (obj [])) "address" (Normal (str ""))
               = Normal (str "")).
  { unfold field. rewrite (get_source _ _ "address" Hco), Ha. reflexivity. }
  unfold Earlier.destructure. cbv zeta.
  rewrite H1. cbn [bind]. rewrite H2. cbn [bind]. rewrite H3. cbn [bind].
  rewrite H4. cbn [bind]. rewrite H5. cbn [bind]. rewrite H6. cbn [bind].
  rewrite H7. cbn [bind]. rewrite H8. reflexivity.
Qed.

(** X17. What the postcode fallback changed: a POST request with the
    environment set whose payload the later validator lets through, and
    that has no address of its own, is answered 400 "Please provide a
    postcode." by the earlier version, which calls nobody. *)
Theorem earlier_needs_address rt ev st payload f :
  httpMethod ev = lit "POST" ->
  unset (MAILERSEND_TOKEN rt) || unset (MAILERSEND_FROM rt)
    || unset (MAILERSEND_TO rt) = false ->
  parse (body ev) = Some payload ->
  company payload = Normal false ->
  get payload "address" = Normal VUndefined ->
  destructure payload = Normal f ->
  missing Number_toString f = Normal None ->
  Earlier.handler Number_toString rt ev st
  = (Normal {| statusCode := 400;
               response_headers := cors_headers;
               response_body :=
                 obj [("error", str "Please provide a postcode.")] |},
     st).
Proof.
  intros Hp Henv Hb Hco Ha Hd Hm.
  change (Earlier.handler Number_toString rt ev st
          = (Normal (please_provide (lit "postcode")), st)).
  assert (Ho : httpMethod ev <> lit "OPTIONS").
  { rewrite Hp. intros H. vm_compute in H. discriminate. }
  unfold Earlier.handler.
  rewrite bool_decide_eq_false_2 by exact Ho.
  rewrite bool_decide_eq_true_2 by exact Hp.
  cbv zeta. simpl negb. cbv iota. rewrite Henv, Hb.
  unfold company in Hco.
  destruct (get payload "company") as [c|] eqn:Hc; [|discriminate].
  injection Hco as Htc.
  unfold Earlier.quote, bindM, lift. rewrite Hc, Htc.
  rewrite (earlier_destructure payload c f Hc Hd Ha).
  destruct (missing_accepts Number_toString f Hm)
    as (n & e & p & a & m & Hn & He & Hph & _ & Hms
        & Kn & Ke & Kp & _ & Ks & _).
  unfold Earlier.answer, bindM, lift.
  rewrite (missing_text Number_toString
             {| fullName := fullName f; phone := phone f; email := email f;
                address := str ""; service := service f; date := date f;
                message := message f; attachments := attachments f |}
             n e p (lit "") m Hn He Hph eq_refl Hms).
  unfold first_failing. rewrite Kn, Ke, Kp. reflexivity.
Qed.

Lemma earlier_send_state rt token from to f subj text html ms st :
  let st' := snd (Earlier.send rt token from to f subj text html ms st) in
  hits st' = hits st
  /\ outbound st' =
       outbound st
       ++ [(business_email token from to f subj text html ms, Awaited)].
Proof.
  unfold Earlier.send, try_catch, bindM, call, await, log, throw.
  destruct (provider rt) as [r|e]; [|split; reflexivity].
  simpl. destruct (ok r); simpl.
  - destruct (supplied_or_else r "message_id" (str "sent")) as (v & Hv & _).
    unfold lift. rewrite Hv. split; reflexivity.
  - destruct (supplied_or_else r "message" (str "")) as (v & Hv & _).
    unfold lift. rewrite Hv. split; reflexivity.
Qed.

(** X15. The earlier version leaves [globalThis.__hits] alone and calls the
    provider at most once, and waits for the call: there is no rate limit
    and no confirmation email in it. *)
Theorem earlier_single_call rt ev st :
  hits (snd (Earlier.handler Number_toString rt ev st)) = hits st
  /\ (outbound (snd (Earlier.handler Number_toString rt ev st)) = outbound st
      \/ exists b,
           outbound (snd (Earlier.handler Number_toString rt ev st))
           = outbound st ++ [(b, Awaited)]).
Proof.
  assert (Hstill : forall c : completion response,
             hits (snd (c, st)) = hits st
             /\ (outbound (snd (c, st)) = outbound st
                 \/ exists b,
                      outbound (snd (c, st)) = outbound st ++ [(b, Awaited)]))
    by (intros c; split; [reflexivity | left; reflexivity]).
  unfold Earlier.handler. cbv zeta.
  destruct (bool_decide (httpMethod ev = lit "OPTIONS")); [apply Hstill|].
  destruct (negb (bool_decide (httpMethod ev = lit "POST"))); [apply Hstill|].
  destruct (unset (MAILERSEND_TOKEN rt) || unset (MAILERSEND_FROM rt)
            || unset (MAILERSEND_TO rt)); [apply Hstill|].
  destruct (parse (body ev)) as [payload|]; [|apply Hstill].
  unfold Earlier.quote, bindM, lift.
  destruct (get payload "company") as [c|]; [|apply Hstill].
  destruct (truthy c); [apply Hstill|].
  destruct (Earlier.destructure payload) as [f|]; [|apply Hstill].
  unfold Earlier.answer, bindM, lift.
  destruct (missing Number_toString f) as [[w|]|];
    [apply Hstill | | apply Hstill].
  destruct (Earlier.subject Number_toString f) as [subj|]; [|apply Hstill].
  destruct (textBody Number_toString f) as [text|]; [|apply Hstill].
  destruct (htmlBody Number_toString f) as [html|]; [|apply Hstill].
  destruct (Earlier.msAttachments (attachments f)) as [ms|]; [|apply Hstill].
  destruct (earlier_send_state rt (default [] (MAILERSEND_TOKEN rt))
              (default [] (MAILERSEND_FROM rt))
              (default [] (MAILERSEND_TO rt)) f subj text html ms st)
    as [Hh Ho].
  split; [exact Hh | right; eexists; exact Ho].
Qed.

End EarlierVersion.

(** ** The version that awaits both emails *)

Section NodeFetchVersion.

Variable Number_toString : float -> jsstring.
Variable engine_message : NodeFetch.exception -> jsstring.

Local Abbreviation handler :=
  (NodeFetch.handler Number_toString engine_message).
Local Abbreviation failure := (NodeFetch.failure engine_message).
Local Abbreviation attempt := (NodeFetch.attempt Number_toString).
Local Abbreviation prepared := (NodeFetch.prepared Number_toString).
Local Abbreviation confirmation_email :=
  (NodeFetch.confirmation_email Number_toString).

Lemma nf_handler_attempt rt ev st :
  handler rt ev st =
    match attempt rt (body ev) st with
    | (NodeFetch.Returns r, st') => (NodeFetch.Returns r, st')
    | (NodeFetch.Throws x, st') =>
        (NodeFetch.Returns (failure x), NodeFetch.with_log x st')
    end.
Proof.
  unfold NodeFetch.handler, NodeFetch.try_catch.
  destruct (attempt rt (body ev) st) as [[r|x] st']; reflexivity.
Qed.

Lemma nf_confirmation_builds rt f t :
  NodeFetch.text Number_toString f = Normal t ->
  exists creq, confirmation_email rt f = Normal creq.
Proof.
  unfold NodeFetch.text. intros H.
  apply bind_Normal in H as (n & Hn & H).
  apply bind_Normal in H as (e & _ & H).
  apply bind_Normal in H as (p & _ & H).
  apply bind_Normal in H as (a & _ & H).
  apply bind_Normal in H as (s & Hs & _).
  unfold NodeFetch.confirmation_email. rewrite Hn. cbn [bind]. rewrite Hs.
  cbn [bind]. eauto.
Qed.

Lemma nf_prepared_dec rt b :
  (exists f req, prepared rt b f req)
  \/ (forall f req, ~ prepared rt b f req).
Proof.
  unfold NodeFetch.prepared.
  destruct (NodeFetch.parse b) as [data|x] eqn:Hp.
  2:{ right. intros f req (d & t & H & _). discriminate. }
  destruct (NodeFetch.destructure data) as [f|e] eqn:Hd.
  2:{ right. intros f req (d & t & H & H' & _). congruence. }
  destruct (NodeFetch.text Number_toString f) as [t|e] eqn:Ht.
  2:{ right. intros f' req (d & t & H & H' & H'' & _). congruence. }
  destruct (NodeFetch.business_email Number_toString rt f t) as [req|e] eqn:Hb.
  2:{ right. intros f' req (d & t' & H & H' & H'' & H''').
      assert (d = data) by congruence. subst d.
      assert (f' = f) by congruence. subst f'.
      assert (t' = t) by congruence. subst t'. congruence. }
  left. exists f, req, data, t. auto.
Qed.

(** Nothing is called before the first email is built. *)
Lemma nf_attempt_unprepared rt b st :
  (forall f req, ~ prepared rt b f req) ->
  exists x, attempt rt b st = (NodeFetch.Throws x, st).
Proof.
  intros H. unfold NodeFetch.attempt, NodeFetch.bindM, NodeFetch.lift,
    NodeFetch.pure.
  destruct (NodeFetch.parse b) as [data|x] eqn:Hp; [|eauto].
  destruct (NodeFetch.destructure data) as [f|e] eqn:Hd; [|eauto].
  destruct (NodeFetch.text Number_toString f) as [t|e] eqn:Ht; [|eauto].
  destruct (NodeFetch.business_email Number_toString rt f t) as [req|e] eqn:Hb;
    [|eauto].
  exfalso. apply (H f req). exists data, t. auto.
Qed.

(** Once the first email is built, the two calls and what is awaited
    decide the rest. *)
Lemma nf_attempt_prepared rt b f req st :
  prepared rt b f req ->
  exists creq,
    confirmation_email rt f = Normal creq
    /\ attempt rt b st =
         match NodeFetch.business rt with
         | NodeFetch.Rejects e =>
             (NodeFetch.Throws (NodeFetch.Engine e), NodeFetch.with_call req st)
         | NodeFetch.Responds r =>
             if NodeFetch.ok r then
               let st' := NodeFetch.with_call creq (NodeFetch.with_call req st) in
               match NodeFetch.confirmation rt with
               | NodeFetch.Responds _ => (NodeFetch.Returns NodeFetch.sent, st')
               | NodeFetch.Rejects e =>
                   (NodeFetch.Throws (NodeFetch.Engine e), st')
               end
             else
               match NodeFetch.response_text r with
               | Normal t =>
                   (NodeFetch.Throws (NodeFetch.MailerSendError t),
                    NodeFetch.with_call req st)
               | Throw e =>
                   (NodeFetch.Throws (NodeFetch.Engine e),
                    NodeFetch.with_call req st)
               end
         end.
Proof.
  intros (data & t & Hp & Hd & Ht & Hb).
  destruct (nf_confirmation_builds rt f t Ht) as [creq Hc].
  exists creq. split; [exact Hc|].
  unfold NodeFetch.attempt, NodeFetch.bindM, NodeFetch.lift, NodeFetch.pure,
    NodeFetch.call, NodeFetch.await, NodeFetch.ret, NodeFetch.throw.
  rewrite Hp, Hd, Ht, Hb.
  destruct (NodeFetch.business rt) as [r|e]; [|reflexivity].
  destruct (NodeFetch.ok r); simpl.
  - rewrite Hc. destruct (NodeFetch.confirmation rt); reflexivity.
  - destruct (NodeFetch.response_text r); reflexivity.
Qed.

(** X18. The handler that awaits both emails answers every request, 200
    or 500, and never throws; it answers 200 exactly when the body could be
    read and the first email built, the provider accepted that email, and
    the call for the confirmation email settled with a response, whatever
    its status. *)
Theorem node_fetch_answers rt ev st :
  exists r,
    fst (handler rt ev st) = NodeFetch.Returns r
    /\ (NodeFetch.statusCode r = 200 \/ NodeFetch.statusCode r = 500)
    /\ (NodeFetch.statusCode r = 200 <->
        (exists f req, prepared rt (body ev) f req)
        /\ (exists r1, NodeFetch.business rt = NodeFetch.Responds r1
                       /\ NodeFetch.ok r1 = true)
        /\ (exists r2, NodeFetch.confirmation rt = NodeFetch.Responds r2)).
Proof.
  rewrite nf_handler_attempt.
  destruct (nf_prepared_dec rt (body ev)) as [(f & req & Hp) | Hn].
  - destruct (nf_attempt_prepared rt (body ev) f req st Hp) as (creq & _ & ->).
    destruct (NodeFetch.business rt) as [r1|e1].
    + destruct (NodeFetch.ok r1) eqn:Hok.
      * destruct (NodeFetch.confirmation rt) as [r2|e2]; cbv zeta.
        -- exists NodeFetch.sent. split; [reflexivity|]. split; [left; reflexivity|].
           split; [|reflexivity]. intros _. eauto 10.
        -- eexists. split; [reflexivity|]. split; [right; reflexivity|].
           split; [discriminate|]. intros (_ & _ & (r2 & H)). discriminate.
      * destruct (NodeFetch.response_text r1);
          (eexists; split; [reflexivity|]; split; [right; reflexivity|];
           split; [discriminate|];
           intros (_ & (r & H & Hr) & _); congruence).
    + eexists. split; [reflexivity|]. split; [right; reflexivity|].
      split; [discriminate|]. intros (_ & (r & H & _) & _). discriminate.
  - destruct (nf_attempt_unprepared rt (body ev) st Hn) as [x ->].
    eexists. split; [reflexivity|]. split; [right; reflexivity|].
    split; [discriminate|]. intros ((f & req & H) & _).
    destruct (Hn f req H).
Qed.

(** X19. In the handler that awaits both emails, a confirmation call that
    rejects turns the answer into 500 with the message of the rejection,
    although the business email has been sent and accepted: both calls are
    on record. *)
Theorem awaited_confirmation_decides rt ev st f req r e :
  prepared rt (body ev) f req ->
  NodeFetch.business rt = NodeFetch.Responds r -> NodeFetch.ok r = true ->
  NodeFetch.confirmation rt = NodeFetch.Rejects e ->
  exists creq,
    confirmation_email rt f = Normal creq
    /\ handler rt ev st =
         (NodeFetch.Returns (failure (NodeFetch.Engine e)),
          NodeFetch.with_log (NodeFetch.Engine e)
            (NodeFetch.with_call creq (NodeFetch.with_call req st))).
Proof.
  intros Hp Hb Hok Hc.
  destruct (nf_attempt_prepared rt (body ev) f req st Hp) as (creq & Hcreq & Ha).
  exists creq. split; [exact Hcreq|].
  rewrite nf_handler_attempt, Ha, Hb, Hok. cbv zeta. rewrite Hc. reflexivity.
Qed.

(** X20. When the provider answers the business email with a status
    outside 200 to 299, the handler that awaits both emails reads the
    response as text, answers 500 with "MailerSend error: " and that text,
    and does not call for the confirmation email. *)
Theorem provider_error_reported rt ev st f req r t :
  prepared rt (body ev) f req ->
  NodeFetch.business rt = NodeFetch.Responds r -> NodeFetch.ok r = false ->
  NodeFetch.response_text r = Normal t ->
  handler rt ev st =
    (NodeFetch.Returns
       {| NodeFetch.statusCode := 500;
          NodeFetch.response_body :=
            obj [("error", VStr (lit "MailerSend error: " ++ t))] |},
     NodeFetch.with_log (NodeFetch.MailerSendError t)
       (NodeFetch.with_call req st)).
Proof.
  intros Hp Hb Hok Ht.
  destruct (nf_attempt_prepared rt (body ev) f req st Hp) as (creq & _ & Ha).
  rewrite nf_handler_attempt, Ha, Hb, Hok, Ht. reflexivity.
Qed.

Lemma map_lookup_Some {A B} (g : A -> B) (l : list A) : forall i a,
  l !! i = Some a -> List.map g l !! i = Some (g a).
Proof.
  induction l as [|x l IH]; intros [|i] a H; try discriminate; simpl in *.
  - congruence.
  - apply IH, H.
Qed.

(** X21. The handler that awaits both emails forwards every attachment:
    the array in the business email holds one entry for each entry of the
    array it was given, however many, made of that entry's [base64],
    [filename] and [content_type]. *)
Theorem every_attachment_forwarded rt f t req l :
  NodeFetch.business_email Number_toString rt f t = Normal req ->
  attachments f = VArr l ->
  exists ms,
    get (payload_sent req) "attachments" = Normal (VArr ms)
    /\ length ms = length l
    /\ forall i a,
         l !! i = Some a ->
         exists c n ty,
           get a "base64" = Normal c
           /\ get a "filename" = Normal n
           /\ get a "content_type" = Normal ty
           /\ ms !! i =
                Some (obj [("content", c); ("filename", n);
                           ("disposition", str "attachment"); ("type", ty)]).
Proof.
  unfold NodeFetch.business_email. intros H Hl.
  apply bind_Normal in H as (n & _ & H).
  apply bind_Normal in H as (ms & Hms & H).
  injection H as <-. exists ms. split; [reflexivity|].
  rewrite Hl in Hms. unfold NodeFetch.mapped in Hms.
  apply sequence_Normal in Hms. split.
  - rewrite <- (Forall2_length _ _ _ Hms). apply length_map.
  - intros i a Hi.
    pose proof (map_lookup_Some NodeFetch.attachment l i a Hi) as Hc.
    destruct (Forall2_lookup_l _ _ _ _ _ Hms Hc) as (x & Hx & Hm).
    unfold NodeFetch.attachment in Hm.
    apply bind_Normal in Hm as (c & Hgc & Hm).
    apply bind_Normal in Hm as (nm & Hgn & Hm).
    apply bind_Normal in Hm as (ty & Hgt & Hm).
    injection Hm as <-. eauto 10.
Qed.

Lemma nf_attachment_total a :
  a <> VNull /\ a <> VUndefined ->
  exists x, NodeFetch.attachment a = Normal x.
Proof.
  intros [Hn Hu]. unfold NodeFetch.attachment.
  destruct a; simpl; try congruence; eauto.
Qed.

Lemma nf_mapped_total l :
  Forall (fun a => a <> VNull /\ a <> VUndefined) l ->
  exists ms, NodeFetch.mapped (VArr l) = Normal ms.
Proof.
  intros Hl. unfold NodeFetch.mapped. apply sequence_total.
  apply List.Forall_map. revert Hl. apply List.Forall_impl.
  intros a. apply nf_attachment_total.
Qed.

Lemma interpolate_text v :
  text_or_absent v -> exists s, interpolate Number_toString v = Normal s.
Proof. intros [-> | [s ->]]; simpl; eauto. Qed.

Lemma interpolate_text_or v d :
  text_or_absent v ->
  exists s, interpolate Number_toString (or_else v (str d)) = Normal s.
Proof.
  intros H. destruct (or_else_text v d H) as [s ->]. simpl. eauto.
Qed.

(** A payload of text fields is read, and the first email built from it,
    whatever the fields hold and whichever are there. *)
Lemma nf_text_prepared rt b data :
  NodeFetch.parse b = NodeFetch.Returns data ->
  text_payload data ->
  exists f req, prepared rt b f req.
Proof.
  intros Hp ((props & ->) & Hf & Ha).
  set (data := VObj props) in *.
  assert (Hg : forall k, exists v, get data k = Normal v) by (simpl; eauto).
  assert (Ht : forall k,
             In k ["fullName"; "phone"; "email"; "address"; "postcode";
                   "service"; "date"; "message"] ->
             exists v, get data k = Normal v /\ text_or_absent v).
  { intros k Hk. destruct (Hg k) as [v Hv]. exists v. split; [exact Hv|].
    exact (Hf k v Hk Hv). }
  destruct (Ht "fullName") as (n & Hn & Tn); [simpl; tauto|].
  destruct (Ht "email") as (e & He & Te); [simpl; tauto|].
  destruct (Ht "phone") as (p & Hph & Tp); [simpl; tauto|].
  destruct (Ht "address") as (a & Had & Ta); [simpl; tauto|].
  destruct (Ht "service") as (s & Hs & Ts); [simpl; tauto|].
  destruct (Ht "date") as (d & Hd & Td); [simpl; tauto|].
  destruct (Ht "message") as (m & Hm & Tm); [simpl; tauto|].
  destruct (Hg "attachments") as [va Hva].
  assert (Hatt : exists l,
             field data "attachments" (Normal (VArr [])) = Normal (VArr l)
             /\ Forall (fun x => x <> VNull /\ x <> VUndefined) l).
  { unfold field. rewrite Hva. cbn [bind].
    destruct (Ha va Hva) as [-> | (l & -> & Hl)]; eauto. }
  destruct Hatt as (l & Hl & Hnn).
  set (f := {| fullName := n; phone := p; email := e; address := a;
               service := s; date := d; message := m;
               attachments := VArr l |}).
  assert (Hdes : NodeFetch.destructure data = Normal f).
  { unfold NodeFetch.destructure. rewrite Hn. cbn [bind]. rewrite He.
    cbn [bind]. rewrite Hph. cbn [bind]. rewrite Had. cbn [bind].
    rewrite Hs. cbn [bind]. rewrite Hd. cbn [bind]. rewrite Hm. cbn [bind].
    rewrite Hl. reflexivity. }
  destruct (interpolate_text n Tn) as [sn Hsn].
  destruct (interpolate_text e Te) as [se Hse].
  destruct (interpolate_text p Tp) as [sp Hsp].
  destruct (interpolate_text a Ta) as [sa Hsa].
  destruct (interpolate_text s Ts) as [ss Hss].
  destruct (interpolate_text_or d "Not specified" Td) as [sd Hsd].
  destruct (interpolate_text m Tm) as [sm Hsm].
  destruct (nf_mapped_total l Hnn) as [ms Hms].
  assert (Htext : exists t, NodeFetch.text Number_toString f = Normal t).
  { unfold NodeFetch.text, f. cbn [fullName phone email address service date
                                     message].
    rewrite Hsn. cbn [bind]. rewrite Hse. cbn [bind]. rewrite Hsp. cbn [bind].
    rewrite Hsa. cbn [bind]. rewrite Hss. cbn [bind]. rewrite Hsd. cbn [bind].
    rewrite Hsm. cbn [bind]. eauto. }
  destruct Htext as [t Htext].
  assert (Hbus : exists req,
             NodeFetch.business_email Number_toString rt f t = Normal req).
  { unfold NodeFetch.business_email, f. cbn [fullName attachments].
    rewrite Hsn. cbn [bind]. rewrite Hms. cbn [bind]. eauto. }
  destruct Hbus as [req Hbus].
  exists f, req, data, t. auto.
Qed.

(** X22. The handler that awaits both emails turns nobody away: for a body
    that parses into an object of text fields, whatever they hold and even
    when none is there, it calls the provider with the business email. *)
Theorem text_payload_always_emailed rt ev st data :
  NodeFetch.parse (body ev) = NodeFetch.Returns data ->
  text_payload data ->
  exists f req rest,
    prepared rt (body ev) f req
    /\ NodeFetch.outbound (snd (handler rt ev st))
       = NodeFetch.outbound st ++ req :: rest.
Proof.
  intros Hp Ht.
  destruct (nf_text_prepared rt (body ev) data Hp Ht) as (f & req & Hprep).
  destruct (nf_attempt_prepared rt (body ev) f req st Hprep)
    as (creq & _ & Ha).
  exists f, req. rewrite nf_handler_attempt, Ha.
  destruct (NodeFetch.business rt) as [r|e].
  - destruct (NodeFetch.ok r).
    + exists [creq]. split; [exact Hprep|].
      destruct (NodeFetch.confirmation rt); simpl;
        rewrite <- app_assoc; reflexivity.
    + exists []. split; [exact Hprep|].
      destruct (NodeFetch.response_text r); reflexivity.
  - exists []. split; [exact Hprep | reflexivity].
Qed.

End NodeFetchVersion.

(** ** Clients apart, and payloads without a name *)

Section Further.

Variable Number_toString : float -> jsstring.
Implicit Types (rt : runtime) (ev : event) (st : state).

Local Abbreviation handler := (handler Number_toString).
Local Abbreviation serve := (serve Number_toString).

(** X23. The requests of other clients, and requests that are no POST,
    never change the bucket of a client: after any number of them it holds
    what it held. *)
Theorem buckets_are_isolated ip reqs : forall st,
  Forall (fun r => ~ from_client ip (snd (fst r))) reqs ->
  bucket_of (serve reqs st) ip = bucket_of st ip.
Proof.
  induction reqs as [|r reqs IH]; intros st H; [reflexivity|].
  inversion H as [|? ? Hr Hrs]; subst.
  rewrite serve_cons, (IH _ Hrs).
  apply bucket_untouched. exact Hr.
Qed.

Lemma prune_sublist T b : prune T b `sublist_of` b.
Proof.
  induction b as [|t b IH]; simpl; [constructor|].
  destruct (T - t <? WINDOW_MS); [apply sublist_skip | apply sublist_cons];
    exact IH.
Qed.

Lemma prune_mono T b b' :
  b `sublist_of` b' -> prune T b `sublist_of` prune T b'.
Proof.
  induction 1 as [|t b b' _ IH | t b b' _ IH]; simpl.
  - constructor.
  - destruct (T - t <? WINDOW_MS); [apply sublist_skip|]; exact IH.
  - destruct (T - t <? WINDOW_MS); [apply sublist_cons|]; exact IH.
Qed.

(** A bucket holds nothing but what it held and the arrival times of the
    requests of its client since. *)
Lemma bucket_sublist ip reqs : forall st,
  bucket_of (serve reqs st) ip
  `sublist_of` bucket_of st ip ++ List.map arrival (requests_of ip reqs).
Proof.
  induction reqs as [|r reqs IH]; intros st.
  - simpl. rewrite app_nil_r. reflexivity.
  - rewrite serve_cons. unfold requests_of in *. rewrite filter_cons.
    specialize (IH (snd (invocation Number_toString (fst (fst r))
                           (snd (fst r)) (snd r) st))).
    destruct (decide (from_client ip (snd (fst r)))) as [Hr|Hr].
    + rewrite (bucket_after_invocation _ _ _ _ _ _ Hr) in IH.
      fold (arrival r) in IH. rewrite <- app_assoc in IH. simpl in *.
      etransitivity; [exact IH|].
      apply sublist_app; [apply prune_sublist | reflexivity].
    + rewrite (bucket_untouched _ _ _ _ _ _ Hr) in IH. exact IH.
Qed.

(** X2. Nobody is turned away by mistake: when a client had no bucket and
    the handler, after any requests of any clients, answers a request of
    that client 429, then at least five of the client's requests since,
    admitted or not, arrived less than the window before it. *)
Theorem no_false_rejection ip reqs st0 rt ev r :
  bucket_of st0 ip = [] ->
  from_client ip ev ->
  fst (handler rt ev (serve reqs st0)) = Normal r ->
  statusCode r = 429 ->
  (5 <= length (prune (now rt) (List.map arrival (requests_of ip reqs))))%nat.
Proof.
  intros Hempty Hfrom Hr H429.
  destruct (handler_from_client Number_toString ip rt ev (serve reqs st0) Hfrom)
    as (_ & _ & Hunder).
  pose proof (bucket_sublist ip reqs st0) as Hsub.
  rewrite Hempty in Hsub. simpl in Hsub.
  apply (prune_mono (now rt)), sublist_length in Hsub.
  destruct (Z.lt_ge_cases RATE
              (Z.of_nat (length (prune (now rt)
                                   (bucket_of (serve reqs st0) ip)
                                 ++ [now rt])))) as [Hlen|Hlen].
  - rewrite length_app in Hlen. simpl in Hlen. unfold RATE in Hlen. lia.
  - rewrite (Hunder Hlen) in Hr.
    pose proof (configured_status Number_toString rt ev _ r Hr) as Hs.
    unfold after_limit_status in Hs. rewrite H429 in Hs.
    destruct Hs as [H|[H|H]]; discriminate.
Qed.

Lemma field_total src k d :
  (exists v, get src k = Normal v) -> (exists v, d = Normal v) ->
  exists v, field src k d = Normal v.
Proof.
  intros [v Hv] [w ->]. unfold field. rewrite Hv. cbn [bind].
  destruct v; eauto.
Qed.

(** A payload that is not [null] destructures, whatever it is. *)
Lemma destructure_total payload b :
  company payload = Normal b ->
  exists f,
    destructure payload = Normal f
    /\ field (or_else payload (obj [])) "fullName" (Normal (str ""))
       = Normal (fullName f).
Proof.
  intros Hc.
  assert (Hsrc : forall k, exists v,
             get (or_else payload (obj [])) k = Normal v).
  { intros k. rewrite (get_source _ _ k Hc). apply (get_total _ _ k Hc). }
  assert (Hstr : forall k s, exists v,
             field (or_else payload (obj [])) k (Normal s) = Normal v).
  { intros k s. apply field_total; [apply Hsrc | eauto]. }
  destruct (Hstr "fullName" (str "")) as [v1 H1].
  destruct (Hstr "phone" (str "")) as [v2 H2].
  destruct (Hstr "email" (str "")) as [v3 H3].
  assert (H4 : exists v,
             field (or_else payload (obj [])) "address"
               (a <- get payload "address" ;;
                if truthy a then Normal a
                else p <- get payload "postcode" ;;
                     Normal (or_else p (str ""))) = Normal v).
  { apply field_total; [apply Hsrc|].
    destruct (get_total _ _ "address" Hc) as [a ->]. cbn [bind].
    destruct (truthy a); [eauto|].
    destruct (get_total _ _ "postcode" Hc) as [p ->]. cbn [bind]. eauto. }
  destruct H4 as [v4 H4].
  destruct (Hstr "service" (str "")) as [v5 H5].
  destruct (Hstr "date" (str "")) as [v6 H6].
  destruct (Hstr "message" (str "")) as [v7 H7].
  destruct (Hstr "attachments" (VArr [])) as [v8 H8].
  eexists. unfold destructure. cbv zeta.
  rewrite H1. cbn [bind]. rewrite H2. cbn [bind]. rewrite H3. cbn [bind].
  rewrite H4. cbn [bind]. rewrite H5. cbn [bind]. rewrite H6. cbn [bind].
  rewrite H7. cbn [bind]. rewrite H8. cbn [bind].
  split; reflexivity.
Qed.

(** X24. A payload without a name is asked for one: when a request
    reaches the honeypot with a payload that is not [null], whose hidden
    field is empty and that has no [fullName], be it an object, the empty
    object of an absent body, a number or a string, the handler answers 400
    "Please provide a name." and calls nobody. *)
Theorem nameless_payload_400 rt ev st st' payload :
  reaches_quote rt ev st st' payload ->
  company payload = Normal false ->
  get payload "fullName" = Normal VUndefined ->
  handler rt ev st
  = (Normal {| statusCode := 400;
               response_headers := cors_headers;
               response_body :=
                 obj [("error", str "Please provide a name.")] |},
     st').
Proof.
  intros Hreach Hc Hn.
  change (handler rt ev st = (Normal (please_provide (lit "name")), st')).
  rewrite (handler_quote _ _ _ _ _ _ Hreach).
  destruct (destructure_total payload false Hc) as (f & Hd & Hf).
  rewrite (quote_answer _ _ _ _ _ _ _ _ Hc Hd).
  apply answer_missing.
  unfold field in Hf. rewrite (get_source _ _ "fullName" Hc), Hn in Hf.
  cbn [bind] in Hf. injection Hf as Hf.
  unfold missing. rewrite <- Hf. reflexivity.
Qed.

End Further.
(** ** Instances and counterexamples *)

Lemma sample_from_client payload : from_client sample_ip (sample_event payload).
Proof. split; reflexivity. Qed.

Lemma sample_reaches_quote t p payload :
  reaches_quote (sample_runtime t p) (sample_event payload) fresh
    (with_hits {[ sample_ip := [t] ]} fresh) payload.
Proof. repeat split. Qed.

Lemma photos_text_payload : text_payload photos_payload.
Proof.
  split; [eexists; reflexivity|]. split.
  - intros k v Hk Hv. simpl in Hk.
    repeat (destruct Hk as [<- | Hk];
            [vm_compute in Hv; injection Hv as <-;
             first [left; reflexivity | right; eexists; reflexivity]|]).
    destruct Hk.
  - intros v Hv. vm_compute in Hv. injection Hv as <-. right.
    eexists. split; [reflexivity|].
    repeat constructor; discriminate.
Qed.

(** The validator on a blank name beside a phone that is [null], and on
    an email "ann@example". *)
Lemma validator_order_witness :
  (handler unprinted (sample_runtime 0 accepted)
     (sample_event blank_name_payload) fresh
   = (Normal (please_provide (lit "name")), first_hit)
   /\ statusCode (please_provide (lit "name")) = 400
   /\ response_body (please_provide (lit "name"))
      = obj [("error", str "Please provide a name.")])
  /\ (handler unprinted (sample_runtime 0 accepted)
        (sample_event bad_email_payload) fresh
      = (Normal (please_provide (lit "valid email")), first_hit)
      /\ statusCode (please_provide (lit "valid email")) = 400
      /\ response_body (please_provide (lit "valid email"))
         = obj [("error", str "Please provide a valid email.")]).
Proof.
  split.
  - pose proof (validator_order unprinted (sample_runtime 0 accepted)
                  (sample_event blank_name_payload) fresh first_hit
                  blank_name_payload _
                  (sample_reaches_quote 0 accepted blank_name_payload)
                  eq_refl eq_refl) as H.
    cbv beta zeta in H. destruct H as (Hpin & _ & Htree).
    destruct (Htree _ eq_refl) as [Hname _].
    split; [apply Hname; reflexivity | exact (Hpin (lit "name"))].
  - pose proof (validator_order unprinted (sample_runtime 0 accepted)
                  (sample_event bad_email_payload) fresh first_hit
                  bad_email_payload _
                  (sample_reaches_quote 0 accepted bad_email_payload)
                  eq_refl eq_refl) as H.
    cbv beta zeta in H. destruct H as (Hpin & _ & Htree).
    destruct (Htree _ eq_refl) as [_ Hnamed].
    destruct (Hnamed eq_refl) as [_ Hemail].
    destruct (Hemail _ eq_refl) as [Hbad _].
    split; [apply Hbad; reflexivity | exact (Hpin (lit "valid email"))].
Defined.

(** C1, counterexample: a POST with well-formed JSON, no [company] and a
    [null] name is not answered 400 "Please provide a name."; [null] has no
    [trim] and the handler throws. *)
Lemma null_name_throws :
  httpMethod (sample_event null_name_payload) = lit "POST"
  /\ parse (body (sample_event null_name_payload)) = Some null_name_payload
  /\ company null_name_payload = Normal false
  /\ fst (handler unprinted (sample_runtime 0 accepted)
            (sample_event null_name_payload) fresh) = Throw TypeError.
Proof. repeat split. Qed.

(** After five requests of a client among those of others, its request a
    minute later is rejected, and its request eleven minutes later would be
    admitted. *)
Lemma rate_limit_window_witness :
  fst (handler unprinted (sample_runtime 300000 accepted)
         (sample_event sample_payload) (serve unprinted busy_minutes fresh))
  = Normal too_many_requests
  /\ statusCode too_many_requests = 429
  /\ response_body too_many_requests
     = obj [("error", str "Too many requests. Please try again later.")]
  /\ fst (handler unprinted (sample_runtime 900000 accepted)
            (sample_event sample_payload)
            (serve unprinted busy_minutes fresh))
     = Normal {| statusCode := 200;
                 response_headers := cors_headers;
                 response_body :=
                   obj [("ok", VBool true); ("id", str "sent")] |}.
Proof.
  pose proof (rate_limit_window unprinted sample_ip
                (sample_runtime 300000 accepted)
                (sample_event sample_payload)
                (serve unprinted busy_minutes fresh)
                (sample_from_client sample_payload))
    as (_ & [Hcode Hbody] & _ & _ & _ & _ & _ & _ & Hsix & _).
  split.
  { apply (Hsix busy_minutes fresh).
    - reflexivity.
    - vm_compute. lia.
    - vm_compute. reflexivity. }
  split; [exact Hcode|]. split; [exact Hbody|].
  pose proof (rate_limit_window unprinted sample_ip
                (sample_runtime 900000 accepted)
                (sample_event sample_payload)
                (serve unprinted busy_minutes fresh)
                (sample_from_client sample_payload))
    as (_ & _ & _ & _ & _ & _ & _ & _ & _ & Hpast).
  destruct Hpast as [_ Hadmitted].
  - intros t Ht. vm_compute in Ht.
    intuition (subst t; vm_compute; discriminate).
  - rewrite Hadmitted. reflexivity.
Defined.

(** A first request with no environment variable set. *)
Lemma missing_env_500_witness :
  handler unprinted (bare_runtime 0) (sample_event sample_payload) fresh
  = (Normal not_configured, first_hit).
Proof.
  apply (missing_env_500 unprinted (bare_runtime 0)
           (sample_event sample_payload) fresh first_hit);
    reflexivity.
Defined.

(** C3, counterexample: with no environment variable set, the sixth request
    of a client within the window is answered 429, not 500. *)
Lemma rate_limit_precedes_env_check :
  MAILERSEND_TOKEN (bare_runtime 300000) = None
  /\ MAILERSEND_FROM (bare_runtime 300000) = None
  /\ MAILERSEND_TO (bare_runtime 300000) = None
  /\ httpMethod (sample_event sample_payload) = lit "POST"
  /\ fst (handler unprinted (bare_runtime 300000)
            (sample_event sample_payload)
            (serve unprinted five_bare_requests fresh))
     = Normal too_many_requests
  /\ statusCode too_many_requests = 429.
Proof. repeat split. Qed.

(** A bot's first submission. *)
Lemma honeypot_dropped_witness :
  handler unprinted (sample_runtime 0 accepted) (sample_event bot_payload)
    fresh
  = (Normal skipped, first_hit)
  /\ statusCode skipped = 200
  /\ response_body skipped = obj [("ok", VBool true); ("skipped", VBool true)]
  /\ outbound first_hit = [].
Proof.
  pose proof (honeypot_dropped unprinted (sample_runtime 0 accepted)
                (sample_event bot_payload) fresh bot_payload
                eq_refl eq_refl eq_refl)
    as (_ & [Hcode Hbody] & _ & _ & Hpass).
  split; [apply (Hpass first_hit); reflexivity|].
  split; [exact Hcode|]. split; [exact Hbody | reflexivity].
Defined.

(** C4, counterexample: the sixth submission of a bot within the window is
    answered 429 with an error, not 200 with [{ok: true, skipped: true}]. *)
Lemma honeypot_rate_limited :
  httpMethod (sample_event bot_payload) = lit "POST"
  /\ parse (body (sample_event bot_payload)) = Some bot_payload
  /\ company bot_payload = Normal true
  /\ fst (handler unprinted (sample_runtime 300000 accepted)
            (sample_event bot_payload)
            (serve unprinted five_bot_requests fresh))
     = Normal {| statusCode := 429;
                 response_headers := cors_headers;
                 response_body :=
                   obj [("error",
                         str "Too many requests. Please try again later.")] |}.
Proof. repeat split. Qed.

(** The provider answering 202 with [{message_id: "abc"}], and 422 with
    [{message: "bad from"}]. *)
Lemma provider_outcome_witness :
  (exists a,
     fst (handler unprinted (sample_runtime 0 (Responds sent_abc))
            (sample_event sample_payload) fresh) = Normal a
     /\ statusCode a = 200
     /\ response_body a = obj [("ok", VBool true); ("id", str "abc")])
  /\ (exists a,
        fst (handler unprinted (sample_runtime 0 (Responds bad_from))
               (sample_event sample_payload) fresh) = Normal a
        /\ statusCode a = 500
        /\ response_body a = obj [("error", str "bad from")]).
Proof.
  split.
  - pose proof (provider_outcome unprinted
                  (sample_runtime 0 (Responds sent_abc))
                  (sample_event sample_payload) fresh first_hit
                  sample_payload _ _ _ _ _ sent_abc
                  (sample_reaches_quote 0 _ sample_payload) eq_refl eq_refl
                  (conj eq_refl
                     (conj eq_refl (conj eq_refl (conj eq_refl eq_refl))))
                  eq_refl) as H.
    cbv zeta in H. destruct H as (_ & a & Ha & H2xx & _).
    destruct (H2xx eq_refl) as (Hcode & v & Hg & Hbody).
    vm_compute in Hg. injection Hg as <-.
    exists a. split; [exact Ha|]. split; [exact Hcode | exact Hbody].
  - pose proof (provider_outcome unprinted
                  (sample_runtime 0 (Responds bad_from))
                  (sample_event sample_payload) fresh first_hit
                  sample_payload _ _ _ _ _ bad_from
                  (sample_reaches_quote 0 _ sample_payload) eq_refl eq_refl
                  (conj eq_refl
                     (conj eq_refl (conj eq_refl (conj eq_refl eq_refl))))
                  eq_refl) as H.
    cbv zeta in H. destruct H as (_ & a & Ha & _ & Hnot).
    destruct (Hnot eq_refl) as (Hcode & v & Hg & Hbody).
    vm_compute in Hg. injection Hg as <-.
    exists a. split; [exact Ha|]. split; [exact Hcode | exact Hbody].
Defined.

(** C5, counterexample: a [message_id] that is supplied but is 0 is not
    the id of the answer, which is "sent"; a [message] that is present but
    empty is not the error of the answer, which is the generic one. *)
Lemma falsy_message_id_not_used :
  get_opt (default (obj []) (json_body zero_id)) "message_id"
  = Normal (VNum 0%float)
  /\ ok zero_id = true
  /\ fst (handler unprinted (sample_runtime 0 (Responds zero_id))
            (sample_event sample_payload) fresh)
     = Normal {| statusCode := 200;
                 response_headers := cors_headers;
                 response_body :=
                   obj [("ok", VBool true); ("id", str "sent")] |}
  /\ get_opt (default (obj []) (json_body empty_message)) "message"
     = Normal (str "")
  /\ ok empty_message = false
  /\ fst (handler unprinted (sample_runtime 0 (Responds empty_message))
            (sample_event sample_payload) fresh)
     = Normal {| statusCode := 500;
                 response_headers := cors_headers;
                 response_body :=
                   obj [("error",
                         str "Email send failed. Please try again or call 07305 848484.")] |}.
Proof. repeat split. Qed.

(** The confirmation call timing out, being refused and being accepted. *)
Lemma confirmation_never_changes_response_witness :
  let answered c :=
    fst (invocation unprinted (sample_runtime 0 (Responds sent_abc))
           (sample_event sample_payload) c fresh)
    = Normal {| statusCode := 200;
                response_headers := cors_headers;
                response_body :=
                  obj [("ok", VBool true); ("id", str "abc")] |} in
  answered timeout /\ answered unavailable /\ answered accepted
  /\ console (snd (invocation unprinted (sample_runtime 0 (Responds sent_abc))
                     (sample_event sample_payload) timeout fresh))
     = [Warn (lit "Confirmation email failed:") (FetchFailure (lit "timeout"))]
  /\ fst (handler unprinted (sample_runtime 60000 accepted)
            (sample_event sample_payload)
            (snd (invocation unprinted (sample_runtime 0 (Responds sent_abc))
                    (sample_event sample_payload) timeout fresh)))
     = fst (handler unprinted (sample_runtime 60000 accepted)
              (sample_event sample_payload)
              (snd (invocation unprinted
                      (sample_runtime 0 (Responds sent_abc))
                      (sample_event sample_payload) accepted fresh))).
Proof.
  destruct (confirmation_never_changes_response unprinted
              (sample_runtime 0 (Responds sent_abc))
              (sample_event sample_payload) fresh first_hit
              sample_payload _ _ _ _ _ sent_abc
              (sample_reaches_quote 0 _ sample_payload) eq_refl eq_refl
              (conj eq_refl
                 (conj eq_refl (conj eq_refl (conj eq_refl eq_refl))))
              eq_refl eq_refl)
    as (_ & req & _ & _ & Hall & Hlater).
  cbv zeta.
  split; [apply (Hall timeout)|].
  split; [apply (Hall unavailable)|].
  split; [apply (Hall accepted)|].
  split.
  - destruct (Hall timeout) as (_ & _ & _ & Hconsole). exact Hconsole.
  - apply Hlater.
Defined.

(** C6, counterexample: a confirmation call that returns the error status
    503 is a failure of the confirmation email, and it is not logged: the
    console stays empty, while the answer is the 200 of the business
    email. *)
Lemma confirmation_error_not_logged :
  unavailable = Responds {| status := 503; json_body := None |}
  /\ ok {| status := 503; json_body := None |} = false
  /\ fst (invocation unprinted (sample_runtime 0 (Responds sent_abc))
            (sample_event sample_payload) unavailable fresh)
     = Normal {| statusCode := 200;
                 response_headers := cors_headers;
                 response_body :=
                   obj [("ok", VBool true); ("id", str "abc")] |}
  /\ console (snd (invocation unprinted
                     (sample_runtime 0 (Responds sent_abc))
                     (sample_event sample_payload) unavailable fresh))
     = [].
Proof. repeat split. Qed.

(** An event without headers. *)
Lemma rate_limit_fails_open_witness :
  handler unprinted (sample_runtime 0 accepted) headerless_event fresh
  = configured unprinted (sample_runtime 0 accepted) headerless_event
      (with_log (Warn (lit "Rate limit check failed:") TypeError) fresh)
  /\ fst (handler unprinted (sample_runtime 0 accepted) headerless_event fresh)
     = Normal (json 200 (obj [("ok", VBool true); ("id", str "sent")])).
Proof.
  pose proof (rate_limit_fails_open unprinted (sample_runtime 0 accepted)
                headerless_event fresh TypeError eq_refl eq_refl)
    as (_ & _ & Hopen).
  split; [exact Hopen|]. rewrite Hopen. reflexivity.
Defined.

(** Seven attachments: five are sent, the second under a default name, the
    third with empty content. *)
Lemma attachments_capped_witness :
  exists business rest,
    outbound (snd (handler unprinted (sample_runtime 0 accepted)
                     (sample_event photos_payload) fresh))
    = (business, Awaited) :: rest
    /\ get (payload_sent business) "attachments"
       = Normal
           (VArr [obj [("filename", str "a.jpg"); ("content", str "QUJD")];
                  obj [("filename", str "photo-2.jpg");
                       ("content", str "REVG")];
                  obj [("filename", str "c.jpg"); ("content", str "")];
                  obj [("filename", str "d.jpg"); ("content", str "QUJD")];
                  obj [("filename", str "e.jpg"); ("content", str "QUJD")]]).
Proof.
  destruct (attachments_capped unprinted (sample_runtime 0 accepted)
              (sample_event photos_payload) fresh first_hit
              photos_payload _ _ _ _ seven_photos
              (sample_reaches_quote 0 _ photos_payload) eq_refl eq_refl
              eq_refl eq_refl eq_refl eq_refl eq_refl)
    as [Hgood _].
  destruct Hgood as (ms & H); [repeat constructor; discriminate|].
  cbv zeta in H. destruct H as (Hms & [rest Hout] & Hsent & _).
  vm_compute in Hms. injection Hms as <-.
  eexists. exists rest. split; [exact Hout | exact Hsent].
Defined.

(** C8, counterexample: a payload that passes the validator and whose
    [attachments] is an array holding [null]: the handler throws, and
    nothing was sent. *)
Lemma null_attachment_throws :
  parse (body (sample_event null_photo_payload)) = Some null_photo_payload
  /\ company null_photo_payload = Normal false
  /\ (f <- destructure null_photo_payload ;; missing unprinted f)%js
     = Normal None
  /\ (f <- destructure null_photo_payload ;; Normal (attachments f))%js
     = Normal (VArr [VNull])
  /\ handler unprinted (sample_runtime 0 accepted)
       (sample_event null_photo_payload) fresh
     = (Throw TypeError, first_hit)
  /\ outbound first_hit = [].
Proof. repeat split. Qed.

(** A sixth request is rejected and recorded; when the first entry has left
    the window, the rejected one still makes the next request the sixth. *)
Lemma rejected_request_recorded_witness :
  bucket_of (snd (invocation unprinted (sample_runtime 300000 accepted)
                    (sample_event sample_payload) accepted
                    (serve unprinted five_requests fresh)))
    sample_ip
  = [0; 60000; 120000; 180000; 240000; 300000]
  /\ fst (handler unprinted (sample_runtime 610000 accepted)
            (sample_event sample_payload)
            (snd (invocation unprinted (sample_runtime 300000 accepted)
                    (sample_event sample_payload) accepted
                    (serve unprinted five_requests fresh))))
     = Normal too_many_requests.
Proof.
  destruct (rejected_request_recorded unprinted sample_ip
              (sample_runtime 300000 accepted) (sample_event sample_payload)
              (serve unprinted five_requests fresh)
              (sample_from_client sample_payload))
    as (Hrecorded & Hrejected).
  split; [apply (Hrecorded accepted)|].
  destruct (Hrejected too_many_requests eq_refl eq_refl)
    as (_ & _ & Hnext).
  destruct (Hnext accepted (sample_runtime 610000 accepted)
              (sample_event sample_payload)
              (sample_from_client sample_payload))
    as (_ & H429).
  - vm_compute. reflexivity.
  - apply H429. vm_compute. reflexivity.
Defined.

(** An address of two spaces, and an address that is [false], beside a
    postcode. *)
Lemma postcode_fallback_witness :
  handler unprinted (sample_runtime 0 accepted)
    (sample_event (with_address (str "  "))) fresh
  = (Normal (please_provide (lit "postcode")), first_hit)
  /\ statusCode (please_provide (lit "postcode")) = 400
  /\ response_body (please_provide (lit "postcode"))
     = obj [("error", str "Please provide a postcode.")]
  /\ handler unprinted (sample_runtime 0 accepted)
       (sample_event (with_address (VBool false))) fresh
     = (Throw TypeError, first_hit).
Proof.
  destruct (postcode_fallback unprinted (sample_runtime 0 accepted)
              (sample_event (with_address (str "  "))) fresh first_hit
              (with_address (str "  ")) _ (str "  ")
              (sample_reaches_quote 0 _ _) eq_refl eq_refl eq_refl)
    as ([Hcode Hbody] & _ & Hdefined).
  split.
  { destruct Hdefined as (_ & Hcheck); [discriminate|].
    destruct (Hcheck _ _ _ eq_refl eq_refl eq_refl eq_refl eq_refl eq_refl)
      as (Hblank & _).
    apply (Hblank (lit "  ")); reflexivity. }
  split; [exact Hcode|]. split; [exact Hbody|].
  destruct (postcode_fallback unprinted (sample_runtime 0 accepted)
              (sample_event (with_address (VBool false))) fresh first_hit
              (with_address (VBool false)) _ (VBool false)
              (sample_reaches_quote 0 _ _) eq_refl eq_refl eq_refl)
    as (_ & _ & Hdefined').
  destruct Hdefined' as (_ & Hcheck); [discriminate|].
  destruct (Hcheck _ _ _ eq_refl eq_refl eq_refl eq_refl eq_refl eq_refl)
    as (_ & Hthrow).
  apply Hthrow. discriminate.
Defined.

(** C10, counterexample: an address that is [null], a falsy defined value,
    beside a postcode is not answered 400 "Please provide a postcode."; the
    handler throws. *)
Lemma null_address_throws :
  get (with_address VNull) "address" = Normal VNull
  /\ truthy VNull = false
  /\ get (with_address VNull) "postcode" = Normal (str "AB1 2CD")
  /\ fst (handler unprinted (sample_runtime 0 accepted)
            (sample_event (with_address VNull)) fresh)
     = Throw TypeError.
Proof. repeat split. Qed.

(** A body that does not parse. *)
Lemma bad_json_400_witness :
  handler unprinted (sample_runtime 0 accepted) malformed_event fresh
  = (Normal {| statusCode := 400;
               response_headers := cors_headers;
               response_body := obj [("error", str "Bad JSON")] |},
     first_hit).
Proof.
  apply (bad_json_400 unprinted (sample_runtime 0 accepted) malformed_event
           fresh first_hit); reflexivity.
Defined.

(** The call to the provider timing out. *)
Lemma transport_failure_500_witness :
  fst (handler unprinted (sample_runtime 0 timeout)
         (sample_event sample_payload) fresh)
  = Normal {| statusCode := 500;
              response_headers := cors_headers;
              response_body :=
                obj [("error",
                      str "Network error sending email. Please try again later.")] |}.
Proof.
  rewrite (transport_failure_500 unprinted (sample_runtime 0 timeout)
             (sample_event sample_payload) fresh first_hit
             sample_payload _ _ _ _ _ (FetchFailure (lit "timeout"))
             (sample_reaches_quote 0 _ sample_payload) eq_refl eq_refl
             (conj eq_refl
                (conj eq_refl (conj eq_refl (conj eq_refl eq_refl))))
             eq_refl).
  reflexivity.
Defined.

(** The headers of the answer to a first valid request. *)
Lemma responses_carry_cors_witness :
  exists r,
    fst (handler unprinted (sample_runtime 0 accepted)
           (sample_event sample_payload) fresh) = Normal r
    /\ response_headers r =
         [ (lit "Content-Type", lit "application/json");
           (lit "Access-Control-Allow-Origin", lit "*");
           (lit "Access-Control-Allow-Headers", lit "Content-Type");
           (lit "Access-Control-Allow-Methods", lit "POST, OPTIONS") ].
Proof.
  eexists. split; [reflexivity|].
  apply (responses_carry_cors unprinted (sample_runtime 0 accepted)
           (sample_event sample_payload) fresh).
  reflexivity.
Defined.

(** The sample submission with seven photos, whatever the provider does. *)
Lemma text_payload_answered_witness :
  exists r st',
    handler unprinted (sample_runtime 0 timeout) (sample_event photos_payload)
      fresh
    = (Normal r, st').
Proof.
  apply (text_payload_answered unprinted (sample_runtime 0 timeout)
           (sample_event photos_payload) fresh).
  intros payload [= <-]. exact photos_text_payload.
Defined.

(** ** Instances of the further properties *)

(** The sample client behind a proxy. *)
Lemma client_ip_normalized_witness :
  sample_ip <> [] /\ ~ In 44%N sample_ip /\ trim sample_ip = sample_ip.
Proof.
  apply (client_ip_normalized (headers (sample_event sample_payload))).
  reflexivity.
Defined.

Lemma forwarded_for_first_hop_witness :
  client_ip (headers (sample_event sample_payload)) = Normal sample_ip.
Proof.
  apply (forwarded_for_first_hop (headers (sample_event sample_payload))
           (lit "203.0.113.7") (lit " 10.0.0.1")).
  - reflexivity.
  - vm_compute. intuition discriminate.
Defined.

(** The sample client is still on record after four busy minutes. *)
Lemma store_never_forgets_witness :
  sample_ip ∈ clients (serve unprinted busy_minutes fresh).
Proof.
  apply store_never_forgets. right.
  apply Exists_cons_hd, sample_from_client.
Defined.

Lemma buckets_stay_tidy_witness :
  store_tidy (serve unprinted busy_minutes fresh).
Proof.
  apply buckets_stay_tidy. apply map_Forall_empty.
Defined.

(** A first valid request: the provider is called, so the payload was
    valid. *)
Lemma emails_only_for_valid_witness :
  exists st1 payload f,
    reaches_quote (sample_runtime 0 accepted) (sample_event sample_payload)
      fresh st1 payload
    /\ company payload = Normal false
    /\ destructure payload = Normal f
    /\ missing unprinted f = Normal None.
Proof.
  apply (emails_only_for_valid unprinted (sample_runtime 0 accepted)
           (sample_event sample_payload) fresh).
  intros H. vm_compute in H. discriminate.
Defined.

(** The request of the sample client after its five in four minutes. *)
Lemma status_codes_witness :
  statusCode too_many_requests = 429 <->
  httpMethod (sample_event sample_payload) = lit "POST"
  /\ fst (rate_limit (sample_runtime 300000 accepted)
            (sample_event sample_payload)
            (serve unprinted busy_minutes fresh))
     = Normal (Some too_many_requests).
Proof.
  apply (status_codes unprinted (sample_runtime 300000 accepted)
           (sample_event sample_payload)
           (serve unprinted busy_minutes fresh) too_many_requests).
  reflexivity.
Defined.

(** A submission with an address of its own, on both versions. *)
Lemma later_answers_as_earlier_witness :
  fst (handler unprinted (sample_runtime 0 accepted)
         (sample_event (with_address (str "1 High St"))) fresh)
  = fst (Earlier.handler unprinted (sample_runtime 0 accepted)
           (sample_event (with_address (str "1 High St"))) fresh).
Proof.
  apply later_answers_as_earlier.
  - intros _. reflexivity.
  - intros payload pc [= <-] H. vm_compute in H. discriminate.
Defined.

(** The sample submission gives a postcode and no address. *)
Lemma earlier_needs_address_witness :
  Earlier.handler unprinted (sample_runtime 0 accepted)
    (sample_event sample_payload) fresh
  = (Normal {| statusCode := 400;
               response_headers := cors_headers;
               response_body :=
                 obj [("error", str "Please provide a postcode.")] |},
     fresh).
Proof.
  eapply (earlier_needs_address unprinted (sample_runtime 0 accepted)
            (sample_event sample_payload) fresh sample_payload);
    reflexivity.
Defined.

Lemma sample_prepared b c :
  exists f req,
    NodeFetch.prepared unprinted (node_fetch_runtime b c)
      (body (sample_event sample_payload)) f req.
Proof.
  eexists _, _, _, _.
  split; [reflexivity|]. split; [reflexivity|]. split; reflexivity.
Qed.

(** The confirmation call timing out after the business email was taken. *)
Lemma awaited_confirmation_decides_witness :
  fst (NodeFetch.handler unprinted unworded
         (node_fetch_runtime taken timed_out) (sample_event sample_payload)
         node_fetch_fresh)
  = NodeFetch.Returns
      {| NodeFetch.statusCode := 500;
         NodeFetch.response_body := obj [("error", str "timeout")] |}
  /\ length (NodeFetch.outbound
               (snd (NodeFetch.handler unprinted unworded
                       (node_fetch_runtime taken timed_out)
                       (sample_event sample_payload) node_fetch_fresh)))
     = 2%nat.
Proof.
  destruct (sample_prepared taken timed_out) as (f & req & Hp).
  destruct (awaited_confirmation_decides unprinted unworded
              (node_fetch_runtime taken timed_out)
              (sample_event sample_payload) node_fetch_fresh f req _ _
              Hp eq_refl eq_refl eq_refl) as (creq & _ & H).
  rewrite H. split; reflexivity.
Defined.

(** The provider turning the business email down. *)
Lemma provider_error_reported_witness :
  fst (NodeFetch.handler unprinted unworded
         (node_fetch_runtime (NodeFetch.Responds turned_down) taken)
         (sample_event sample_payload) node_fetch_fresh)
  = NodeFetch.Returns
      {| NodeFetch.statusCode := 500;
         NodeFetch.response_body :=
           obj [("error", str "MailerSend error: bad from")] |}.
Proof.
  destruct (sample_prepared (NodeFetch.Responds turned_down) taken)
    as (f & req & Hp).
  rewrite (provider_error_reported unprinted unworded
             (node_fetch_runtime (NodeFetch.Responds turned_down) taken)
             (sample_event sample_payload) node_fetch_fresh f req
             turned_down (lit "bad from") Hp eq_refl eq_refl eq_refl).
  reflexivity.
Defined.

(** Seven photos in, seven attachments out. *)
Lemma every_attachment_forwarded_witness :
  exists req ms,
    NodeFetch.business_email unprinted (node_fetch_runtime taken taken)
      photos_fields [] = Normal req
    /\ get (payload_sent req) "attachments" = Normal (VArr ms)
    /\ length ms = 7%nat.
Proof.
  destruct (every_attachment_forwarded unprinted
              (node_fetch_runtime taken taken) photos_fields [] _
              seven_photos eq_refl eq_refl) as (ms & Hg & Hlen & _).
  eexists _, ms. split; [reflexivity|]. split; [exact Hg | exact Hlen].
Defined.

(** The sample submission with seven photos. *)
Lemma text_payload_always_emailed_witness :
  exists f req rest,
    NodeFetch.prepared unprinted (node_fetch_runtime taken taken)
      (body (sample_event photos_payload)) f req
    /\ NodeFetch.outbound
         (snd (NodeFetch.handler unprinted unworded
                 (node_fetch_runtime taken taken)
                 (sample_event photos_payload) node_fetch_fresh))
       = NodeFetch.outbound node_fetch_fresh ++ req :: rest.
Proof.
  apply (text_payload_always_emailed unprinted unworded
           (node_fetch_runtime taken taken) (sample_event photos_payload)
           node_fetch_fresh photos_payload eq_refl photos_text_payload).
Defined.

(** The bucket of the sample client while others call. *)
Lemma buckets_are_isolated_witness :
  bucket_of (serve unprinted others first_hit) sample_ip = [0].
Proof.
  apply (buckets_are_isolated unprinted sample_ip others first_hit).
  repeat constructor.
  - intros [_ H]. vm_compute in H. discriminate.
  - intros [H _]. vm_compute in H. discriminate.
  - intros [_ H]. vm_compute in H. discriminate.
Defined.

(** An empty form. *)
Lemma nameless_payload_400_witness :
  handler unprinted (sample_runtime 0 accepted) (sample_event (obj [])) fresh
  = (Normal {| statusCode := 400;
               response_headers := cors_headers;
               response_body :=
                 obj [("error", str "Please provide a name.")] |},
     first_hit).
Proof.
  apply (nameless_payload_400 unprinted (sample_runtime 0 accepted)
           (sample_event (obj [])) fresh first_hit (obj [])).
  - apply sample_reaches_quote.
  - reflexivity.
  - reflexivity.
Defined.

(** The two emails of a first valid request. *)
Lemma emails_addressed_witness :
  exists payload f,
    parse (body (sample_event sample_payload)) = Some payload
    /\ destructure payload = Normal f
    /\ forall r d,
         In (r, d)
           (outbound (snd (handler unprinted (sample_runtime 0 accepted)
                             (sample_event sample_payload) fresh))) ->
         match d with
         | Awaited =>
             get (payload_sent r) "to"
             = Normal (VArr [obj [("email", str "owner@example.net")]])
             /\ get (payload_sent r) "from"
                = Normal (obj [("email", str "no-reply@example.net")])
             /\ get (payload_sent r) "reply_to"
                = Normal (obj [("email", email f)])
         | Detached =>
             get (payload_sent r) "to"
             = Normal (VArr [obj [("email", email f)]])
         end.
Proof.
  apply (emails_addressed unprinted (sample_runtime 0 accepted)
           (sample_event sample_payload) fresh
           (outbound (snd (handler unprinted (sample_runtime 0 accepted)
                             (sample_event sample_payload) fresh)))).
  - reflexivity.
  - intros H. vm_compute in H. discriminate.
Defined.

(** Markup in a message, and a line feed. *)
Lemma message_reaches_html_witness :
  exists html pre post,
    htmlBody unprinted markup_fields = Normal html
    /\ html = pre ++ (lit "<b>Two</b> shelves," ++ lit "<br>" ++ lit "please.")
              ++ post.
Proof.
  destruct (message_reaches_html unprinted markup_fields _
              (lit "<b>Two</b> shelves," ++ [10%N] ++ lit "please.")
              eq_refl eq_refl) as (pre & post & H).
  eexists _, pre, post. split; [reflexivity | exact H].
Defined.

(** The request of the sample client turned away after its five in four
    minutes. *)
Lemma no_false_rejection_witness :
  (5 <= length (prune 300000
                  (List.map arrival (requests_of sample_ip busy_minutes))))%nat.
Proof.
  apply (no_false_rejection unprinted sample_ip busy_minutes fresh
           (sample_runtime 300000 accepted) (sample_event sample_payload)
           too_many_requests).
  - reflexivity.
  - apply sample_from_client.
  - reflexivity.
  - reflexivity.
Defined.

(** A valid submission without a date: the text of its confirmation. *)
Lemma confirmation_defaults_unused_witness :
  confirmation_text unprinted markup_fields
  = Normal (lit "Hi Ann Lee," ++ nl
            ++ nl
            ++ lit "Thanks for your request. Here" ++ apostrophe
            ++ lit "s what we got:" ++ nl
            ++ lit "- Service: Shelving" ++ nl
            ++ lit "- Postcode/Address: AB1 2CD" ++ nl
            ++ lit "- Preferred date: Not specified" ++ nl
            ++ nl
            ++ lit "We" ++ apostrophe
            ++ lit "ll contact you shortly. If urgent, call 07305 848484."
            ++ nl
            ++ nl
            ++ em_dash ++ lit " ET Handyman Services").
Proof.
  destruct (confirmation_defaults_unused unprinted markup_fields
              (lit "Shelving") (lit "Not specified")
              eq_refl eq_refl eq_refl)
    as (n & a & Hn & Ha & Htext & _ & Hdate & _).
  rewrite Htext. injection Hn as <-. injection Ha as <-. reflexivity.
Defined.
